(** * Key allocation core of the landing-page server

    A shallow embedding of the [distribution] application's allocation
    subsystem: the reputation tiers ([lp_server/reputation.py]), the server
    and credential models ([server/models.py], [distribution/models.py]) and
    the serializer that selects servers, provisions keys and revokes them
    ([distribution/serializers.py]).  Around this core it covers what reads
    and sweeps the credentials: [Vpnuser.get_keys], the parsing of access
    keys ([distribution/utils.py], [distribution/views.py]) and the
    management commands delete_keys_from_servers, deactivate_keys,
    clean_up_old_keys and reset_reputations.

    Conventions of the embedding:
    - integer columns are [Z], character columns are [string], nullable
      columns are [option];
    - a database table is the list of its rows; a queryset is a list of rows;
    - Python exceptions are the [Raise] outcome of a result type;
    - calls to the backends and random draws are answered by an environment
      record, and every backend call is appended to a log kept in the world. *)

From Stdlib Require Import ZArith List String Ascii Bool Lia QArith DecimalString.
Import ListNotations.

Open Scope string_scope.
Open Scope list_scope.
Open Scope Z_scope.

(** ** Settings *)

Record Settings := {
  REAL_VPN_SERVERS : bool;
  REPUTATION_MAP : option (list Z);   (* [None]: the attribute is not set *)
  GTF_PROB_WEIGHT : Z
}.

(** ** Reputation tiers: lp_server/reputation.py *)

Module ReputationSystem.

Definition default_reputation_map : list Z := [0; 1; 2; 3].

Definition reputation_map (st : Settings) : list Z :=
    match REPUTATION_MAP st with
    | Some m => m
    | None => default_reputation_map
    end.

(** [for n in reversed(range(len(reputation_map)))]: the first index of
      [ns] whose threshold the reputation reaches. *)
Fixpoint scan (user_reputation : Z) (reputation_map : list Z) (ns : list nat)
    : option nat :=
    match ns with
    | [] => None
    | n :: ns' =>
        if user_reputation >=? nth n reputation_map 0 then Some n
        else scan user_reputation reputation_map ns'
    end.

Definition server_level_of (reputation_map : list Z) (user_reputation : Z) : Z :=
    match scan user_reputation reputation_map
                (rev (seq 0 (List.length reputation_map))) with
    | Some n => Z.of_nat n
    | None => 0
    end.

Definition server_level (st : Settings) (user_reputation : Z) : Z :=
    server_level_of (reputation_map st) user_reputation.

Definition after_new_key (curr_rep : Z) : Z := curr_rep + 1.

End ReputationSystem.

(** ** Servers: server/models.py *)

Module DistributionModelChoice.
Definition BASIC : Z := 0.
Definition LOCATIONED : Z := 1.
Definition FIXED_IP : Z := 2.
End DistributionModelChoice.

Record OutlineServer := {
  srv_id : Z;
  srv_type : string;                (* 'legacy', 'central' or 'gtf' *)
  srv_user_src : string;
  srv_level : Z;
  srv_active : bool;
  srv_is_blocked : bool;
  srv_is_distributing : bool;
  srv_dist_model : Z;
  srv_location : option Z;
  srv_api_url : string;
  srv_api_cert : string;
  srv_label : string
}.

Definition is_working (self : OutlineServer) : bool :=
  if negb (srv_is_blocked self) && srv_is_distributing self && srv_active self
  then true else false.

(** ** Users and credentials: distribution/models.py *)

Inductive DeletionCause := NA | INACTIVE.

Record Vpnuser := {
  vu_id : Z;
  vu_username : string;
  vu_channel : string;
  vu_reputation : Z;
  vu_banned : bool
}.

Record OutlineUser := {
  ou_id : Z;
  ou_user : option Z;
  ou_server : Z;
  ou_outline_key_id : Z;
  ou_outline_key : string;
  ou_reputation : Z;
  ou_transfer : option Z;
  ou_user_issue : option Z;
  ou_active : bool;
  ou_removed : bool;
  ou_exists_on_server : bool;
  ou_group_id : option Z;
  ou_delete_date : option Z;
  ou_deletion_cause : DeletionCause;
  ou_request_type : string;
  ou_created_date : Z;
  ou_updated_date : Z
}.

(** [OutlineUser.deactivate]; [now] is the time [save] stamps on
    [updated_date].  The result is the row as it is stored afterwards. *)
Definition deactivate (now : Z) (self : OutlineUser)
           (issue : option Z) (transfer : option Z) : OutlineUser :=
  if (ou_request_type self =? "legacy")%string then
    {| ou_id := ou_id self;
       ou_user := ou_user self;
       ou_server := ou_server self;
       ou_outline_key_id := ou_outline_key_id self;
       ou_outline_key := ou_outline_key self;
       ou_reputation := ou_reputation self;
       ou_transfer := transfer;
       ou_user_issue := issue;
       ou_active := ou_active self;
       ou_removed := true;
       ou_exists_on_server := ou_exists_on_server self;
       ou_group_id := ou_group_id self;
       ou_delete_date := None;
       ou_deletion_cause := NA;
       ou_request_type := ou_request_type self;
       ou_created_date := ou_created_date self;
       ou_updated_date := now |}
  else self.

(** [OutlineUser.reactivate]. *)
Definition reactivate (now : Z) (self : OutlineUser) : OutlineUser :=
  if (ou_request_type self =? "legacy")%string then
    {| ou_id := ou_id self;
       ou_user := ou_user self;
       ou_server := ou_server self;
       ou_outline_key_id := ou_outline_key_id self;
       ou_outline_key := ou_outline_key self;
       ou_reputation := ou_reputation self;
       ou_transfer := None;
       ou_user_issue := None;
       ou_active := ou_active self;
       ou_removed := false;
       ou_exists_on_server := ou_exists_on_server self;
       ou_group_id := ou_group_id self;
       ou_delete_date := None;
       ou_deletion_cause := NA;
       ou_request_type := ou_request_type self;
       ou_created_date := ou_created_date self;
       ou_updated_date := now |}
  else self.

(** ** The remaining tables *)

Record Location := {
  loc_id : Z;
  loc_active : bool
}.

Record Prefix := {
  pfx_port : option Z;
  pfx_prefix_str : string;
  pfx_is_active : bool
}.

Record LoadBalancer := {
  lb_host_name : string;
  lb_server : option Z;
  lb_is_active : bool;
  lb_replaces_ip : bool
}.

Record OnlineConfig := {
  oc_file_name : string;
  oc_storage_service : string;
  oc_outline_user : option Z
}.

Record DB := {
  servers : list OutlineServer;
  vpnusers : list Vpnuser;
  outline_users : list OutlineUser;
  locations : list Location;
  prefixes : list Prefix;
  load_balancers : list LoadBalancer;
  issues : list Z;
  online_configs : list OnlineConfig
}.

(** ** Exceptions and results *)

Inductive Exc :=
| NotAcceptable (detail : Detail)
| KeyError (key : string)
| IndexError
| TypeError
| DoesNotExist (model : string)
| MultipleObjectsReturned (model : string)
| GtfStatus (status_code : Z)
| UploadError
with Detail :=
| User_does_not_exist
| User_already_has_a_key
| User_is_banned (user_id : Z)
| No_server_found_for_user (user_id : Z)
| Outline_server_error
| Outline_key_creation_error
| No_central_server_found
| Gtf_creation_failed (cause : Exc)
| Request_type_is_not_acceptable
| Active_load_balancer_not_found
| Unable_to_create_keys (user_id : Z) (cause : Exc).

Inductive Result (A : Type) :=
| Ok (a : A)
| Raise (e : Exc).
Arguments Ok {A} a.
Arguments Raise {A} e.

(** ** Key dictionaries

    The dictionaries handed to [remove_key_from_server].  A field is [None]
    when the dictionary has no such entry; subscripting it raises
    [KeyError]. *)

Record KeyDict := {
  kd_id : option Z;
  kd_server : option Z;
  kd_outline_key_id : option Z;
  kd_outline_key : option string;
  kd_exists_on_server : option bool
}.

Definition subscript {A} (entry : option A) (name : string) : Result A :=
  match entry with
  | Some v => Ok v
  | None => Raise (KeyError name)
  end.

(** distribution/utils.py, [get_key_dict] *)
Definition get_key_dict (keys : list OutlineUser) : list KeyDict :=
  map (fun key =>
         {| kd_id := Some (ou_id key);
            kd_server := Some (ou_server key);
            kd_outline_key_id := Some (ou_outline_key_id key);
            kd_outline_key := Some (ou_outline_key key);
            kd_exists_on_server := None |}) keys.

(** ** The outside world *)

Inductive Call :=
| ManagerNew (server : Z)
| ManagerDelete (server : Z) (outline_key_id : Z)
| HttpDelete (url : string)
| HttpGet (url : string)
| UpdateJsonFile (file_name : string).

Inductive NewOutcome :=
| NewKey (id : Z) (accessUrl : string)
| NewNone
| NewRaises.

(** What [manager.delete] does: returns, raises [OutlineTimeoutError],
    raises [DoesNotExistError], or raises anything else. *)
Inductive DeleteOutcome :=
| Deleted
| TimedOut
| NotFound
| DeleteFailed.

(** Answers of the collaborators.  Every backend answer may depend on the
    calls made so far.  The regular-expression rewrites of
    distribution/utils.py and the upload of the configuration file are taken
    as given functions: no property below depends on what they compute. *)
Record Env := {
  settings : Settings;
  test_in_argv : bool;
  sha512_hexdigest : string -> string;
  random_draw : nat -> Z;
  manager_new : list Call -> OutlineServer -> NewOutcome;
  manager_delete : list Call -> OutlineServer -> Z -> DeleteOutcome;
  http_delete : list Call -> string -> Z;
  gtf_get_key : list Call -> string -> Z * Z;
  gtf_get_access_url : list Call -> string -> string;
  replace_port : string -> option Z -> string;
  replace_ip : string -> string -> string;
  update_json_file : list Call -> string -> string -> option string -> bool;
  secrets_file_name : nat -> string
}.

Record World := {
  db : DB;
  calls : list Call;
  rnd : nat;
  now : Z;
  created_keys : list KeyDict       (* the list object shared by create and create_keys *)
}.

Definition set_db (d : DB) (w : World) : World :=
  {| db := d; calls := calls w; rnd := rnd w; now := now w;
     created_keys := created_keys w |}.

Definition log_call (c : Call) (w : World) : World :=
  {| db := db w; calls := calls w ++ [c]; rnd := rnd w; now := now w;
     created_keys := created_keys w |}.

Definition next_rnd (w : World) : World :=
  {| db := db w; calls := calls w; rnd := S (rnd w); now := now w;
     created_keys := created_keys w |}.

Definition set_created_keys (l : list KeyDict) (w : World) : World :=
  {| db := db w; calls := calls w; rnd := rnd w; now := now w;
     created_keys := l |}.

(** ** A state and exception monad *)

Definition M (A : Type) : Type := World -> Result A * World.

Definition ret {A} (a : A) : M A := fun w => (Ok a, w).

Definition raise {A} (e : Exc) : M A := fun w => (Raise e, w).

Definition bind {A B} (m : M A) (f : A -> M B) : M B :=
  fun w =>
    match m w with
    | (Ok a, w') => f a w'
    | (Raise e, w') => (Raise e, w')
    end.

Declare Scope m_scope.
Delimit Scope m_scope with M.
Notation "x <- m ;; k" := (bind m (fun x => k))
  (at level 61, m at next level, right associativity) : m_scope.
Notation "m ;;; k" := (bind m (fun _ => k))
  (at level 61, right associativity) : m_scope.
Open Scope m_scope.

Definition lift {A} (r : Result A) : M A := fun w => (r, w).

Definition try_except {A} (m : M A) (handler : Exc -> M A) : M A :=
  fun w =>
    match m w with
    | (Ok a, w') => (Ok a, w')
    | (Raise e, w') => handler e w'
    end.

Definition get_world : M World := fun w => (Ok w, w).
Definition get_db : M DB := fun w => (Ok (db w), w).
Definition put_db (d : DB) : M unit := fun w => (Ok tt, set_db d w).

(** The next raw draw of the random generator. *)
Definition draw (env : Env) : M Z :=
  fun w => (Ok (random_draw env (rnd w)), next_rnd w).

(** [random.randint(a, b)] *)
Definition randint (env : Env) (a b : Z) : M Z :=
  r <- draw env ;; ret (a + r mod (b - a + 1)).

(** [random.choice(seq)]: raises on an empty sequence. *)
Definition choice {A} (env : Env) (l : list A) : M A :=
  match l with
  | [] => raise IndexError
  | _ :: _ =>
      r <- draw env ;;
      match nth_error l (Z.to_nat (r mod Z.of_nat (List.length l))) with
      | Some x => ret x
      | None => raise IndexError
      end
  end.

(** ** Querysets *)

(** [Model.objects.get(...)] over the rows that match. *)
Definition objects_get {A} (model : string) (matching : list A) : Result A :=
  match matching with
  | [x] => Ok x
  | [] => Raise (DoesNotExist model)
  | _ :: _ :: _ => Raise (MultipleObjectsReturned model)
  end.

Definition server_by_id (d : DB) (id : Z) : list OutlineServer :=
  filter (fun s => srv_id s =? id) (servers d).

(** [user.outline_keys.all()] *)
Definition outline_keys (d : DB) (user : Vpnuser) : list OutlineUser :=
  filter (fun k => match ou_user k with
                   | Some u => u =? vu_id user
                   | None => false
                   end) (outline_users d).

(** [key.server]; the foreign key is protected, so the row is there. *)
Definition key_server (d : DB) (key : OutlineUser) : option OutlineServer :=
  hd_error (server_by_id d (ou_server key)).

(** The row of smallest primary key: [.first()] on an unordered queryset. *)
Fixpoint first_by_pk (keys : list OutlineUser) : option OutlineUser :=
  match keys with
  | [] => None
  | k :: rest =>
      match first_by_pk rest with
      | Some k' => if ou_id k' <? ou_id k then Some k' else Some k
      | None => Some k
      end
  end.

(** [Count('users', filter=Q(users__active=True, users__removed=False))] *)
Definition usercount (d : DB) (s : OutlineServer) : Z :=
  Z.of_nat (List.length
              (filter (fun k => (ou_server k =? srv_id s)
                                && ou_active k && negb (ou_removed k))
                      (outline_users d))).

(** A server annotated with its [usercount]. *)
Abbreviation AnnotatedServer := (OutlineServer * Z)%type.

(** [order_by('-usercount')]; rows of equal count keep the table order. *)
Fixpoint insert_desc (x : AnnotatedServer) (l : list AnnotatedServer)
  : list AnnotatedServer :=
  match l with
  | [] => [x]
  | y :: l' => if snd x <? snd y then y :: insert_desc x l' else x :: y :: l'
  end.

Fixpoint order_by_usercount_desc (l : list AnnotatedServer) : list AnnotatedServer :=
  match l with
  | [] => []
  | x :: l' => insert_desc x (order_by_usercount_desc l')
  end.

(** Python truth value of an optional primary key. *)
Definition truthy (location : option Z) : bool :=
  match location with
  | Some z => negb (z =? 0)
  | None => false
  end.

(** ** Server selection: OutlineuserSerializer *)

(** The six-column filter shared by both branches of [get_server_by_level];
    [level_ok] is the level condition of the branch. *)
Definition base_filter (level_ok : Z -> bool) (dist_model : Z) (user : Vpnuser)
           (s : OutlineServer) : bool :=
  (srv_type s =? "legacy")%string
  && srv_active s
  && srv_is_distributing s
  && level_ok (srv_level s)
  && (srv_dist_model s =? dist_model)
  && (srv_user_src s =? vu_channel user)%string.

Definition last_servers (d : DB) (user : Vpnuser) : list Z :=
  nodup Z.eq_dec (map ou_server (outline_keys d user)).

Definition get_server_by_level (d : DB) (user : Vpnuser) (level : Z)
           (limited exclude : bool) (dist_model : Z) (location : option Z)
  : list AnnotatedServer :=
  let servers0 :=
    if limited then
      filter (base_filter (fun l => l =? level) dist_model user) (servers d)
    else
      filter (base_filter (fun l => l >? level) dist_model user) (servers d) in
  let servers1 :=
    if truthy location then
      filter (fun s => match srv_location s, location with
                       | Some a, Some b => a =? b
                       | _, _ => false
                       end) servers0
    else servers0 in
  let servers2 :=
    if exclude then
      filter (fun s => negb (existsb (Z.eqb (srv_id s)) (last_servers d user)))
             servers1
    else servers1 in
  order_by_usercount_desc (map (fun s => (s, usercount d s)) servers2).

(** First loop of [find_server]: returns at the first idle server, else
    accumulates the sum of the inverse counts. *)
Fixpoint scan_idle (servers : list AnnotatedServer) (inverse_total : Q)
  : OutlineServer + Q :=
  match servers with
  | [] => inr inverse_total
  | (server, usercount) :: rest =>
      if usercount =? 0 then inl server
      else scan_idle rest (inverse_total + 1 / inject_Z usercount)%Q
  end.

(** Second loop of [find_server]: [prob] decreases by each server's share;
    the loop variable at exit is the answer.  Python computes in floating
    point, the model in exact rationals. *)
Fixpoint walk (servers : list AnnotatedServer) (inverse_total prob : Q)
         (server : option OutlineServer) : option OutlineServer :=
  match servers with
  | [] => server
  | (s, usercount) :: rest =>
      let prob' :=
        (prob - ((1 / inject_Z usercount) * (1 / inverse_total)) * 100)%Q in
      if Qle_bool prob' 0 then Some s
      else walk rest inverse_total prob' (Some s)
  end.

Definition find_server (env : Env) (servers : list AnnotatedServer)
  : M (option OutlineServer) :=
  let count := Z.of_nat (List.length servers) in
  if count >? 1 then
    match scan_idle servers 0%Q with
    | inl server => ret (Some server)
    | inr inverse_total =>
        prob <- randint env 0 100 ;;
        ret (walk servers inverse_total (inject_Z prob) None)
    end
  else ret (option_map fst (hd_error servers)).

(** [for x in xs: r = body(x); if r is not None: break] *)
Fixpoint for_until_found {A B} (body : A -> M (option B)) (xs : list A)
         (last : option B) : M (option B) :=
  match xs with
  | [] => ret last
  | x :: xs' =>
      r <- body x ;;
      match r with
      | Some _ => ret r
      | None => for_until_found body xs' r
      end
  end.

(** The body of the loop over locations in [get_server]. *)
Definition get_server_at (env : Env) (user : Vpnuser) (level dist_model : Z)
           (loc : option Location) : M (option OutlineServer) :=
  for_until_found
    (fun exclude =>
       for_until_found
         (fun limited =>
            d <- get_db ;;
            find_server env
              (get_server_by_level d user level limited exclude dist_model
                 (option_map loc_id loc)))
         [true; false] None)
    [true; false] None.

Fixpoint get_server_loop (env : Env) (user : Vpnuser) (level dist_model : Z)
         (locations : list (option Location)) (server_list : list OutlineServer)
  : M (list OutlineServer) :=
  match locations with
  | [] => ret server_list
  | loc :: rest =>
      server <- get_server_at env user level dist_model loc ;;
      match server with
      | None => get_server_loop env user level dist_model rest server_list
      | Some s =>
          get_server_loop env user level dist_model rest (server_list ++ [s])
      end
  end.

Definition get_server (env : Env) (user : Vpnuser) (level dist_model : Z)
           (location : option Location) : M (list OutlineServer) :=
  d <- get_db ;;
  let locations :=
    if dist_model =? DistributionModelChoice.LOCATIONED
    then map Some (filter loc_active (locations d))
    else [location] in
  get_server_loop env user level dist_model locations [].

Definition increase_reputation (d : DB) (user : Vpnuser) (dist_model : Z) : bool :=
  if dist_model =? DistributionModelChoice.LOCATIONED then
    if Z.of_nat (List.length (outline_keys d user)) =? 0 then false
    else
      existsb (fun key => match key_server d key with
                          | Some server => is_working server
                          | None => false
                          end) (outline_keys d user)
  else if dist_model =? DistributionModelChoice.FIXED_IP then false
  else
    match first_by_pk (outline_keys d user) with
    | Some outline_user =>
        match key_server d outline_user with
        | Some server => is_working server
        | None => false
        end
    | None => false
    end.

(** ** Strings *)

(** [str(n)] of an integer, as an f-string renders it. *)
Definition str (n : Z) : string := NilZero.string_of_int (Z.to_int n).

(** [if api_url.endswith('/'): api_url = api_url[:-1]] *)
Fixpoint strip_trailing_slash (api_url : string) : string :=
  match api_url with
  | EmptyString => EmptyString
  | String c rest =>
      match rest with
      | EmptyString => if Ascii.eqb c "/" then EmptyString else api_url
      | String _ _ => String c (strip_trailing_slash rest)
      end
  end.

(** ** Row updates *)

Definition set_exists_on_server (b : bool) (k : OutlineUser) : OutlineUser :=
  {| ou_id := ou_id k;
     ou_user := ou_user k;
     ou_server := ou_server k;
     ou_outline_key_id := ou_outline_key_id k;
     ou_outline_key := ou_outline_key k;
     ou_reputation := ou_reputation k;
     ou_transfer := ou_transfer k;
     ou_user_issue := ou_user_issue k;
     ou_active := ou_active k;
     ou_removed := ou_removed k;
     ou_exists_on_server := b;
     ou_group_id := ou_group_id k;
     ou_delete_date := ou_delete_date k;
     ou_deletion_cause := ou_deletion_cause k;
     ou_request_type := ou_request_type k;
     ou_created_date := ou_created_date k;
     ou_updated_date := ou_updated_date k |}.

Definition set_outline_users (l : list OutlineUser) (d : DB) : DB :=
  {| servers := servers d;
     vpnusers := vpnusers d;
     outline_users := l;
     locations := locations d;
     prefixes := prefixes d;
     load_balancers := load_balancers d;
     issues := issues d;
     online_configs := online_configs d |}.

Definition set_vpnusers (l : list Vpnuser) (d : DB) : DB :=
  {| servers := servers d;
     vpnusers := l;
     outline_users := outline_users d;
     locations := locations d;
     prefixes := prefixes d;
     load_balancers := load_balancers d;
     issues := issues d;
     online_configs := online_configs d |}.

Definition set_online_configs (l : list OnlineConfig) (d : DB) : DB :=
  {| servers := servers d;
     vpnusers := vpnusers d;
     outline_users := outline_users d;
     locations := locations d;
     prefixes := prefixes d;
     load_balancers := load_balancers d;
     issues := issues d;
     online_configs := l |}.

(** [OutlineUser.objects.filter(id=id).update(exists_on_server=False)] *)
Definition mark_gone (id : Z) : M unit :=
  d <- get_db ;;
  put_db (set_outline_users
            (map (fun k => if ou_id k =? id then set_exists_on_server false k
                           else k) (outline_users d)) d).

(** ** Backend calls *)

(** [requests.request("DELETE", url)], for an endpoint that answers: the
    result is the status code of the response.  The call stands outside any
    [try]: a request that gets no response raises out of
    [remove_key_from_server].  The oracle has no value for that case, so
    the model covers the runs in which every DELETE request gets a
    response; that a revocation returns whatever the backends do is stated
    below only where this call is not made: in simulated mode and for
    servers that are no GTF servers. *)
Definition request_delete (env : Env) (url : string) : M Z :=
  fun w => (Ok (http_delete env (calls w) url), log_call (HttpDelete url) w).

Definition outline_manager_delete_key (env : Env) (server : OutlineServer)
           (outline_key_id : Z) : M DeleteOutcome :=
  fun w => (Ok (manager_delete env (calls w) server outline_key_id),
            log_call (ManagerDelete (srv_id server) outline_key_id) w).

Definition outline_manager_create_key (env : Env) (server : OutlineServer)
  : M NewOutcome :=
  fun w => (Ok (manager_new env (calls w) server),
            log_call (ManagerNew (srv_id server)) w).

(** ** Revocation: remove_key_from_server *)

(** One turn of the loop over [keys]; the result is [failed_keys] after it. *)
Definition remove_one_key (env : Env) (key : KeyDict) (failed_keys : list Z)
  : M (list Z) :=
  id <- lift (subscript (kd_id key) "id") ;;
  if REAL_VPN_SERVERS (settings env) then
    server <- lift (subscript (kd_server key) "server") ;;
    outline_key_id <- lift (subscript (kd_outline_key_id key) "outline_key_id") ;;
    d <- get_db ;;
    server <- lift (objects_get "OutlineServer" (server_by_id d server)) ;;
    (* Removing key created using GTF API *)
    failed_keys <-
      (if (srv_type server =? "gtf")%string then
         let api_url := strip_trailing_slash (srv_api_url server) in
         let url := (api_url ++ "/" ++ str outline_key_id)%string in
         status_code <- request_delete env url ;;
         if status_code =? 404 then mark_gone id ;;; ret failed_keys
         else if status_code =? 200 then mark_gone id ;;; ret failed_keys
         else ret (failed_keys ++ [id])
       else ret failed_keys) ;;
    (* Removing key created using Central or Legacy system *)
    if negb (srv_active server) then
      mark_gone id ;;; ret failed_keys
    else
      outcome <- outline_manager_delete_key env server outline_key_id ;;
      match outcome with
      | Deleted => mark_gone id ;;; ret failed_keys
      | TimedOut => ret (failed_keys ++ [id])
      | NotFound => mark_gone id ;;; ret failed_keys
      | DeleteFailed => ret (failed_keys ++ [id])
      end
  else
    mark_gone id ;;;
    (_ <- lift (subscript (kd_outline_key_id key) "outline_key_id") ;;
     ret failed_keys).

Fixpoint remove_keys_loop (env : Env) (keys : list KeyDict)
         (failed_keys : list Z) : M (list Z) :=
  match keys with
  | [] => ret failed_keys
  | key :: rest =>
      failed_keys <- remove_one_key env key failed_keys ;;
      remove_keys_loop env rest failed_keys
  end.

Definition remove_key_from_server (env : Env) (keys : list KeyDict)
  : M (list Z) :=
  remove_keys_loop env keys [].

(** ** Provisioning: create_key_on_server *)

Definition create_key_on_server (env : Env) (server : OutlineServer)
  : M (Z * string) :=
  if negb (REAL_VPN_SERVERS (settings env)) then
    id <- randint env 1 100 ;;
    n <- randint env 1 100 ;;
    ret (id, ("https://localserver" ++ str n ++ "/api")%string)
  else
    new_key <- outline_manager_create_key env server ;;
    match new_key with
    | NewRaises => raise (NotAcceptable Outline_server_error)
    | NewNone => raise (NotAcceptable Outline_server_error)
    | NewKey id accessUrl => ret (id, accessUrl)
    end.

(** ** remove_keys_from_db

    [user_issue] is an issue id or [None]; primary keys start at 1, so a falsy
    id stands for no issue. *)

Definition replace_row (row : OutlineUser) (d : DB) : DB :=
  set_outline_users
    (map (fun k => if ou_id k =? ou_id row then row else k) (outline_users d)) d.

Fixpoint deactivate_keys (keys : list OutlineUser) (user_issue : option Z)
  : M unit :=
  match keys with
  | [] => ret tt
  | key :: rest =>
      d <- get_db ;;
      w <- get_world ;;
      (* key.refresh_from_db() *)
      key <- lift (objects_get "OutlineUser"
                     (filter (fun k => ou_id k =? ou_id key) (outline_users d))) ;;
      put_db (replace_row (deactivate (now w) key user_issue None) d) ;;;
      deactivate_keys rest user_issue
  end.

Definition remove_keys_from_db (keys : list OutlineUser) (user_issue : option Z)
  : M unit :=
  d <- get_db ;;
  let user_issue :=
    if truthy user_issue then
      match user_issue with
      | Some i => if existsb (Z.eqb i) (issues d) then Some i else None
      | None => None
      end
    else None in
  deactivate_keys keys user_issue.

(** ** Key creation: create_keys *)

(** [OutlineUser.objects.aggregate(max=Max('group_id'))['max']] *)
Definition max_group_id (d : DB) : option Z :=
  fold_left (fun acc k =>
               match ou_group_id k, acc with
               | Some g, Some a => Some (Z.max a g)
               | Some g, None => Some g
               | None, _ => acc
               end) (outline_users d) None.

(** [int(group_id) + 1 if group_id else 1] *)
Definition next_group_id (d : DB) : Z :=
  match max_group_id d with
  | Some group_id => if group_id =? 0 then 1 else group_id + 1
  | None => 1
  end.

(** The primary key the database gives to the next credential. *)
Definition next_pk (d : DB) : Z :=
  1 + fold_left (fun acc k => Z.max acc (ou_id k)) (outline_users d) 0.

(** [OutlineUser.objects.create(...)] with the model's defaults. *)
Definition objects_create (user : Vpnuser) (server : OutlineServer)
           (outline_key_id : Z) (outline_key : string) (group_id : option Z)
           (reputation : Z) (request_type : string) : M OutlineUser :=
  fun w =>
    let row :=
      {| ou_id := next_pk (db w);
         ou_user := Some (vu_id user);
         ou_server := srv_id server;
         ou_outline_key_id := outline_key_id;
         ou_outline_key := outline_key;
         ou_reputation := reputation;
         ou_transfer := None;
         ou_user_issue := None;
         ou_active := true;
         ou_removed := false;
         ou_exists_on_server := true;
         ou_group_id := group_id;
         ou_delete_date := None;
         ou_deletion_cause := NA;
         ou_request_type := request_type;
         ou_created_date := now w;
         ou_updated_date := now w |} in
    (Ok row, set_db (set_outline_users (outline_users (db w) ++ [row]) (db w)) w).

(** [created_keys.append({...})]: the entry carries no ['id']. *)
Definition append_created_key (server : OutlineServer) (outline_key_id : Z)
           (outline_key : string) : M unit :=
  fun w =>
    (Ok tt,
     set_created_keys
       (created_keys w ++
        [{| kd_id := None;
            kd_server := Some (srv_id server);
            kd_outline_key_id := Some outline_key_id;
            kd_outline_key := Some outline_key;
            kd_exists_on_server := Some true |}]) w).

(** The prefix step: a failure is logged and the key kept as it is. *)
Definition apply_prefix (env : Env) (outline_key : string)
  : M (string * option string) :=
  d <- get_db ;;
  try_except
    (random_prefix <- choice env (filter pfx_is_active (prefixes d)) ;;
     ret (replace_port env outline_key (pfx_port random_prefix),
          Some (pfx_prefix_str random_prefix)))
    (fun _ => ret (outline_key, None)).

(** The loop over [server_list] in the legacy branch; the state of the loop
    is the last row created and the last prefix string. *)
Fixpoint legacy_loop (env : Env) (user : Vpnuser) (request_type : string)
         (group_id : option Z) (new_rep : Z) (server_list : list OutlineServer)
         (outline_user : option OutlineUser) (prefix_str : option string)
  : M (option OutlineUser * option string) :=
  match server_list with
  | [] => ret (outline_user, prefix_str)
  | server :: rest =>
      new_key <- try_except (create_key_on_server env server)
                   (fun _ => raise (NotAcceptable Outline_key_creation_error)) ;;
      let outline_key_id := fst new_key in
      kp <- apply_prefix env (snd new_key) ;;
      let outline_key := fst kp in
      append_created_key server outline_key_id outline_key ;;;
      (row <- objects_create user server outline_key_id outline_key group_id
                new_rep request_type ;;
       legacy_loop env user request_type group_id new_rep rest
         (Some row) (snd kp))
  end.

(** [user.save()] *)
Definition save_user (user : Vpnuser) : M unit :=
  d <- get_db ;;
  put_db (set_vpnusers
            (map (fun u => if vu_id u =? vu_id user then user else u)
                 (vpnusers d)) d).

Definition with_reputation (r : Z) (user : Vpnuser) : Vpnuser :=
  {| vu_id := vu_id user;
     vu_username := vu_username user;
     vu_channel := vu_channel user;
     vu_reputation := r;
     vu_banned := vu_banned user |}.

Definition request_get_key (env : Env) (url : string) : M (Z * Z) :=
  fun w => (Ok (gtf_get_key env (calls w) url), log_call (HttpGet url) w).

Definition request_get_text (env : Env) (url : string) : M string :=
  fun w => (Ok (gtf_get_access_url env (calls w) url), log_call (HttpGet url) w).

Definition create_keys_gtf (env : Env) (server : OutlineServer)
  : M (Z * string) :=
  let api_url := strip_trailing_slash (srv_api_url server) in
  response <- request_get_key env api_url ;;
  if fst response =? 200 then
    let key_id := snd response in
    access_url <- request_get_text env
                    (api_url ++ "/" ++ str key_id ++ "/?format=url")%string ;;
    ret (key_id, access_url)
  else raise (GtfStatus (fst response)).

Definition distributing_of_type (d : DB) (type : string) : list OutlineServer :=
  filter (fun s => (srv_type s =? type)%string && srv_active s
                   && srv_is_distributing s) (servers d).

(** [model] is the ['model'] entry of [validated_data], if any; the other
    entries have been popped by [create]. *)
Definition create_keys (env : Env) (user : Vpnuser) (request_type : string)
           (model : option Z) : M (OutlineUser * option string) :=
  if (request_type =? "legacy")%string then
    let dist_model := match model with
                      | Some m => m
                      | None => DistributionModelChoice.BASIC
                      end in
    d <- get_db ;;
    let group_id :=
      if dist_model =? DistributionModelChoice.LOCATIONED
      then Some (next_group_id d) else None in
    let new_rep :=
      if increase_reputation d user dist_model
      then ReputationSystem.after_new_key (vu_reputation user)
      else vu_reputation user in
    let level := ReputationSystem.server_level (settings env) new_rep in
    server_list <- get_server env user level dist_model None ;;
    match server_list with
    | [] => raise (NotAcceptable (No_server_found_for_user (vu_id user)))
    | _ :: _ =>
        r <- legacy_loop env user request_type group_id new_rep server_list
               None None ;;
        (if negb (new_rep =? vu_reputation user)
         then save_user (with_reputation new_rep user) else ret tt) ;;;
        match fst r with
        | Some outline_user => ret (outline_user, snd r)
        | None => raise TypeError     (* not reached: server_list is not empty *)
        end
    end
  else
    d <- get_db ;;
    sk <-
      (if (request_type =? "central")%string then
         server <- try_except (choice env (distributing_of_type d "central"))
                     (fun _ => raise (NotAcceptable No_central_server_found)) ;;
         new_key <- try_except (create_key_on_server env server)
                      (fun _ => raise (NotAcceptable Outline_key_creation_error)) ;;
         ret (server, new_key)
       else if (request_type =? "gtf")%string then
         try_except
           (server <- choice env (distributing_of_type d "gtf") ;;
            new_key <- create_keys_gtf env server ;;
            ret (server, new_key))
           (fun exc => raise (NotAcceptable (Gtf_creation_failed exc)))
       else raise (NotAcceptable Request_type_is_not_acceptable)) ;;
    let server := fst sk in
    let outline_key_id := fst (snd sk) in
    random_loadbalancer <-
      try_except
        (choice env (filter (fun lb => match lb_server lb with
                                       | Some s => (s =? srv_id server)
                                       | None => false
                                       end && lb_is_active lb)
                            (load_balancers d)))
        (fun _ => raise (NotAcceptable Active_load_balancer_not_found)) ;;
    let outline_key :=
      if negb (request_type =? "gtf")%string
         && lb_replaces_ip random_loadbalancer
      then replace_ip env (snd (snd sk)) (lb_host_name random_loadbalancer)
      else snd (snd sk) in
    kp <- apply_prefix env outline_key ;;
    append_created_key server outline_key_id (fst kp) ;;;
    match model with
    | Some _ => raise TypeError      (* 'model' is no field of OutlineUser *)
    | None =>
        outline_user <- objects_create user server outline_key_id (fst kp)
                          None 0 request_type ;;
        ret (outline_user, snd kp)
    end.

(** ** The entry point: create *)

Record ValidatedData := {
  vd_user : string;
  vd_request_type : option string;
  vd_model : option Z;
  vd_user_issue : option Z
}.

Definition hash_user_id (env : Env) (user_id : string) : option string :=
  match user_id with
  | EmptyString => None
  | String _ _ =>
      if test_in_argv env then Some user_id
      else Some (sha512_hexdigest env user_id)
  end.

(** The distinct types of the servers that are active and distributing. *)
Definition active_types (d : DB) : list string :=
  nodup string_dec
        (map srv_type
             (filter (fun s => srv_active s && srv_is_distributing s) (servers d))).

Definition is_gtf_or_central (type : string) : bool :=
  ((type =? "gtf") || (type =? "central"))%string.

(** [random.choices(['gtf', 'central'], weights=(w, 100 - w), k=1)[0]]; the
    uniform variate is taken in whole hundredths. *)
Definition weighted_request_type (env : Env) (gtf_weight : Z) : M string :=
  r <- draw env ;;
  if r mod 100 <? gtf_weight then ret "gtf" else ret "central".

Definition random_request_type (env : Env) (active_types_list : list string)
  : M string :=
  if forallb is_gtf_or_central active_types_list
     && (Z.of_nat (List.length active_types_list) =? 2)
  then
    weighted_request_type env
      (if REAL_VPN_SERVERS (settings env)
       then GTF_PROB_WEIGHT (settings env) else 50)
  else choice env active_types_list.

(** The update of the configuration file in real mode. *)
Definition update_online_config (env : Env) (outline_user : OutlineUser)
           (prefix_str : option string) : M unit :=
  d <- get_db ;;
  w <- get_world ;;
  let upload (file_name : string) : M unit :=
    fun w' =>
      let ok := update_json_file env (calls w') file_name
                  (ou_outline_key outline_user) prefix_str in
      (if ok then Ok tt else Raise UploadError,
       log_call (UpdateJsonFile file_name) w') in
  match filter (fun c => match oc_outline_user c with
                         | Some i => i =? ou_id outline_user
                         | None => false
                         end) (online_configs d) with
  | [online_config] => upload (oc_file_name online_config)
  | [] =>
      let file_name := secrets_file_name env (rnd w) in
      put_db (set_online_configs
                (online_configs d ++
                 [{| oc_file_name := file_name;
                     oc_storage_service := "s3";
                     oc_outline_user := Some (ou_id outline_user) |}]) d) ;;;
      upload file_name
  | _ :: _ :: _ => raise (MultipleObjectsReturned "OnlineConfig")
  end.

(** [with transaction.atomic(): body]: when the body raises, the database
    goes back to what it was; calls made and Python objects stay. *)
Definition atomic {A} (body : M A) : M A :=
  fun w =>
    match body w with
    | (Ok a, w') => (Ok a, w')
    | (Raise e, w') => (Raise e, set_db (db w) w')
    end.

(** The rows [Vpnuser.objects.get(username=hash_user_id(user))] looks at. *)
Definition users_named (env : Env) (d : DB) (user : string) : list Vpnuser :=
  match hash_user_id env user with
  | Some h => filter (fun u => (vu_username u =? h)%string) (vpnusers d)
  | None => []
  end.

Definition create (env : Env) (validated_data : ValidatedData)
  : M (OutlineUser * list KeyDict) :=
  d <- get_db ;;
  user <- match users_named env d (vd_user validated_data) with
          | [] => raise (NotAcceptable User_does_not_exist)
          | [u] => ret u
          | _ :: _ :: _ => raise (MultipleObjectsReturned "Vpnuser")
          end ;;
  let keys := filter (fun k => negb (ou_request_type k =? "legacy")%string)
                     (outline_keys d user) in
  match keys with
  | _ :: _ => raise (NotAcceptable User_already_has_a_key)
  | [] =>
      if vu_banned user
      then raise (NotAcceptable (User_is_banned (vu_id user)))
      else
        let active_types_list := active_types d in
        match active_types_list with
        | [] => raise IndexError
        | _ :: _ =>
            random_request_type <- random_request_type env active_types_list ;;
            let request_type :=
              match vd_request_type validated_data with
              | Some t => t
              | None => random_request_type
              end in
            let user_issue_id := vd_user_issue validated_data in
            (* Fetching all legacy keys associated to the user *)
            let last_keys :=
              filter (fun k => (ou_request_type k =? "legacy")%string)
                     (outline_keys d user) in
            (fun w => (Ok tt, set_created_keys [] w)) ;;;
            (r <- try_except
                    (atomic (create_keys env user request_type
                               (vd_model validated_data)))
                    (fun exc =>
                       w <- get_world ;;
                       (* Revert Key created on the server *)
                       match created_keys w with
                       | _ :: _ =>
                           remove_key_from_server env (created_keys w) ;;;
                           raise (NotAcceptable
                                    (Unable_to_create_keys (vu_id user) exc))
                       | [] =>
                           raise (NotAcceptable
                                    (Unable_to_create_keys (vu_id user) exc))
                       end) ;;
             let outline_user := fst r in
             (if REAL_VPN_SERVERS (settings env)
              then update_online_config env outline_user (snd r)
              else ret tt) ;;;
             match last_keys with
             | _ :: _ =>
                 remove_key_from_server env (get_key_dict last_keys) ;;;
                 remove_keys_from_db last_keys user_issue_id
             | [] => ret tt
             end ;;;
             (w <- get_world ;; ret (outline_user, created_keys w)))
        end
  end.

(** ** The keys of a user: Vpnuser.get_keys *)

(** [.latest('updated_date')]: a row of greatest [updated_date]; among rows
    of equal date the database decides, the model takes the first in table
    order. *)
Fixpoint latest (keys : list OutlineUser) : option OutlineUser :=
  match keys with
  | [] => None
  | k :: rest =>
      match latest rest with
      | Some k' => if ou_updated_date k <? ou_updated_date k' then Some k'
                   else Some k
      | None => Some k
      end
  end.

Definition same_group (a b : option Z) : bool :=
  match a, b with
  | Some x, Some y => x =? y
  | _, _ => false
  end.

Definition get_keys (d : DB) (self : Vpnuser) : Result (list OutlineUser) :=
  match latest (filter (fun k => negb (ou_removed k)) (outline_keys d self)) with
  | None => Ok []
  | Some last_key =>
      match key_server d last_key with
      | None => Raise (DoesNotExist "OutlineServer")
      | Some server =>
          let dist_model := srv_dist_model server in
          if dist_model =? DistributionModelChoice.LOCATIONED then
            if truthy (ou_group_id last_key) then
              Ok (filter (fun k => negb (ou_removed k)
                                   && same_group (ou_group_id k)
                                                 (ou_group_id last_key))
                         (outline_keys d self))
            else Ok []
          else if dist_model =? DistributionModelChoice.FIXED_IP then Ok []
          else Ok [last_key]
      end
  end.

(** ** distribution/utils.py: base64_padding *)

Fixpoint repeat_char (c : ascii) (n : nat) : string :=
  match n with
  | O => EmptyString
  | S n' => String c (repeat_char c n')
  end.

Definition base64_padding (txt : string) : string :=
  if negb (Nat.eqb (String.length txt mod 4) 0)
  then (txt ++ repeat_char "=" (4 - String.length txt mod 4))%string
  else txt.

(** ** The port of an access key: prefix_port (views.py), and the same
    lines of OnlineConfig.update_json_file *)

(** [s.split(sep)] for a separator of one character. *)
Fixpoint split_on (sep : ascii) (s : string) : list string :=
  match s with
  | EmptyString => [EmptyString]
  | String c rest =>
      if Ascii.eqb c sep then EmptyString :: split_on sep rest
      else match split_on sep rest with
           | piece :: pieces => String c piece :: pieces
           | [] => [String c EmptyString]
           end
  end.

(** [c in s] *)
Fixpoint contains (c : ascii) (s : string) : bool :=
  match s with
  | EmptyString => false
  | String c' rest => Ascii.eqb c' c || contains c rest
  end.

(** [s[n:]] *)
Fixpoint drop (n : nat) (s : string) : string :=
  match n, s with
  | O, _ => s
  | S _, EmptyString => EmptyString
  | S n', String _ rest => drop n' rest
  end.

(** [l[i]] on a list. *)
Definition item {A} (l : list A) (i : nat) : Result A :=
  match nth_error l i with
  | Some x => Ok x
  | None => Raise IndexError
  end.

Definition bind_result {A B} (r : Result A) (f : A -> Result B) : Result B :=
  match r with
  | Ok a => f a
  | Raise e => Raise e
  end.

Definition prefix_port (outline_key : string) : Result string :=
  bind_result (item (split_on "/" (drop 5 outline_key)) 0) (fun ss_link =>
  let ss_link := split_on "@" ss_link in
  bind_result (item ss_link 1) (fun ip_port =>
  let ss_ip_port := split_on ":" ip_port in
  bind_result (item ss_ip_port 1) (fun port =>
  if negb (contains "?" port) then Ok port
  else item (split_on "?" port) 0))).

(** ** The sweeper of removed keys: delete_keys_from_servers *)

(** The loop of [handle]: one call of [remove_key_from_server] per key;
    [removed] counts the keys that came back without a failure. *)
Fixpoint delete_keys_loop (env : Env) (keys : list OutlineUser) (removed : Z)
  : M Z :=
  match keys with
  | [] => ret removed
  | key :: rest =>
      failed <- remove_key_from_server env (get_key_dict [key]) ;;
      match failed with
      | _ :: _ => delete_keys_loop env rest removed
      | [] => delete_keys_loop env rest (removed + 1)
      end
  end.

(** [handle]; [count] is the --count option, [None] standing for -1 (no
    limit); the other negative values, by which a queryset cannot be
    sliced, are left out.  The result is the pair (removed, total) that is
    printed, removed being 0 when there is no key to remove. *)
Definition delete_keys_from_servers (env : Env) (count : option nat)
  : M (Z * Z) :=
  d <- get_db ;;
  let due := filter (fun k => ou_exists_on_server k && ou_removed k)
                    (outline_users d) in
  let keys := match count with
              | None => due
              | Some n => firstn n due
              end in
  let total := Z.of_nat (List.length keys) in
  if total >? 0 then
    removed <- delete_keys_loop env keys 0 ;;
    ret (removed, total)
  else ret (0, total).

(** ** Management commands: deactivate_keys, clean_up_old_keys,
    reset_reputations

    Each [handle] returns the numbers that the command prints. *)

Definition set_active (b : bool) (k : OutlineUser) : OutlineUser :=
  {| ou_id := ou_id k;
     ou_user := ou_user k;
     ou_server := ou_server k;
     ou_outline_key_id := ou_outline_key_id k;
     ou_outline_key := ou_outline_key k;
     ou_reputation := ou_reputation k;
     ou_transfer := ou_transfer k;
     ou_user_issue := ou_user_issue k;
     ou_active := b;
     ou_removed := ou_removed k;
     ou_exists_on_server := ou_exists_on_server k;
     ou_group_id := ou_group_id k;
     ou_delete_date := ou_delete_date k;
     ou_deletion_cause := ou_deletion_cause k;
     ou_request_type := ou_request_type k;
     ou_created_date := ou_created_date k;
     ou_updated_date := ou_updated_date k |}.

(** [remove_key_from_server] under [try: ... except Exception: return]. *)
Definition try_remove_key_from_server (env : Env) (key_list : list KeyDict)
  : M (option (list Z)) :=
  try_except
    (failed_keys <- remove_key_from_server env key_list ;; ret (Some failed_keys))
    (fun _ => ret None).

Module DeactivateKeys.

(** [timezone.timedelta(days=days)], time being counted in seconds. *)
Definition timedelta (days : Z) : Z := days * 86400.

(** [delete_date__lte=target_date, deletion_cause=DeletionCause.INACTIVE] *)
Definition past_due (target_date : Z) (k : OutlineUser) : bool :=
  match ou_delete_date k, ou_deletion_cause k with
  | Some t, INACTIVE => t <=? target_date
  | _, _ => false
  end.

(** [.update(delete_date=None, deletion_cause=DeletionCause.NA)] on one
    row. *)
Definition clear_deletion (k : OutlineUser) : OutlineUser :=
  {| ou_id := ou_id k;
     ou_user := ou_user k;
     ou_server := ou_server k;
     ou_outline_key_id := ou_outline_key_id k;
     ou_outline_key := ou_outline_key k;
     ou_reputation := ou_reputation k;
     ou_transfer := ou_transfer k;
     ou_user_issue := ou_user_issue k;
     ou_active := ou_active k;
     ou_removed := ou_removed k;
     ou_exists_on_server := ou_exists_on_server k;
     ou_group_id := ou_group_id k;
     ou_delete_date := None;
     ou_deletion_cause := NA;
     ou_request_type := ou_request_type k;
     ou_created_date := ou_created_date k;
     ou_updated_date := ou_updated_date k |}.

(** The keys that came back: due, active and not removed. *)
Definition returning (target_date : Z) (k : OutlineUser) : bool :=
  past_due target_date k && ou_active k && negb (ou_removed k).

(** The keys to delete: due, not active and not removed. *)
Definition inactive (target_date : Z) (k : OutlineUser) : bool :=
  past_due target_date k && negb (ou_active k) && negb (ou_removed k).

(** The result is [reactivated] with, unless the revocation raised, the
    pair (deleted_count, count). *)
Definition handle (env : Env) (days : Z) : M (Z * option (Z * Z)) :=
  w <- get_world ;;
  let target_date := now w - timedelta days in
  d <- get_db ;;
  let reactivated :=
    Z.of_nat (List.length (filter (returning target_date) (outline_users d))) in
  put_db (set_outline_users
            (map (fun k => if returning target_date k then clear_deletion k
                           else k) (outline_users d)) d) ;;;
  (d <- get_db ;;
   let inactive_keys := filter (inactive target_date) (outline_users d) in
   let count := Z.of_nat (List.length inactive_keys) in
   (* Populate a list of inactive key dicts *)
   let key_list := get_key_dict inactive_keys in
   failed_keys <- try_remove_key_from_server env key_list ;;
   match failed_keys with
   | None => ret (reactivated, None)
   | Some failed_keys =>
       let deleted_keys :=
         filter (fun key => negb (existsb (Z.eqb (ou_id key)) failed_keys))
                inactive_keys in
       remove_keys_from_db deleted_keys None ;;;
       ret (reactivated,
            Some (Z.of_nat (List.length deleted_keys), count))
   end).

End DeactivateKeys.

Module CleanUpOldKeys.

(** The loop over the users: the id of each user's most recently updated
    key that is active, on its server and not removed. *)
Definition latest_active_keys (d : DB) : list Z :=
  flat_map (fun user =>
              match latest (filter (fun k => ou_active k
                                             && ou_exists_on_server k
                                             && negb (ou_removed k))
                                   (outline_keys d user)) with
              | Some latest_active_key => [ou_id latest_active_key]
              | None => []
              end) (vpnusers d).

(** [OutlineUser.objects.filter(active=True).exclude(id__in=...)] *)
Definition old_keys (d : DB) : list OutlineUser :=
  filter (fun k => ou_active k
                   && negb (existsb (Z.eqb (ou_id k)) (latest_active_keys d)))
         (outline_users d).

(** The result is [None] when the revocation raised, and otherwise the
    triple (inactive_keys, count, active_keys_count). *)
Definition handle (env : Env) : M (option (Z * Z * Z)) :=
  d <- get_db ;;
  let latest_active_keys := latest_active_keys d in
  let old_keys := old_keys d in
  let count := Z.of_nat (List.length old_keys) in
  (* Populate a list of to be deleted key dicts *)
  let key_list := get_key_dict old_keys in
  failed_keys <- try_remove_key_from_server env key_list ;;
  match failed_keys with
  | None => ret None
  | Some failed_keys =>
      let deleted_keys :=
        filter (fun key => negb (existsb (Z.eqb (ou_id key)) failed_keys))
               old_keys in
      remove_keys_from_db deleted_keys None ;;;
      (let deleted_keys_ids := map ou_id deleted_keys in
       d <- get_db ;;
       let inactive_keys :=
         Z.of_nat (List.length
                     (filter (fun k => existsb (Z.eqb (ou_id k)) deleted_keys_ids)
                             (outline_users d))) in
       put_db (set_outline_users
                 (map (fun k => if existsb (Z.eqb (ou_id k)) deleted_keys_ids
                                then set_active false k else k)
                      (outline_users d)) d) ;;;
       ret (Some (inactive_keys, count,
                  Z.of_nat (List.length latest_active_keys))))
  end.

End CleanUpOldKeys.

Module ResetReputations.

(** [max_reputation] is the option of that name ([None] when it is
    missing).  The result is the value returned on a missing option, or the
    number of users printed. *)
Definition handle (max_reputation : option Z) : M (Z + Z) :=
  match max_reputation with
  | None => ret (inl (-1))
  | Some max_rep =>
      d <- get_db ;;
      let users_count :=
        Z.of_nat (List.length (filter (fun u => vu_reputation u >? max_rep)
                                      (vpnusers d))) in
      put_db (set_vpnusers
                (map (fun u => if vu_reputation u >? max_rep
                               then with_reputation 0 u else u)
                     (vpnusers d)) d) ;;;
      ret (inr users_count)
  end.

End ResetReputations.

(** ** The selection order as documented

    The documented reading of [get_server]: four candidate pools per
    location, from the strictest to the most relaxed, where the relaxed tier
    condition is "this tier or a higher one"; the first pool that is not
    empty is handed to [find_server]. *)

Definition previously_used (d : DB) (user : Vpnuser) (s : OutlineServer) : bool :=
  existsb (fun k => match ou_user k with
                    | Some u => (u =? vu_id user) && (ou_server k =? srv_id s)
                    | None => false
                    end) (outline_users d).

Definition in_location (location : option Z) (s : OutlineServer) : bool :=
  match location with
  | Some l => if l =? 0 then true
              else match srv_location s with
                   | Some a => a =? l
                   | None => false
                   end
  | None => true
  end.

Definition candidate_pool (d : DB) (user : Vpnuser) (level : Z)
           (exclude_previous exact_tier_only : bool) (dist_model : Z)
           (location : option Z) : list AnnotatedServer :=
  order_by_usercount_desc
    (map (fun s => (s, usercount d s))
         (filter (fun s =>
                    base_filter (fun l => if exact_tier_only then l =? level
                                          else l >=? level) dist_model user s
                    && in_location location s
                    && (negb exclude_previous || negb (previously_used d user s)))
                 (servers d))).

Definition candidate_pools (d : DB) (user : Vpnuser) (level dist_model : Z)
           (location : option Z) : list (list AnnotatedServer) :=
  [ candidate_pool d user level true true dist_model location;
    candidate_pool d user level true false dist_model location;
    candidate_pool d user level false true dist_model location;
    candidate_pool d user level false false dist_model location ].

Definition first_non_empty (pools : list (list AnnotatedServer))
  : option (list AnnotatedServer) :=
  find (fun pool => negb (Nat.eqb (List.length pool) 0)) pools.

Definition documented_get_server_at (env : Env) (user : Vpnuser)
           (level dist_model : Z) (loc : option Location)
  : M (option OutlineServer) :=
  d <- get_db ;;
  match first_non_empty
          (candidate_pools d user level dist_model (option_map loc_id loc)) with
  | Some pool => find_server env pool
  | None => ret None
  end.

Fixpoint documented_get_server_loop (env : Env) (user : Vpnuser)
         (level dist_model : Z) (locations : list (option Location))
  : M (list OutlineServer) :=
  match locations with
  | [] => ret []
  | loc :: rest =>
      server <- documented_get_server_at env user level dist_model loc ;;
      others <- documented_get_server_loop env user level dist_model rest ;;
      match server with
      | Some s => ret (s :: others)
      | None => ret others
      end
  end.

Definition documented_get_server (env : Env) (user : Vpnuser)
           (level dist_model : Z) (location : option Location)
  : M (list OutlineServer) :=
  d <- get_db ;;
  documented_get_server_loop env user level dist_model
    (if dist_model =? DistributionModelChoice.LOCATIONED
     then map Some (filter loc_active (locations d))
     else [location]).

(** ** Vocabulary of the statements *)

(** The call returned a value. *)
Definition is_ok {A} (r : Result A) : bool :=
  match r with
  | Ok _ => true
  | Raise _ => false
  end.

(** The credential's server exists and is working. *)
Definition points_to_working (d : DB) (key : OutlineUser) : Prop :=
  exists server, key_server d key = Some server /\ is_working server = true.

(** What a computation leaves alone: everything but the random counter. *)
Definition same_store (w w' : World) : Prop :=
  db w' = db w /\ calls w' = calls w /\ created_keys w' = created_keys w
  /\ now w' = now w.

(** The reputation a legacy request records, and the tier it draws from:
    the [new_rep] and [level] of [create_keys]. *)
Definition reputation_after_request (d : DB) (user : Vpnuser) (dist_model : Z) : Z :=
  if increase_reputation d user dist_model
  then ReputationSystem.after_new_key (vu_reputation user)
  else vu_reputation user.

Definition level_of_request (env : Env) (d : DB) (user : Vpnuser)
           (dist_model : Z) : Z :=
  ReputationSystem.server_level (settings env)
    (reputation_after_request d user dist_model).

(** Every active location has a server to offer to the user. *)
Definition every_location_served (env : Env) (d : DB) (user : Vpnuser) : Prop :=
  forall loc, In loc (locations d) -> loc_active loc = true ->
    first_non_empty
      (candidate_pools d user
         (level_of_request env d user DistributionModelChoice.LOCATIONED)
         DistributionModelChoice.LOCATIONED (Some (loc_id loc))) <> None.

(** The rows after [exists_on_server] was cleared on the given ids. *)
Definition mark_all (ids : list Z) (rows : list OutlineUser) : list OutlineUser :=
  map (fun k => if existsb (Z.eqb (ou_id k)) ids
                then set_exists_on_server false k else k) rows.

(** The ['id'] entries of a list of key dictionaries. *)
Definition ids_of (keys : list KeyDict) : list Z :=
  flat_map (fun key => match kd_id key with
                       | Some id => [id]
                       | None => []
                       end) keys.

(** The credential's server row is stored, once, and is no GTF server: the
    only backend its revocation reaches is the Outline manager, whose every
    failure [remove_key_from_server] catches. *)
Definition on_manager_server (d : DB) (k : OutlineUser) : Prop :=
  exists s, server_by_id d (ou_server k) = [s]
            /\ (srv_type s =? "gtf")%string = false.

(** The dictionary has the entries the simulated branch reads. *)
Definition has_id_and_key_id (key : KeyDict) : bool :=
  match kd_id key, kd_outline_key_id key with
  | Some _, Some _ => true
  | _, _ => false
  end.

(** The error of the duplicate-key check. *)
Definition is_duplicate (e : Exc) : bool :=
  match e with
  | NotAcceptable User_already_has_a_key => true
  | _ => false
  end.

(** The computation never fails with the duplicate-key error. *)
Definition no_duplicate_error {A} (m : M A) : Prop :=
  forall w e w', m w = (Raise e, w') -> is_duplicate e = false.

(** The user's credentials whose request type is not 'legacy'. *)
Definition non_legacy_keys (d : DB) (user : Vpnuser) : list OutlineUser :=
  filter (fun k => negb (ou_request_type k =? "legacy")%string)
         (outline_keys d user).

(** The user's credentials that are live (active, not removed) and not
    legacy. *)
Definition live_non_legacy_keys (d : DB) (user : Vpnuser) : list OutlineUser :=
  filter (fun k => ou_active k && negb (ou_removed k)) (non_legacy_keys d user).

(** The credential rows of [after] whose primary key is not one of
    [before]: the rows created in between. *)
Definition fresh_rows (before after : DB) : list OutlineUser :=
  filter (fun k => negb (existsb (Z.eqb (ou_id k))
                                 (map ou_id (outline_users before))))
         (outline_users after).

(** The computation leaves the database as it is. *)
Definition keeps_db {A} (m : M A) : Prop :=
  forall w r w', m w = (r, w') -> db w' = db w.

(** Rows whose primary key is outside [S] are the same in both worlds. *)
Definition untouched (S : list Z) (w w' : World) : Prop :=
  filter (fun k => negb (existsb (Z.eqb (ou_id k)) S)) (outline_users (db w')) =
  filter (fun k => negb (existsb (Z.eqb (ou_id k)) S)) (outline_users (db w)).

(** The computation changes credential rows only at primary keys of [S]. *)
Definition keeps_fresh {A} (S : list Z) (m : M A) : Prop :=
  forall w r w', m w = (r, w') -> untouched S w w'.

(** No entry of [created_keys] has an 'id'. *)
Definition idless (w : World) : Prop :=
  Forall (fun key => kd_id key = None) (created_keys w).

(** The computation adds to [created_keys] only entries without 'id'. *)
Definition keeps_idless {A} (m : M A) : Prop :=
  forall w r w', m w = (r, w') -> idless w -> idless w'.

(** The server may be offered to the user at this level and model: it is a
    legacy server of the table, active, distributing, of the model and of
    the user's channel, at this tier or a higher one. *)
Definition offered (d : DB) (user : Vpnuser) (level dist_model : Z)
           (s : OutlineServer) : Prop :=
  In s (servers d)
  /\ srv_type s = "legacy"
  /\ srv_active s = true
  /\ srv_is_distributing s = true
  /\ srv_dist_model s = dist_model
  /\ srv_user_src s = vu_channel user
  /\ level <= srv_level s.

(** Every run of the computation relates the world before to the world
    after by [R]. *)
Definition preserves {A} (R : World -> World -> Prop) (m : M A) : Prop :=
  forall w r w', m w = (r, w') -> R w w'.

(** Every value the computation returns satisfies [P]. *)
Definition returns {A} (P : A -> Prop) (m : M A) : Prop :=
  forall w a w', m w = (Ok a, w') -> P a.

(** Row by row, [rows'] is [rows] except that [exists_on_server] may have
    been cleared on rows whose primary key is in [ids]. *)
Definition cleared_only (ids : list Z) (rows rows' : list OutlineUser) : Prop :=
  Forall2 (fun k k' => k' = k
                       \/ (k' = set_exists_on_server false k /\ In (ou_id k) ids))
          rows rows'.

Definition other_tables_same (d d' : DB) : Prop :=
  servers d' = servers d
  /\ vpnusers d' = vpnusers d
  /\ locations d' = locations d
  /\ prefixes d' = prefixes d
  /\ load_balancers d' = load_balancers d
  /\ issues d' = issues d
  /\ online_configs d' = online_configs d.

(** All that a revocation of the keys [ids] may do to the world. *)
Definition revoked_only (ids : list Z) (w w' : World) : Prop :=
  cleared_only ids (outline_users (db w)) (outline_users (db w'))
  /\ other_tables_same (db w) (db w')
  /\ rnd w' = rnd w
  /\ now w' = now w
  /\ created_keys w' = created_keys w
  /\ exists l, calls w' = calls w ++ l.

(** Every value the computation returns satisfies [P] in the world it
    leaves. *)
Definition ensures {A} (P : A -> World -> Prop) (m : M A) : Prop :=
  forall w a w', m w = (Ok a, w') -> P a w'.

(** Every row of credential [id] is marked as gone from its server. *)
Definition gone (id : Z) (rows : list OutlineUser) : Prop :=
  forall k, In k rows -> ou_id k = id -> ou_exists_on_server k = false.

(** The computation returns in every world. *)
Definition succeeds {A} (m : M A) : Prop :=
  forall w, exists a w', m w = (Ok a, w').

(** The text before the first [sep], all of it when there is none. *)
Fixpoint before (sep : ascii) (s : string) : string :=
  match s with
  | EmptyString => EmptyString
  | String c rest => if Ascii.eqb c sep then EmptyString
                     else String c (before sep rest)
  end.

(** What may follow the port in an access key: nothing, a path or a
    query. *)
Definition is_tail (t : string) : Prop :=
  t = EmptyString \/ (exists q, t = String "/" q) \/ (exists q, t = String "?" q).

(** The computation makes at most [n] backend calls. *)
Definition adds_calls {A} (n : nat) (m : M A) : Prop :=
  forall w r w', m w = (r, w') ->
                 (List.length (calls w') <= List.length (calls w) + n)%nat.

(** The keys a sweep with this --count option works on: the rows that are
    removed and still on their server, all of them or the first [n]. *)
Definition due_keys (d : DB) (count : option nat) : list OutlineUser :=
  match count with
  | None => filter (fun k => ou_exists_on_server k && ou_removed k)
                   (outline_users d)
  | Some n => firstn n (filter (fun k => ou_exists_on_server k && ou_removed k)
                               (outline_users d))
  end.

(** [k'] is the row [k] at a later time: same key, owner, request type
    and server, and removed if [k] was. *)
Definition same_credential (k k' : OutlineUser) : Prop :=
  ou_id k' = ou_id k
  /\ ou_user k' = ou_user k
  /\ ou_request_type k' = ou_request_type k
  /\ (ou_removed k = true -> ou_removed k' = true)
  /\ ou_server k' = ou_server k.

(** A row as [create_keys] stores it for [user]. *)
Definition created_for (user : Vpnuser) (request_type : string)
           (row : OutlineUser) : Prop :=
  ou_user row = Some (vu_id user)
  /\ ou_request_type row = request_type
  /\ ou_active row = true
  /\ ou_removed row = false
  /\ ou_exists_on_server row = true
  /\ ou_transfer row = None
  /\ ou_user_issue row = None.

(** The distribution model of a request: [validated_data.get('model',
    DistributionModelChoice.BASIC)]. *)
Definition requested_model (vd : ValidatedData) : Z :=
  match vd_model vd with
  | Some m => m
  | None => DistributionModelChoice.BASIC
  end.

(** The error that [create] raises when key creation failed. *)
Definition is_unable (e : Exc) : bool :=
  match e with
  | NotAcceptable (Unable_to_create_keys _ _) => true
  | _ => false
  end.

(** The computation never fails with an error of the class [P]. *)
Definition never_raises {A} (P : Exc -> bool) (m : M A) : Prop :=
  forall w e w', m w = (Raise e, w') -> P e = false.

(** The credential rows of the two worlds are related one by one. *)
Definition rows_related (rel : OutlineUser -> OutlineUser -> Prop)
           (w w' : World) : Prop :=
  Forall2 rel (outline_users (db w)) (outline_users (db w')).

(** [k'] is [k] at a later time, with every column that decides whether
    deactivate_keys selects it unchanged when the key is not a legacy
    one. *)
Definition kept_unless_legacy (k k' : OutlineUser) : Prop :=
  ou_id k' = ou_id k
  /\ ou_request_type k' = ou_request_type k
  /\ ou_active k' = ou_active k
  /\ (ou_request_type k <> "legacy" ->
      ou_removed k' = ou_removed k
      /\ (ou_active k = false ->
          ou_delete_date k' = ou_delete_date k
          /\ ou_deletion_cause k' = ou_deletion_cause k)).

(** [k'] is [k] at a later time, as active as it was. *)
Definition as_active (k k' : OutlineUser) : Prop :=
  ou_id k' = ou_id k /\ ou_active k' = ou_active k.

(** The tables that describe the fleet are the same in both worlds. *)
Definition inventory_same (w w' : World) : Prop :=
  servers (db w') = servers (db w)
  /\ locations (db w') = locations (db w)
  /\ prefixes (db w') = prefixes (db w)
  /\ load_balancers (db w') = load_balancers (db w)
  /\ issues (db w') = issues (db w).

(** The computation leaves the tables of the fleet alone. *)
Definition keeps_inventory {A} (m : M A) : Prop :=
  preserves inventory_same m.

(** The computation makes no backend call. *)
Definition keeps_calls {A} (m : M A) : Prop :=
  preserves (fun w w' => calls w' = calls w) m.

(** The error of a failed upload of the configuration file. *)
Definition is_upload_error (e : Exc) : bool :=
  match e with
  | UploadError => true
  | _ => false
  end.

(** ** Scenarios

    Concrete worlds on which the statements below are run. *)

Module Scenario.

(** An environment whose backends always succeed; [real] is the
    REAL_VPN_SERVERS toggle. *)
Definition env_ok (real : bool) : Env :=
  {| settings := {| REAL_VPN_SERVERS := real;
                    REPUTATION_MAP := Some [0; 1; 2; 3];
                    GTF_PROB_WEIGHT := 50 |};
     test_in_argv := true;
     sha512_hexdigest := fun s => s;
     random_draw := fun n => Z.of_nat n;
     manager_new := fun _ s => NewKey (10 + srv_id s) "ss://Y2hhY2hhOnB3@192.0.2.1:443/";
     manager_delete := fun _ _ _ => Deleted;
     http_delete := fun _ _ => 200;
     gtf_get_key := fun _ _ => (200, 9);
     gtf_get_access_url := fun _ _ => "ss://Y2hhY2hhOnB3@192.0.2.9:443?outline=1";
     replace_port := fun outline_key _ => outline_key;
     replace_ip := fun outline_key _ => outline_key;
     update_json_file := fun _ _ _ _ => true;
     secrets_file_name := fun _ => "f0" |}.

(** Real mode; provisioning works on server 1 and raises on every other
    server. *)
Definition env_second_fails : Env :=
  {| settings := settings (env_ok true);
     test_in_argv := true;
     sha512_hexdigest := fun s => s;
     random_draw := fun n => Z.of_nat n;
     manager_new := fun _ s => if srv_id s =? 1
                               then NewKey 11 "ss://Y2hhY2hhOnB3@192.0.2.1:443/"
                               else NewRaises;
     manager_delete := fun _ _ _ => Deleted;
     http_delete := fun _ _ => 200;
     gtf_get_key := fun _ _ => (200, 9);
     gtf_get_access_url := fun _ _ => "";
     replace_port := fun outline_key _ => outline_key;
     replace_ip := fun outline_key _ => outline_key;
     update_json_file := fun _ _ _ _ => true;
     secrets_file_name := fun _ => "f0" |}.

(** Real mode; the GTF endpoint answers 404 to DELETE and the manager call
    that follows times out. *)
Definition env_gtf_gone : Env :=
  {| settings := settings (env_ok true);
     test_in_argv := true;
     sha512_hexdigest := fun s => s;
     random_draw := fun n => Z.of_nat n;
     manager_new := fun _ _ => NewRaises;
     manager_delete := fun _ _ _ => TimedOut;
     http_delete := fun _ _ => 404;
     gtf_get_key := fun _ _ => (200, 9);
     gtf_get_access_url := fun _ _ => "";
     replace_port := fun outline_key _ => outline_key;
     replace_ip := fun outline_key _ => outline_key;
     update_json_file := fun _ _ _ _ => true;
     secrets_file_name := fun _ => "f0" |}.

Definition located_server (id location : Z) : OutlineServer :=
  {| srv_id := id; srv_type := "legacy"; srv_user_src := "TG"; srv_level := 0;
     srv_active := true; srv_is_blocked := false; srv_is_distributing := true;
     srv_dist_model := DistributionModelChoice.LOCATIONED;
     srv_location := Some location;
     srv_api_url := "https://manager.example/api"; srv_api_cert := "cert";
     srv_label := "" |}.

Definition gtf_server : OutlineServer :=
  {| srv_id := 3; srv_type := "gtf"; srv_user_src := "NA"; srv_level := 0;
     srv_active := true; srv_is_blocked := false; srv_is_distributing := true;
     srv_dist_model := DistributionModelChoice.BASIC;
     srv_location := None;
     srv_api_url := "https://gtf.example/keys/"; srv_api_cert := "";
     srv_label := "" |}.

Definition central_server : OutlineServer :=
  {| srv_id := 4; srv_type := "central"; srv_user_src := "NA"; srv_level := 0;
     srv_active := true; srv_is_blocked := false; srv_is_distributing := true;
     srv_dist_model := DistributionModelChoice.BASIC;
     srv_location := None;
     srv_api_url := "https://central.example/api"; srv_api_cert := "cert";
     srv_label := "pool" |}.

Definition alice : Vpnuser :=
  {| vu_id := 1; vu_username := "alice"; vu_channel := "TG";
     vu_reputation := 0; vu_banned := false |}.

(** A credential of alice of the given type and flags. *)
Definition credential (id server : Z) (request_type : string)
           (active removed : bool) (group_id : option Z) : OutlineUser :=
  {| ou_id := id; ou_user := Some 1; ou_server := server;
     ou_outline_key_id := 9;
     ou_outline_key := "ss://Y2hhY2hhOnB3@192.0.2.9:443/";
     ou_reputation := 0; ou_transfer := None; ou_user_issue := None;
     ou_active := active; ou_removed := removed; ou_exists_on_server := true;
     ou_group_id := group_id; ou_delete_date := None; ou_deletion_cause := NA;
     ou_request_type := request_type; ou_created_date := 0;
     ou_updated_date := 0 |}.

Definition world_of (d : DB) : World :=
  {| db := d; calls := []; rnd := 0%nat; now := 100; created_keys := [] |}.

(** Two active locations, one working legacy server in each, no credential. *)
Definition two_locations : DB :=
  {| servers := [located_server 1 1; located_server 2 2];
     vpnusers := [alice];
     outline_users := [];
     locations := [ {| loc_id := 1; loc_active := true |};
                    {| loc_id := 2; loc_active := true |} ];
     prefixes := []; load_balancers := []; issues := []; online_configs := [] |}.

(** Three active locations and an inactive one, one working legacy server in
    each; another user's group 4 is already stored. *)
Definition three_locations : DB :=
  {| servers := [located_server 1 1; located_server 2 2; located_server 5 3;
                 located_server 6 4];
     vpnusers := [alice];
     outline_users :=
       [ {| ou_id := 1; ou_user := Some 2; ou_server := 1;
            ou_outline_key_id := 3; ou_outline_key := "ss://b";
            ou_reputation := 0; ou_transfer := None; ou_user_issue := None;
            ou_active := true; ou_removed := false; ou_exists_on_server := true;
            ou_group_id := Some 4; ou_delete_date := None;
            ou_deletion_cause := NA; ou_request_type := "legacy";
            ou_created_date := 0; ou_updated_date := 0 |} ];
     locations := [ {| loc_id := 1; loc_active := true |};
                    {| loc_id := 2; loc_active := true |};
                    {| loc_id := 3; loc_active := true |};
                    {| loc_id := 4; loc_active := false |} ];
     prefixes := []; load_balancers := []; issues := []; online_configs := [] |}.

(** alice holds one credential on the GTF server. *)
Definition gtf_holder : DB :=
  {| servers := [gtf_server];
     vpnusers := [alice];
     outline_users := [credential 5 3 "gtf" true false None];
     locations := []; prefixes := []; load_balancers := []; issues := [];
     online_configs := [] |}.

(** alice's only credential is a central one that was swept: inactive and
    removed. *)
Definition swept_central : DB :=
  {| servers := [central_server; located_server 1 1];
     vpnusers := [alice];
     outline_users := [credential 5 4 "central" false true None];
     locations := []; prefixes := []; load_balancers := []; issues := [];
     online_configs := [] |}.

(** A pool of three annotated servers, the second one idle. *)
Definition pool_with_idle : list AnnotatedServer :=
  [(located_server 1 1, 3); (located_server 2 1, 0); (located_server 5 1, 7)].

Definition request (request_type : option string) (model : option Z)
  : ValidatedData :=
  {| vd_user := "alice"; vd_request_type := request_type; vd_model := model;
     vd_user_issue := None |}.

Definition basic_server (id level : Z) : OutlineServer :=
  {| srv_id := id; srv_type := "legacy"; srv_user_src := "TG"; srv_level := level;
     srv_active := true; srv_is_blocked := false; srv_is_distributing := true;
     srv_dist_model := DistributionModelChoice.BASIC;
     srv_location := None;
     srv_api_url := "https://manager.example/api"; srv_api_cert := "cert";
     srv_label := "" |}.

(** Two basic servers at tier 0 and one at tier 1; alice holds a legacy
    credential on server 7. *)
Definition basic_fleet : DB :=
  {| servers := [basic_server 7 0; basic_server 8 0; basic_server 9 1];
     vpnusers := [alice];
     outline_users := [credential 1 7 "legacy" true false None];
     locations := []; prefixes := []; load_balancers := []; issues := [];
     online_configs := [] |}.

(** A central server behind one active load balancer; alice holds no
    credential. *)
Definition central_pool : DB :=
  {| servers := [central_server];
     vpnusers := [alice];
     outline_users := [];
     locations := []; prefixes := [];
     load_balancers := [ {| lb_host_name := "lb.example";
                            lb_server := Some 4;
                            lb_is_active := true;
                            lb_replaces_ip := true |} ];
     issues := []; online_configs := [] |}.

(** The credential with a delete date that has passed, set by the
    inactivity check. *)
Definition lapsed (k : OutlineUser) : OutlineUser :=
  {| ou_id := ou_id k; ou_user := ou_user k; ou_server := ou_server k;
     ou_outline_key_id := ou_outline_key_id k;
     ou_outline_key := ou_outline_key k;
     ou_reputation := ou_reputation k; ou_transfer := ou_transfer k;
     ou_user_issue := ou_user_issue k;
     ou_active := ou_active k; ou_removed := ou_removed k;
     ou_exists_on_server := ou_exists_on_server k;
     ou_group_id := ou_group_id k; ou_delete_date := Some 0;
     ou_deletion_cause := INACTIVE;
     ou_request_type := ou_request_type k;
     ou_created_date := ou_created_date k;
     ou_updated_date := ou_updated_date k |}.

(** alice holds two lapsed credentials that are no longer active: a
    central one and a legacy one. *)
Definition lapsed_keys : DB :=
  {| servers := [central_server; basic_server 7 0];
     vpnusers := [alice];
     outline_users := [lapsed (credential 5 4 "central" false false None);
                       lapsed (credential 6 7 "legacy" false false None)];
     locations := []; prefixes := []; load_balancers := []; issues := [];
     online_configs := [] |}.

(** alice holds two active legacy credentials, on servers 7 and 8. *)
Definition double_holder : DB :=
  {| servers := [basic_server 7 0; basic_server 8 0];
     vpnusers := [alice];
     outline_users := [credential 1 7 "legacy" true false None;
                       credential 2 8 "legacy" true false None];
     locations := []; prefixes := []; load_balancers := []; issues := [];
     online_configs := [] |}.

(** Real mode; the backends answer, the upload of the configuration file
    fails. *)
Definition env_upload_fails : Env :=
  {| settings := settings (env_ok true);
     test_in_argv := true;
     sha512_hexdigest := fun s => s;
     random_draw := fun n => Z.of_nat n;
     manager_new := fun _ s => NewKey (10 + srv_id s) "ss://Y2hhY2hhOnB3@192.0.2.1:443/";
     manager_delete := fun _ _ _ => Deleted;
     http_delete := fun _ _ => 200;
     gtf_get_key := fun _ _ => (200, 9);
     gtf_get_access_url := fun _ _ => "";
     replace_port := fun outline_key _ => outline_key;
     replace_ip := fun outline_key _ => outline_key;
     update_json_file := fun _ _ _ _ => false;
     secrets_file_name := fun _ => "f0" |}.

(** A basic server that has been blocked. *)
Definition blocked_server (id : Z) : OutlineServer :=
  {| srv_id := id; srv_type := "legacy"; srv_user_src := "TG"; srv_level := 0;
     srv_active := true; srv_is_blocked := true; srv_is_distributing := true;
     srv_dist_model := DistributionModelChoice.BASIC;
     srv_location := None;
     srv_api_url := "https://manager.example/api"; srv_api_cert := "cert";
     srv_label := "" |}.

(** alice after a renewal: her first credential, on server 7, is removed
    and inactive, her live credential is on server 8.  Server 7 has since
    been blocked; server 8 is working. *)
Definition renewed_off_blocked : DB :=
  {| servers := [blocked_server 7; basic_server 8 0];
     vpnusers := [alice];
     outline_users := [credential 1 7 "legacy" false true None;
                       credential 2 8 "legacy" true false None];
     locations := []; prefixes := []; load_balancers := []; issues := [];
     online_configs := [] |}.

(** The same two credentials, the other way round: server 7, of the removed
    credential, is working; server 8, of the live one, has been blocked. *)
Definition renewed_onto_blocked : DB :=
  {| servers := [basic_server 7 0; blocked_server 8];
     vpnusers := [alice];
     outline_users := [credential 1 7 "legacy" false true None;
                       credential 2 8 "legacy" true false None];
     locations := []; prefixes := []; load_balancers := []; issues := [];
     online_configs := [] |}.

End Scenario.

(** ** Runs of the scenarios *)

(** The run of [create] on the two-location scenario in which provisioning
    fails on the second server. *)
Definition rollback_run : Result (OutlineUser * list KeyDict) * World :=
  create Scenario.env_second_fails
    (Scenario.request (Some "legacy") (Some DistributionModelChoice.LOCATIONED))
    (Scenario.world_of Scenario.two_locations).

(** Revocation of alice's GTF key when the endpoint answers 404. *)
Definition gtf_removal_run : Result (list Z) * World :=
  remove_key_from_server Scenario.env_gtf_gone
    (get_key_dict (outline_users Scenario.gtf_holder))
    (Scenario.world_of Scenario.gtf_holder).

(** The run of a location-based request on three active locations. *)
Definition three_locations_run : Result (OutlineUser * list KeyDict) * World :=
  create (Scenario.env_ok false)
    (Scenario.request (Some "legacy") (Some DistributionModelChoice.LOCATIONED))
    (Scenario.world_of Scenario.three_locations).

(** The same request without a type: [create] draws it. *)
Definition three_locations_drawn_run
  : Result (OutlineUser * list KeyDict) * World :=
  create (Scenario.env_ok false)
    (Scenario.request None (Some DistributionModelChoice.LOCATIONED))
    (Scenario.world_of Scenario.three_locations).


(** The sweep of removed keys over alice's swept central credential, in
    real mode. *)
Definition sweep_run : Result (Z * Z) * World :=
  delete_keys_from_servers (Scenario.env_ok true) None
    (Scenario.world_of Scenario.swept_central).

(** alice, who holds a legacy credential on server 7 of the basic fleet,
    asks for a new legacy key. *)
Definition renewal_run : Result (OutlineUser * list KeyDict) * World :=
  create (Scenario.env_ok false) (Scenario.request (Some "legacy") None)
    (Scenario.world_of Scenario.basic_fleet).

(** alice asks for a key of the central pool. *)
Definition central_run : Result (OutlineUser * list KeyDict) * World :=
  create (Scenario.env_ok false) (Scenario.request (Some "central") None)
    (Scenario.world_of Scenario.central_pool).

(** * Properties *)

(** ** Reputation tiers *)

Lemma scan_rev_seq (reputation : Z) (T : list Z) (len : nat) :
  match ReputationSystem.scan reputation T (rev (seq 0 len)) with
  | Some n =>
      (n < len)%nat /\ nth n T 0 <= reputation /\
      forall i, (i < len)%nat -> nth i T 0 <= reputation -> (i <= n)%nat
  | None => forall i, (i < len)%nat -> reputation < nth i T 0
  end.
Proof.
  induction len as [|len IH].
  - simpl. intros i Hi. lia.
  - rewrite seq_S, rev_app_distr. simpl.
    destruct (reputation >=? nth len T 0) eqn:E.
    + apply Z.geb_le in E. repeat split; try lia.
    + assert (reputation < nth len T 0) as Hlt.
      { destruct (Z.geb_spec reputation (nth len T 0)); [discriminate | lia]. }
      destruct (ReputationSystem.scan reputation T (rev (seq 0 len))) as [n|].
      * destruct IH as (Hn & Hge & Hmax). repeat split; try lia.
        intros i Hi Hle.
        destruct (Nat.eq_dec i len) as [->|Hne]; [lia | apply Hmax; [lia | exact Hle]].
      * intros i Hi.
        destruct (Nat.eq_dec i len) as [->|Hne]; [exact Hlt | apply IH; lia].
Qed.

(** C7. For every reputation and every threshold list (in particular every
    non-decreasing list that starts at 0), [server_level] is the highest
    index whose threshold the reputation reaches, and 0 when it reaches
    none; it is a total function of its two inputs. *)
Theorem server_level_highest_threshold (st : Settings) (reputation : Z) :
  (forall i, (i < List.length (ReputationSystem.reputation_map st))%nat ->
             nth i (ReputationSystem.reputation_map st) 0 <= reputation ->
             Z.of_nat i <= ReputationSystem.server_level st reputation)
  /\ ((exists i, (i < List.length (ReputationSystem.reputation_map st))%nat /\
                 nth i (ReputationSystem.reputation_map st) 0 <= reputation) ->
      exists j, ReputationSystem.server_level st reputation = Z.of_nat j /\
                (j < List.length (ReputationSystem.reputation_map st))%nat /\
                nth j (ReputationSystem.reputation_map st) 0 <= reputation)
  /\ ((forall i, (i < List.length (ReputationSystem.reputation_map st))%nat ->
                 reputation < nth i (ReputationSystem.reputation_map st) 0) ->
      ReputationSystem.server_level st reputation = 0).
Proof.
  unfold ReputationSystem.server_level, ReputationSystem.server_level_of.
  set (T := ReputationSystem.reputation_map st).
  pose proof (scan_rev_seq reputation T (List.length T)) as H.
  destruct (ReputationSystem.scan reputation T (rev (seq 0 (List.length T))))
    as [n|].
  - destruct H as (Hn & Hge & Hmax). repeat split.
    + intros i Hi Hle. specialize (Hmax i Hi Hle). lia.
    + intros _. exists n. repeat split; assumption.
    + intros Hnone. specialize (Hnone n Hn). lia.
  - repeat split.
    + intros i Hi Hle. specialize (H i Hi). lia.
    + intros (i & Hi & Hle). specialize (H i Hi). lia.
Qed.

(** ** Credential life cycle *)

Lemma legacy_eqb_false (t : string) : t <> "legacy" -> (t =? "legacy")%string = false.
Proof. intro H. apply String.eqb_neq. exact H. Qed.

(** C9. [deactivate] and [reactivate] change a credential only when its
    request type is 'legacy': [deactivate] sets [removed], clears
    [delete_date] and [deletion_cause] and stamps the issue and the transfer;
    [reactivate] clears [removed] and the same fields.  On any other request
    type both return the credential with every field as it was. *)
Theorem deactivate_reactivate_legacy_only
        (now : Z) (c : OutlineUser) (issue transfer : option Z) :
  (ou_request_type c = "legacy" ->
     ou_removed (deactivate now c issue transfer) = true
     /\ ou_delete_date (deactivate now c issue transfer) = None
     /\ ou_deletion_cause (deactivate now c issue transfer) = NA
     /\ ou_user_issue (deactivate now c issue transfer) = issue
     /\ ou_transfer (deactivate now c issue transfer) = transfer
     /\ ou_removed (reactivate now c) = false
     /\ ou_delete_date (reactivate now c) = None
     /\ ou_deletion_cause (reactivate now c) = NA
     /\ ou_user_issue (reactivate now c) = None
     /\ ou_transfer (reactivate now c) = None)
  /\ (ou_request_type c <> "legacy" ->
        deactivate now c issue transfer = c /\ reactivate now c = c).
Proof.
  split.
  - intros Hl. unfold deactivate, reactivate. rewrite Hl. simpl.
    repeat split; reflexivity.
  - intros Hn. unfold deactivate, reactivate.
    rewrite (legacy_eqb_false _ Hn). split; reflexivity.
Qed.

(** ** Reputation gain *)

Lemma is_working_iff (s : OutlineServer) :
  is_working s = true <->
  srv_is_blocked s = false /\ srv_is_distributing s = true /\ srv_active s = true.
Proof.
  unfold is_working.
  destruct (srv_is_blocked s), (srv_is_distributing s), (srv_active s);
    simpl; intuition congruence.
Qed.

Lemma points_to_working_bool (d : DB) (key : OutlineUser) :
  match key_server d key with
  | Some server => is_working server
  | None => false
  end = true <-> points_to_working d key.
Proof.
  unfold points_to_working. destruct (key_server d key) as [s|].
  - split; [intros H; exists s; auto | intros (s' & E & H); congruence].
  - split; [discriminate | intros (s' & E & _); discriminate].
Qed.

(** C5, amended to what the code does.  [increase_reputation] for the basic
    model holds exactly when the user has a stored credential, removed ones
    included, and the server of the one with the smallest id is working;
    for a user with a single stored credential that is the credential of
    the claim.  For the location-based model it holds exactly when the user
    has a credential and some credential of the user points to a working
    server; it is false for fixed-IP and for a user without credentials.  A
    server is working when it is not blocked, distributing and active. *)
Theorem increase_reputation_cases (d : DB) (user : Vpnuser) :
  (increase_reputation d user DistributionModelChoice.BASIC = true <->
     exists key, first_by_pk (outline_keys d user) = Some key
                 /\ points_to_working d key)
  /\ (forall key, outline_keys d user = [key] ->
        (increase_reputation d user DistributionModelChoice.BASIC = true <->
           points_to_working d key))
  /\ (increase_reputation d user DistributionModelChoice.LOCATIONED = true <->
        outline_keys d user <> []
        /\ exists key, In key (outline_keys d user) /\ points_to_working d key)
  /\ increase_reputation d user DistributionModelChoice.FIXED_IP = false
  /\ (forall dist_model, outline_keys d user = [] ->
        increase_reputation d user dist_model = false)
  /\ (forall s, is_working s = true <->
        srv_is_blocked s = false /\ srv_is_distributing s = true
        /\ srv_active s = true).
Proof.
  assert (Hbasic : increase_reputation d user DistributionModelChoice.BASIC = true <->
     exists key, first_by_pk (outline_keys d user) = Some key
                 /\ points_to_working d key).
  { unfold increase_reputation. simpl.
    destruct (first_by_pk (outline_keys d user)) as [k|].
    - rewrite points_to_working_bool. split.
      + intros H. exists k. auto.
      + intros (k' & E & H). congruence.
    - split; [discriminate | intros (k' & E & _); discriminate]. }
  split; [exact Hbasic|].
  split.
  { intros key Hk. rewrite Hbasic, Hk. simpl. split.
    - intros (k' & E & H). congruence.
    - intros H. exists key. auto. }
  split.
  { unfold increase_reputation. simpl.
    destruct (outline_keys d user) as [|k ks] eqn:E.
    - simpl. split; [discriminate | intros (H & _); congruence].
    - replace (Z.of_nat (List.length (k :: ks)) =? 0) with false
        by (symmetry; apply Z.eqb_neq; simpl List.length; lia).
      rewrite existsb_exists. split.
      + intros (x & Hin & H). split; [discriminate|].
        exists x. split; [exact Hin | apply points_to_working_bool; exact H].
      + intros (_ & x & Hin & H). exists x.
        split; [exact Hin | apply points_to_working_bool; exact H]. }
  split; [reflexivity|].
  split; [|exact is_working_iff].
  intros dist_model E. unfold increase_reputation. rewrite E. simpl.
  destruct (dist_model =? DistributionModelChoice.LOCATIONED); [reflexivity|].
  destruct (dist_model =? DistributionModelChoice.FIXED_IP); reflexivity.
Qed.

(** C5 as stated does not hold for the basic model.  After a renewal alice
    has two stored credentials: the first one, removed, on server 7 and the
    one she holds on server 8.  When server 7 is blocked and server 8 works,
    [increase_reputation] is false although her credential's server is
    working; when server 7 works and server 8 is blocked, it is true
    although her credential's server is not working. *)
Lemma increase_reputation_reads_first_stored_row :
  (filter (fun k => negb (ou_removed k))
          (outline_keys Scenario.renewed_off_blocked Scenario.alice)
   = [Scenario.credential 2 8 "legacy" true false None]
   /\ key_server Scenario.renewed_off_blocked
        (Scenario.credential 2 8 "legacy" true false None)
      = Some (Scenario.basic_server 8 0)
   /\ is_working (Scenario.basic_server 8 0) = true
   /\ increase_reputation Scenario.renewed_off_blocked Scenario.alice
        DistributionModelChoice.BASIC = false)
  /\ (filter (fun k => negb (ou_removed k))
             (outline_keys Scenario.renewed_onto_blocked Scenario.alice)
      = [Scenario.credential 2 8 "legacy" true false None]
      /\ key_server Scenario.renewed_onto_blocked
           (Scenario.credential 2 8 "legacy" true false None)
         = Some (Scenario.blocked_server 8)
      /\ is_working (Scenario.blocked_server 8) = false
      /\ increase_reputation Scenario.renewed_onto_blocked Scenario.alice
           DistributionModelChoice.BASIC = true).
Proof. vm_compute. repeat split. Qed.

(** ** Server selection *)

Lemma scan_idle_zero (servers : list AnnotatedServer) (acc : Q) :
  (exists s, In (s, 0) servers) ->
  exists s, scan_idle servers acc = inl s /\ In (s, 0) servers.
Proof.
  revert acc. induction servers as [|[s uc] rest IH]; intros acc (s0 & Hin).
  - contradiction.
  - simpl. destruct (uc =? 0) eqn:E.
    + apply Z.eqb_eq in E. subst uc. exists s. split; [reflexivity | now left].
    + destruct Hin as [Heq|Hin].
      * inversion Heq; subst. discriminate.
      * destruct (IH (acc + 1 / inject_Z uc)%Q (ex_intro _ s0 Hin))
          as (s1 & Hs & Hin1).
        exists s1. split; [exact Hs | now right].
Qed.

(** C6. When some server of the pool handed to [find_server] has a live-user
    count of zero, [find_server] returns a server of the pool whose count is
    zero, whatever the environment (hence the random draws) and whatever the
    counts of the others; no draw is consumed. *)
Theorem find_server_zero_load_first
        (env : Env) (servers : list AnnotatedServer) (w : World) :
  (exists s, In (s, 0) servers) ->
  exists s, find_server env servers w = (Ok (Some s), w) /\ In (s, 0) servers.
Proof.
  intros Hex. unfold find_server.
  destruct servers as [|[s1 u1] [|[s2 u2] rest]].
  - destruct Hex as (s & []).
  - destruct Hex as (s & [Heq|[]]). inversion Heq; subst.
    exists s. split; [reflexivity | now left].
  - replace (Z.of_nat (List.length ((s1, u1) :: (s2, u2) :: rest)) >? 1) with true
      by (symmetry; apply Z.gtb_lt; simpl List.length; lia).
    destruct (scan_idle_zero ((s1, u1) :: (s2, u2) :: rest) 0%Q Hex)
      as (s & Hs & Hin).
    rewrite Hs. exists s. split; [reflexivity | exact Hin].
Qed.

Lemma insert_desc_not_nil (x : AnnotatedServer) (l : list AnnotatedServer) :
  insert_desc x l <> [].
Proof.
  destruct l as [|y l]; simpl; [discriminate|].
  destruct (snd x <? snd y); discriminate.
Qed.

Lemma order_by_nil (l : list AnnotatedServer) :
  order_by_usercount_desc l = [] -> l = [].
Proof.
  destruct l as [|x l]; [reflexivity|]. simpl. intros H.
  exfalso. exact (insert_desc_not_nil _ _ H).
Qed.

Lemma filter_filter {A} (f g : A -> bool) (l : list A) :
  filter f (filter g l) = filter (fun x => g x && f x) l.
Proof.
  induction l as [|x l IH]; [reflexivity|]. simpl.
  destruct (g x); simpl; [destruct (f x); rewrite IH; reflexivity | exact IH].
Qed.

Lemma filter_true {A} (l : list A) : filter (fun _ => true) l = l.
Proof. induction l as [|x l IH]; simpl; [reflexivity | now rewrite IH]. Qed.

Lemma previously_used_last_servers (d : DB) (user : Vpnuser) (s : OutlineServer) :
  existsb (Z.eqb (srv_id s)) (last_servers d user) = previously_used d user s.
Proof.
  apply eq_true_iff_eq. unfold last_servers, previously_used, outline_keys.
  rewrite !existsb_exists. split.
  - intros (i & Hin & Hi). apply nodup_In, in_map_iff in Hin.
    destruct Hin as (k & Hk & Hin). apply filter_In in Hin.
    destruct Hin as (Hin & Hu). exists k. split; [exact Hin|].
    destruct (ou_user k) as [u|]; [|discriminate].
    rewrite Hu. simpl. apply Z.eqb_eq in Hi. subst i. rewrite Hi. apply Z.eqb_refl.
  - intros (k & Hin & Hk). destruct (ou_user k) as [u|] eqn:Eu; [|discriminate].
    apply andb_true_iff in Hk. destruct Hk as (Hu & Hs).
    exists (ou_server k). split.
    + apply nodup_In, in_map_iff. exists k. split; [reflexivity|].
      apply filter_In. split; [exact Hin|]. rewrite Eu. exact Hu.
    + apply Z.eqb_eq in Hs. rewrite Hs. apply Z.eqb_refl.
Qed.

(** The queryset of [get_server_by_level] is one filter over the table. *)
Lemma get_server_by_level_filter
      (d : DB) (user : Vpnuser) (level : Z) (limited exclude : bool)
      (dist_model : Z) (location : option Z) :
  get_server_by_level d user level limited exclude dist_model location =
  order_by_usercount_desc
    (map (fun s => (s, usercount d s))
         (filter (fun s =>
                    base_filter (fun l => if limited then l =? level
                                          else l >? level) dist_model user s
                    && in_location location s
                    && (negb exclude || negb (previously_used d user s)))
                 (servers d))).
Proof.
  unfold get_server_by_level. f_equal. f_equal.
  assert (Hloc : forall l0 : list OutlineServer,
    (if truthy location
     then filter (fun s => match srv_location s, location with
                           | Some a, Some b => a =? b
                           | _, _ => false
                           end) l0
     else l0) = filter (in_location location) l0).
  { intros l0. unfold truthy, in_location. destruct location as [l|].
    - destruct (l =? 0); simpl; [now rewrite filter_true|].
      apply filter_ext. intros s. destruct (srv_location s); reflexivity.
    - now rewrite filter_true. }
  assert (Hex : forall l0 : list OutlineServer,
    (if exclude
     then filter (fun s => negb (existsb (Z.eqb (srv_id s)) (last_servers d user))) l0
     else l0) =
    filter (fun s => negb exclude || negb (previously_used d user s)) l0).
  { intros l0. destruct exclude; simpl; [|now rewrite filter_true].
    apply filter_ext. intros s. now rewrite previously_used_last_servers. }
  rewrite Hex, Hloc.
  destruct limited; rewrite !filter_filter; apply filter_ext; intros s;
    rewrite andb_assoc; reflexivity.
Qed.

Lemma pool_exact (d : DB) (user : Vpnuser) (level : Z) (exclude : bool)
      (dist_model : Z) (location : option Z) :
  get_server_by_level d user level true exclude dist_model location =
  candidate_pool d user level exclude true dist_model location.
Proof. rewrite get_server_by_level_filter. reflexivity. Qed.

(** Once the exact-tier pool is empty, "a higher tier" and "this tier or a
    higher one" select the same servers. *)
Lemma pool_relaxed (d : DB) (user : Vpnuser) (level : Z) (exclude : bool)
      (dist_model : Z) (location : option Z) :
  candidate_pool d user level exclude true dist_model location = [] ->
  get_server_by_level d user level false exclude dist_model location =
  candidate_pool d user level exclude false dist_model location.
Proof.
  intros Hempty. rewrite get_server_by_level_filter.
  unfold candidate_pool in *. f_equal. f_equal.
  apply order_by_nil, map_eq_nil in Hempty.
  apply filter_ext_in. intros s Hin.
  assert (Hs : base_filter (fun l => l =? level) dist_model user s
               && in_location location s
               && (negb exclude || negb (previously_used d user s)) = false).
  { destruct (base_filter (fun l => l =? level) dist_model user s
              && in_location location s
              && (negb exclude || negb (previously_used d user s))) eqn:E;
      [|reflexivity].
    assert (In s []) as [].
    rewrite <- Hempty. apply filter_In. split; [exact Hin | exact E]. }
  unfold base_filter in *. cbv beta in *.
  destruct (srv_level s =? level) eqn:El.
  - apply Z.eqb_eq in El. rewrite El.
    replace (level >? level) with false
      by (symmetry; rewrite Z.gtb_ltb; apply Z.ltb_irrefl).
    replace (level >=? level) with true by (symmetry; apply Z.geb_le; lia).
    rewrite Hs.
    destruct ((srv_type s =? "legacy")%string), (srv_active s),
      (srv_is_distributing s); reflexivity.
  - apply Z.eqb_neq in El.
    replace (srv_level s >=? level) with (srv_level s >? level); [reflexivity|].
    destruct (Z.gtb_spec (srv_level s) level), (Z.geb_spec (srv_level s) level);
      try reflexivity; lia.
Qed.

Lemma walk_some (servers : list AnnotatedServer) (tot prob : Q)
      (last : option OutlineServer) :
  servers <> [] -> exists s, walk servers tot prob last = Some s.
Proof.
  revert prob last. induction servers as [|[s uc] rest IH]; intros prob last Hne.
  - congruence.
  - simpl.
    destruct (Qle_bool (prob - 1 / inject_Z uc * (1 / tot) * 100) 0).
    + now exists s.
    + destruct rest as [|y rest'].
      * now exists s.
      * apply IH. discriminate.
Qed.

(** [find_server] yields no server exactly on the empty pool. *)
Lemma find_server_found (env : Env) (servers : list AnnotatedServer) (w : World) :
  servers <> [] ->
  exists s w', find_server env servers w = (Ok (Some s), w') /\ db w' = db w.
Proof.
  intros Hne. unfold find_server.
  destruct servers as [|[s1 u1] [|[s2 u2] rest]].
  - congruence.
  - exists s1, w. split; reflexivity.
  - replace (Z.of_nat (List.length ((s1, u1) :: (s2, u2) :: rest)) >? 1) with true
      by (symmetry; apply Z.gtb_lt; simpl List.length; lia).
    destruct (scan_idle ((s1, u1) :: (s2, u2) :: rest) 0) as [s|tot].
    + exists s, w. split; reflexivity.
    + cbv beta iota delta [bind randint draw ret].
      destruct (walk_some ((s1, u1) :: (s2, u2) :: rest) tot
                  (inject_Z (0 + random_draw env (rnd w) mod (100 - 0 + 1))) None)
        as (s & Hs); [discriminate|].
      exists s, (next_rnd w). rewrite Hs. split; reflexivity.
Qed.

Lemma first_non_empty_cons (pool : list AnnotatedServer)
      (pools : list (list AnnotatedServer)) :
  first_non_empty (pool :: pools) =
  match pool with
  | [] => first_non_empty pools
  | _ :: _ => Some pool
  end.
Proof. destruct pool; reflexivity. Qed.

Lemma inner_loop_documented
      (env : Env) (user : Vpnuser) (level dist_model : Z) (location : option Z)
      (exclude : bool) (w : World) :
  for_until_found
    (fun limited =>
       d <- get_db ;;
       find_server env
         (get_server_by_level d user level limited exclude dist_model location))
    [true; false] None w =
  match first_non_empty
          [candidate_pool (db w) user level exclude true dist_model location;
           candidate_pool (db w) user level exclude false dist_model location] with
  | Some pool => find_server env pool w
  | None => (Ok None, w)
  end.
Proof.
  cbn [for_until_found]. unfold bind at 1 2. unfold get_db at 1.
  rewrite pool_exact, first_non_empty_cons.
  destruct (candidate_pool (db w) user level exclude true dist_model location)
    as [|x pool1] eqn:E1.
  - change (find_server env [] w) with (Ok (@None OutlineServer), w).
    cbv beta iota. unfold bind at 1 2. unfold get_db at 1.
    rewrite (pool_relaxed _ _ _ _ _ _ E1), first_non_empty_cons.
    destruct (candidate_pool (db w) user level exclude false dist_model location)
      as [|y pool2] eqn:E2.
    + reflexivity.
    + destruct (find_server_found env (y :: pool2) w) as (s & w' & Hs & _);
        [discriminate|].
      rewrite Hs. reflexivity.
  - destruct (find_server_found env (x :: pool1) w) as (s & w' & Hs & _);
      [discriminate|].
    rewrite Hs. reflexivity.
Qed.

Lemma for_until_found_two {A B} (body : A -> M (option B)) (a b : A) (w : World) :
  for_until_found body [a; b] None w =
  match body a w with
  | (Ok (Some s), w') => (Ok (Some s), w')
  | (Ok None, w') => body b w'
  | (Raise e, w') => (Raise e, w')
  end.
Proof.
  cbn [for_until_found]. unfold bind at 1.
  destruct (body a w) as [[[s|]|e] w']; try reflexivity.
  unfold bind. destruct (body b w') as [[[s|]|e] w'']; reflexivity.
Qed.

Lemma documented_get_server_at_run
      (env : Env) (user : Vpnuser) (level dist_model : Z)
      (loc : option Location) (w : World) :
  documented_get_server_at env user level dist_model loc w =
  match first_non_empty
          (candidate_pools (db w) user level dist_model (option_map loc_id loc)) with
  | Some pool => find_server env pool w
  | None => (Ok None, w)
  end.
Proof.
  unfold documented_get_server_at, bind, get_db.
  destruct (first_non_empty _); reflexivity.
Qed.

Lemma get_server_at_documented
      (env : Env) (user : Vpnuser) (level dist_model : Z)
      (loc : option Location) (w : World) :
  get_server_at env user level dist_model loc w =
  documented_get_server_at env user level dist_model loc w.
Proof.
  rewrite documented_get_server_at_run.
  unfold get_server_at, candidate_pools.
  rewrite for_until_found_two. rewrite inner_loop_documented.
  rewrite !first_non_empty_cons.
  destruct (candidate_pool (db w) user level true true dist_model
              (option_map loc_id loc)) as [|x1 p1] eqn:E1.
  - destruct (candidate_pool (db w) user level true false dist_model
                (option_map loc_id loc)) as [|x2 p2] eqn:E2.
    + cbn [first_non_empty find]. cbv beta iota.
      rewrite inner_loop_documented.
      rewrite !first_non_empty_cons.
      destruct (candidate_pool (db w) user level false true dist_model
                  (option_map loc_id loc)) as [|x3 p3] eqn:E3.
      * destruct (candidate_pool (db w) user level false false dist_model
                    (option_map loc_id loc)) as [|x4 p4] eqn:E4; reflexivity.
      * reflexivity.
    + destruct (find_server_found env (x2 :: p2) w) as (s & w' & Hs & _);
        [discriminate|].
      rewrite Hs. reflexivity.
  - destruct (find_server_found env (x1 :: p1) w) as (s & w' & Hs & _);
      [discriminate|].
    rewrite Hs. reflexivity.
Qed.

Lemma get_server_loop_documented
      (env : Env) (user : Vpnuser) (level dist_model : Z)
      (locs : list (option Location)) (acc : list OutlineServer) (w : World) :
  get_server_loop env user level dist_model locs acc w =
  match documented_get_server_loop env user level dist_model locs w with
  | (Ok l, w') => (Ok (acc ++ l), w')
  | (Raise e, w') => (Raise e, w')
  end.
Proof.
  revert acc w. induction locs as [|loc rest IH]; intros acc w.
  - simpl. unfold ret. now rewrite app_nil_r.
  - cbn [get_server_loop documented_get_server_loop].
    unfold bind at 1 2. rewrite get_server_at_documented.
    destruct (documented_get_server_at env user level dist_model loc w)
      as [[[s|]|e] w1]; [| |reflexivity].
    + rewrite IH. unfold bind.
      destruct (documented_get_server_loop env user level dist_model rest w1)
        as [[l|e] w2]; [|reflexivity].
      unfold ret. now rewrite <- app_assoc.
    + rewrite IH. unfold bind.
      destruct (documented_get_server_loop env user level dist_model rest w1)
        as [[l|e] w2]; reflexivity.
Qed.

Lemma get_server_documented
      (env : Env) (user : Vpnuser) (level dist_model : Z)
      (location : option Location) (w : World) :
  get_server env user level dist_model location w =
  documented_get_server env user level dist_model location w.
Proof.
  unfold get_server, documented_get_server, bind, get_db.
  rewrite get_server_loop_documented.
  destruct (documented_get_server_loop _ _ _ _ _ w) as [[l|e] w']; reflexivity.
Qed.

Lemma same_store_refl (w : World) : same_store w w.
Proof. repeat split. Qed.

Lemma same_store_trans (w1 w2 w3 : World) :
  same_store w1 w2 -> same_store w2 w3 -> same_store w1 w3.
Proof.
  unfold same_store. intros (A1 & A2 & A3 & A4) (B1 & B2 & B3 & B4).
  repeat split; congruence.
Qed.

Lemma find_server_total (env : Env) (servers : list AnnotatedServer) (w : World) :
  exists o w', find_server env servers w = (Ok o, w') /\ same_store w w'.
Proof.
  destruct servers as [|x rest].
  - exists None, w. split; [reflexivity | apply same_store_refl].
  - unfold find_server.
    destruct (Z.of_nat (List.length (x :: rest)) >? 1).
    + destruct (scan_idle (x :: rest) 0) as [s|tot].
      * exists (Some s), w. split; [reflexivity | apply same_store_refl].
      * cbv beta iota delta [bind randint draw ret].
        eexists _, (next_rnd w). split; [reflexivity | repeat split].
    + eexists _, w. split; [reflexivity | apply same_store_refl].
Qed.

Lemma documented_get_server_at_total
      (env : Env) (user : Vpnuser) (level dist_model : Z)
      (loc : option Location) (w : World) :
  exists o w', documented_get_server_at env user level dist_model loc w = (Ok o, w')
               /\ same_store w w'.
Proof.
  rewrite documented_get_server_at_run.
  destruct (first_non_empty _) as [pool|].
  - apply find_server_total.
  - exists None, w. split; [reflexivity | apply same_store_refl].
Qed.

Lemma documented_get_server_loop_total
      (env : Env) (user : Vpnuser) (level dist_model : Z)
      (locs : list (option Location)) (w : World) :
  exists l w', documented_get_server_loop env user level dist_model locs w = (Ok l, w')
               /\ same_store w w' /\ (List.length l <= List.length locs)%nat.
Proof.
  revert w. induction locs as [|loc rest IH]; intros w.
  - exists [], w. split; [reflexivity | split; [apply same_store_refl | simpl; lia]].
  - cbn [documented_get_server_loop]. unfold bind at 1.
    destruct (documented_get_server_at_total env user level dist_model loc w)
      as (o & w1 & Ho & S1).
    rewrite Ho. unfold bind at 1.
    destruct (IH w1) as (l & w2 & Hl & S2 & Hlen). rewrite Hl.
    destruct o as [s|].
    + exists (s :: l), w2. split; [reflexivity|].
      split; [eapply same_store_trans; eassumption | simpl; lia].
    + exists l, w2. split; [reflexivity|].
      split; [eapply same_store_trans; eassumption | simpl; lia].
Qed.

(** [get_server] always returns a list; it only advances the random counter. *)
Lemma get_server_total
      (env : Env) (user : Vpnuser) (level dist_model : Z)
      (location : option Location) (w : World) :
  exists l w', get_server env user level dist_model location w = (Ok l, w')
               /\ same_store w w'.
Proof.
  rewrite get_server_documented.
  unfold documented_get_server, bind, get_db.
  destruct (documented_get_server_loop_total env user level dist_model
              (if dist_model =? DistributionModelChoice.LOCATIONED
               then map Some (filter loc_active (locations (db w)))
               else [location]) w) as (l & w' & Hl & S & _).
  exists l, w'. split; [exact Hl | exact S].
Qed.

(** The caller's side of an empty selection: the legacy branch of
    [create_keys] turns it into 'No server found for user'. *)
Lemma create_keys_no_server
      (env : Env) (user : Vpnuser) (model : option Z) (w w1 : World) :
  get_server env user
    (level_of_request env (db w) user
       (match model with Some m => m | None => DistributionModelChoice.BASIC end))
    (match model with Some m => m | None => DistributionModelChoice.BASIC end)
    None w = (Ok [], w1) ->
  create_keys env user "legacy" model w =
  (Raise (NotAcceptable (No_server_found_for_user (vu_id user))), w1).
Proof.
  intros Hget. unfold create_keys. cbn [String.eqb Ascii.eqb Bool.eqb].
  cbv beta iota zeta. unfold bind at 1. unfold get_db at 1. cbv beta iota.
  unfold level_of_request, reputation_after_request in Hget.
  unfold bind at 1. rewrite Hget. reflexivity.
Qed.

(** C4. For every user, level, model and location [get_server] is the
    documented selection: per location the four pools (exclude previous,
    exact tier), (exclude previous, tier or higher), (no exclusion, exact
    tier), (no exclusion, tier or higher) are tried in this order and
    [find_server] runs on the first that is not empty; a location whose four
    pools are empty adds nothing; the call never raises; outside the
    location-based model four empty pools give the empty list, and the
    caller answers an empty list with 'No server found'. *)
Theorem get_server_priority_order
        (env : Env) (user : Vpnuser) (level dist_model : Z)
        (location : option Location) (w : World) :
  get_server env user level dist_model location w =
    documented_get_server env user level dist_model location w
  /\ (exists l w', get_server env user level dist_model location w = (Ok l, w')
                   /\ same_store w w')
  /\ (dist_model <> DistributionModelChoice.LOCATIONED ->
      first_non_empty
        (candidate_pools (db w) user level dist_model
           (option_map loc_id location)) = None ->
      get_server env user level dist_model location w = (Ok [], w))
  /\ (forall model w1,
        get_server env user
          (level_of_request env (db w) user
             (match model with
              | Some m => m
              | None => DistributionModelChoice.BASIC
              end))
          (match model with
           | Some m => m
           | None => DistributionModelChoice.BASIC
           end) None w = (Ok [], w1) ->
        create_keys env user "legacy" model w =
        (Raise (NotAcceptable (No_server_found_for_user (vu_id user))), w1)).
Proof.
  split; [apply get_server_documented|].
  split; [apply get_server_total|].
  split; [|intros model w1; apply create_keys_no_server].
  intros Hdm Hnone. rewrite get_server_documented.
  unfold documented_get_server.
  cbv beta iota delta [bind get_db].
  apply Z.eqb_neq in Hdm. rewrite Hdm.
  cbn [documented_get_server_loop]. unfold bind at 1.
  rewrite documented_get_server_at_run, Hnone. reflexivity.
Qed.

(** ** Revocation *)

Lemma set_db_same (w : World) : set_db (db w) w = w.
Proof. destruct w; reflexivity. Qed.

Lemma set_outline_users_same (d : DB) : set_outline_users (outline_users d) d = d.
Proof. destruct d; reflexivity. Qed.

Lemma mark_gone_run (id : Z) (w : World) :
  mark_gone id w =
  (Ok tt, set_db (set_outline_users (mark_all [id] (outline_users (db w))) (db w)) w).
Proof.
  unfold mark_gone, mark_all. cbv beta iota delta [bind get_db put_db].
  do 3 f_equal. apply map_ext. intros k. simpl. now rewrite orb_false_r.
Qed.

Lemma mark_all_app (ids1 ids2 : list Z) (rows : list OutlineUser) :
  mark_all ids2 (mark_all ids1 rows) = mark_all (ids1 ++ ids2) rows.
Proof.
  unfold mark_all. rewrite map_map. apply map_ext. intros k.
  rewrite existsb_app.
  destruct (existsb (Z.eqb (ou_id k)) ids1); simpl.
  - destruct (existsb (Z.eqb (ou_id k)) ids2); reflexivity.
  - reflexivity.
Qed.

Lemma mark_all_nil (rows : list OutlineUser) : mark_all [] rows = rows.
Proof. unfold mark_all. simpl. apply map_id. Qed.

Lemma remove_one_key_simulated (env : Env) (key : KeyDict) (failed : list Z)
      (w : World) :
  REAL_VPN_SERVERS (settings env) = false ->
  remove_one_key env key failed w =
  match kd_id key with
  | None => (Raise (KeyError "id"), w)
  | Some id =>
      let w' := set_db (set_outline_users
                          (mark_all [id] (outline_users (db w))) (db w)) w in
      match kd_outline_key_id key with
      | None => (Raise (KeyError "outline_key_id"), w')
      | Some _ => (Ok failed, w')
      end
  end.
Proof.
  intros Hsim. unfold remove_one_key. rewrite Hsim.
  destruct (kd_id key) as [id|]; [|reflexivity].
  cbn [subscript]. unfold bind at 1. unfold lift at 1. cbv beta iota.
  unfold bind at 1. rewrite mark_gone_run.
  destruct (kd_outline_key_id key); reflexivity.
Qed.

Lemma remove_keys_loop_simulated (env : Env) (keys : list KeyDict)
      (failed : list Z) (w : World) :
  REAL_VPN_SERVERS (settings env) = false ->
  exists r w', remove_keys_loop env keys failed w = (r, w')
               /\ calls w' = calls w
               /\ (r = Ok failed \/ exists name, r = Raise (KeyError name))
               /\ (forallb has_id_and_key_id keys = true ->
                   r = Ok failed /\
                   w' = set_db (set_outline_users
                                  (mark_all (ids_of keys) (outline_users (db w)))
                                  (db w)) w).
Proof.
  intros Hsim. revert w. induction keys as [|key rest IH]; intros w.
  - exists (Ok failed), w. repeat split; auto.
    cbn [ids_of flat_map]. now rewrite mark_all_nil, set_outline_users_same, set_db_same.
  - cbn [remove_keys_loop]. unfold bind.
    rewrite (remove_one_key_simulated env key failed w Hsim).
    cbn [forallb].
    destruct (kd_id key) as [id|] eqn:Eid.
    + cbv zeta. destruct (kd_outline_key_id key) as [kid|] eqn:Ek.
      * destruct (IH (set_db (set_outline_users
                                (mark_all [id] (outline_users (db w))) (db w)) w))
          as (r & w' & Hrun & Hcalls & Hshape & Hgood).
        exists r, w'. split; [exact Hrun|]. split; [exact Hcalls|].
        split; [exact Hshape|].
        intros Hwf. apply andb_true_iff in Hwf. destruct Hwf as (_ & Hwf).
        destruct (Hgood Hwf) as (Hr & Hw). split; [exact Hr|].
        rewrite Hw. cbn [ids_of flat_map]. rewrite Eid.
        destruct w as [d c r0 n ck]; destruct d.
        unfold set_db, set_outline_users; cbn -[mark_all].
        now rewrite mark_all_app.
      * eexists _, _. split; [reflexivity|]. split; [reflexivity|].
        split; [right; eexists; reflexivity|].
        intros Hwf. apply andb_true_iff in Hwf. destruct Hwf as (Hk & _).
        unfold has_id_and_key_id in Hk. rewrite Eid, Ek in Hk. discriminate.
    + eexists _, _. split; [reflexivity|]. split; [reflexivity|].
      split; [right; eexists; reflexivity|].
      intros Hwf. apply andb_true_iff in Hwf. destruct Hwf as (Hk & _).
      unfold has_id_and_key_id in Hk. rewrite Eid in Hk. discriminate.
Qed.




(** An entry appended by [create_keys] has no 'id': revoking a list that
    starts with one stops at once and reaches no backend. *)
Lemma remove_key_from_server_without_id
      (env : Env) (key : KeyDict) (rest : list KeyDict) (w : World) :
  kd_id key = None ->
  remove_key_from_server env (key :: rest) w = (Raise (KeyError "id"), w).
Proof.
  intros Hid. unfold remove_key_from_server. cbn [remove_keys_loop].
  unfold bind at 1. unfold remove_one_key. rewrite Hid. reflexivity.
Qed.

(** C1. The rollback of a partial batch, run on two active locations where
    provisioning succeeds on server 1 and raises on server 2: [create] ends
    with KeyError 'id' raised by the revocation itself, not with the
    allocation error; the credential rows are rolled back; the backend saw
    the two provisioning calls and no delete call, so the key made on server
    1 stays there. *)
Theorem create_rollback_stops_on_missing_id :
  fst rollback_run = Raise (KeyError "id")
  /\ calls (snd rollback_run) = [ManagerNew 1; ManagerNew 2]
  /\ outline_users (db (snd rollback_run)) = []
  /\ map kd_server (created_keys (snd rollback_run)) = [Some 1]
  /\ map kd_id (created_keys (snd rollback_run)) = [None].
Proof. vm_compute. repeat split. Qed.

(** The Legacy/Central protocol of one key on an active server that is not a
    GTF server: a time-out or another failure records the id and leaves the
    row alone; success and not-found clear [exists_on_server]. *)
Lemma remove_one_key_legacy_central
      (env : Env) (key : KeyDict) (failed : list Z) (w : World)
      (id server_id outline_key_id : Z) (server : OutlineServer) :
  REAL_VPN_SERVERS (settings env) = true ->
  kd_id key = Some id ->
  kd_server key = Some server_id ->
  kd_outline_key_id key = Some outline_key_id ->
  server_by_id (db w) server_id = [server] ->
  (srv_type server =? "gtf")%string = false ->
  srv_active server = true ->
  remove_one_key env key failed w =
  let w1 := log_call (ManagerDelete (srv_id server) outline_key_id) w in
  match manager_delete env (calls w) server outline_key_id with
  | TimedOut | DeleteFailed => (Ok (failed ++ [id]), w1)
  | Deleted | NotFound =>
      (Ok failed,
       set_db (set_outline_users (mark_all [id] (outline_users (db w1))) (db w1)) w1)
  end.
Proof.
  intros Hreal Hid Hs Hk Hsrv Htype Hact.
  unfold remove_one_key. rewrite Hreal, Hid, Hs, Hk.
  cbn [subscript]. cbv beta iota delta [bind lift get_db].
  rewrite Hsrv. cbn [objects_get]. rewrite Htype, Hact.
  cbv beta iota delta [ret negb outline_manager_delete_key].
  destruct (manager_delete env (calls w) server outline_key_id);
    try reflexivity; rewrite mark_gone_run; reflexivity.
Qed.

(** The GTF branch falls through: on an active GTF server, after a 404 the
    row is marked and the manager is called all the same; when that call
    times out the id is recorded as failed. *)
Lemma remove_one_key_gtf_404
      (env : Env) (key : KeyDict) (failed : list Z) (w : World)
      (id server_id outline_key_id : Z) (server : OutlineServer) :
  REAL_VPN_SERVERS (settings env) = true ->
  kd_id key = Some id ->
  kd_server key = Some server_id ->
  kd_outline_key_id key = Some outline_key_id ->
  server_by_id (db w) server_id = [server] ->
  srv_type server = "gtf" ->
  srv_active server = true ->
  http_delete env (calls w)
    (strip_trailing_slash (srv_api_url server) ++ "/" ++ str outline_key_id)%string
    = 404 ->
  manager_delete env
    (calls w ++
     [HttpDelete (strip_trailing_slash (srv_api_url server) ++ "/"
                  ++ str outline_key_id)%string])
    server outline_key_id = TimedOut ->
  fst (remove_one_key env key failed w) = Ok (failed ++ [id])
  /\ calls (snd (remove_one_key env key failed w)) =
     calls w ++
     [HttpDelete (strip_trailing_slash (srv_api_url server) ++ "/"
                  ++ str outline_key_id)%string;
      ManagerDelete (srv_id server) outline_key_id]
  /\ outline_users (db (snd (remove_one_key env key failed w))) =
     mark_all [id] (outline_users (db w)).
Proof.
  intros Hreal Hid Hs Hk Hsrv Htype Hact Hhttp Hman.
  unfold remove_one_key. rewrite Hreal, Hid, Hs, Hk.
  cbn [subscript]. cbv beta iota delta [bind lift get_db].
  rewrite Hsrv. cbn [objects_get]. rewrite Htype, Hact.
  cbn [String.eqb Ascii.eqb Bool.eqb negb].
  cbv beta iota delta [request_delete]. rewrite Hhttp.
  cbn [Z.eqb Pos.eqb]. rewrite mark_gone_run.
  cbv beta iota delta [ret outline_manager_delete_key].
  cbn [calls log_call set_db]. rewrite Hman.
  cbn [fst snd calls log_call set_db db outline_users set_outline_users].
  rewrite <- app_assoc. repeat split.
Qed.

(** C3. Revocation of a key held on an active GTF server whose endpoint
    answers 404 to DELETE, the manager call that the loop goes on to make
    timing out: the row is marked as gone and yet its id is returned in the
    failed list. *)
Theorem remove_key_gtf_404_reported_failed :
  fst gtf_removal_run = Ok [5]
  /\ calls (snd gtf_removal_run) =
       [HttpDelete "https://gtf.example/keys/9"; ManagerDelete 3 9]
  /\ map ou_exists_on_server (outline_users (db (snd gtf_removal_run))) = [false].
Proof. vm_compute. repeat split. Qed.

(** ** The duplicate-key check *)

Lemma nd_ret {A} (a : A) : no_duplicate_error (ret a).
Proof. intros w e w' H. discriminate H. Qed.

Lemma nd_raise {A} (e : Exc) : is_duplicate e = false -> no_duplicate_error (@raise A e).
Proof. intros He w e' w' H. inversion H; subst. exact He. Qed.

Lemma nd_bind {A B} (m : M A) (f : A -> M B) :
  no_duplicate_error m -> (forall a, no_duplicate_error (f a)) ->
  no_duplicate_error (bind m f).
Proof.
  intros Hm Hf w e w' H. unfold bind in H.
  destruct (m w) as [[a|e0] w1] eqn:E.
  - exact (Hf a w1 e w' H).
  - inversion H; subst. exact (Hm w e w' E).
Qed.

Lemma nd_try_except {A} (m : M A) (handler : Exc -> M A) :
  (forall e, no_duplicate_error (handler e)) ->
  no_duplicate_error (try_except m handler).
Proof.
  intros Hh w e w' H. unfold try_except in H.
  destruct (m w) as [[a|e0] w1] eqn:E.
  - discriminate H.
  - exact (Hh e0 w1 e w' H).
Qed.

Lemma nd_lift {A} (r : Result A) :
  (forall e, r = Raise e -> is_duplicate e = false) -> no_duplicate_error (lift r).
Proof. intros Hr w e w' H. inversion H; subst. now apply Hr. Qed.

Lemma nd_subscript {A} (entry : option A) (name : string) :
  no_duplicate_error (lift (subscript entry name)).
Proof.
  apply nd_lift. intros e H. destruct entry; inversion H; reflexivity.
Qed.

Lemma nd_objects_get {A} (model : string) (l : list A) :
  no_duplicate_error (lift (objects_get model l)).
Proof.
  apply nd_lift. intros e H. destruct l as [|x [|y l]]; inversion H; reflexivity.
Qed.

(** A step that cannot raise. *)
Lemma nd_total {A} (m : M A) :
  (forall w, exists a w', m w = (Ok a, w')) -> no_duplicate_error m.
Proof.
  intros Hm w e w' H. destruct (Hm w) as (a & w1 & E). congruence.
Qed.

Create HintDb nd discriminated.

#[local] Hint Resolve nd_ret nd_bind nd_try_except nd_subscript nd_objects_get : nd.
#[local] Hint Extern 1 (no_duplicate_error (raise _)) =>
  apply nd_raise; reflexivity : nd.
#[local] Hint Extern 1 (no_duplicate_error (if ?b then _ else _)) =>
  destruct b : nd.
#[local] Hint Extern 1 (no_duplicate_error (match ?x with _ => _ end)) =>
  destruct x : nd.
#[local] Hint Extern 3 (no_duplicate_error _) =>
  apply nd_total; intros ?; eexists _, _; reflexivity : nd.

Lemma nd_mark_gone (id : Z) : no_duplicate_error (mark_gone id).
Proof. unfold mark_gone. auto 10 with nd. Qed.

#[local] Hint Resolve nd_mark_gone : nd.

Lemma nd_remove_one_key (env : Env) (key : KeyDict) (failed : list Z) :
  no_duplicate_error (remove_one_key env key failed).
Proof. unfold remove_one_key. auto 30 with nd. Qed.

Lemma nd_remove_key_from_server (env : Env) (keys : list KeyDict) :
  no_duplicate_error (remove_key_from_server env keys).
Proof.
  unfold remove_key_from_server. generalize (@nil Z) as failed.
  induction keys as [|key rest IH]; intros failed; cbn [remove_keys_loop].
  - apply nd_ret.
  - apply nd_bind; [apply nd_remove_one_key | intros f; apply IH].
Qed.

Lemma nd_deactivate_keys (keys : list OutlineUser) (user_issue : option Z) :
  no_duplicate_error (deactivate_keys keys user_issue).
Proof.
  induction keys as [|key rest IH]; cbn [deactivate_keys]; auto 10 with nd.
Qed.

Lemma nd_remove_keys_from_db (keys : list OutlineUser) (user_issue : option Z) :
  no_duplicate_error (remove_keys_from_db keys user_issue).
Proof.
  unfold remove_keys_from_db. apply nd_bind; [auto with nd|].
  intros d. apply nd_deactivate_keys.
Qed.

Lemma nd_choice {A} (env : Env) (l : list A) : no_duplicate_error (choice env l).
Proof. unfold choice. auto 10 with nd. Qed.

#[local] Hint Resolve nd_choice nd_remove_key_from_server nd_remove_keys_from_db : nd.

Lemma nd_random_request_type (env : Env) (types : list string) :
  no_duplicate_error (random_request_type env types).
Proof.
  unfold random_request_type, weighted_request_type. auto 10 with nd.
Qed.

Lemma nd_update_online_config (env : Env) (outline_user : OutlineUser)
      (prefix_str : option string) :
  no_duplicate_error (update_online_config env outline_user prefix_str).
Proof.
  assert (Hup : forall file_name : string,
    no_duplicate_error
      (fun w' : World =>
         (if update_json_file env (calls w') file_name
               (ou_outline_key outline_user) prefix_str
          then Ok tt else Raise UploadError,
          log_call (UpdateJsonFile file_name) w'))).
  { intros f w e w' H.
    destruct (update_json_file env (calls w) f (ou_outline_key outline_user)
                prefix_str); inversion H; reflexivity. }
  unfold update_online_config. cbv zeta.
  apply nd_bind; [auto with nd | intros d].
  apply nd_bind; [auto with nd | intros w0].
  destruct (filter _ (online_configs d)) as [|c [|c' l]].
  - apply nd_bind; [auto with nd | intros _; apply Hup].
  - apply Hup.
  - apply nd_raise. reflexivity.
Qed.

#[local] Hint Resolve nd_random_request_type nd_update_online_config : nd.

Lemma no_duplicate_error_fst {A} (m : M A) (w : World) :
  no_duplicate_error m ->
  fst (m w) = Raise (NotAcceptable User_already_has_a_key) -> False.
Proof.
  intros Hm H. destruct (m w) as [r w'] eqn:E. simpl in H. subst r.
  specialize (Hm w _ w' E). discriminate Hm.
Qed.

Lemma non_legacy_keys_In (d : DB) (user : Vpnuser) (k : OutlineUser) :
  In k (non_legacy_keys d user) <->
  In k (outline_users d) /\ ou_user k = Some (vu_id user)
  /\ ou_request_type k <> "legacy".
Proof.
  unfold non_legacy_keys, outline_keys. rewrite !filter_In. split.
  - intros ((Hin & Hu) & Ht). split; [exact Hin|]. split.
    + destruct (ou_user k) as [u|]; [|discriminate].
      apply Z.eqb_eq in Hu. now subst u.
    + apply negb_true_iff, String.eqb_neq in Ht. exact Ht.
  - intros (Hin & Hu & Ht). split; [split; [exact Hin|]|].
    + rewrite Hu. apply Z.eqb_refl.
    + apply negb_true_iff, String.eqb_neq. exact Ht.
Qed.

(** C2, amended to what the code does. [create] fails with 'User already has a key'
    exactly when the user exists and holds some credential whose request
    type is not 'legacy', whatever its active and removed flags; the world
    is then left as it was, so no row is created. *)
Theorem create_duplicate_key_iff (env : Env) (vd : ValidatedData) (w : World) :
  (fst (create env vd w) = Raise (NotAcceptable User_already_has_a_key) <->
   exists user, users_named env (db w) (vd_user vd) = [user]
                /\ exists k, In k (outline_users (db w))
                             /\ ou_user k = Some (vu_id user)
                             /\ ou_request_type k <> "legacy")
  /\ (fst (create env vd w) = Raise (NotAcceptable User_already_has_a_key) ->
      snd (create env vd w) = w).
Proof.
  remember (create env vd w) as res eqn:E.
  unfold create in E. unfold bind at 1 in E. unfold get_db at 1 in E.
  cbv beta iota in E. unfold bind at 1 in E.
  destruct (users_named env (db w) (vd_user vd)) as [|user [|user' others]] eqn:Eu.
  - cbn in E. subst res. cbn.
    split; [split; [discriminate | intros (u & Hu & _); discriminate] | discriminate].
  - unfold ret at 1 in E. cbv beta iota in E.
    fold (non_legacy_keys (db w) user) in E.
    destruct (non_legacy_keys (db w) user) as [|k ks] eqn:Ek.
    + assert (Hno : fst res = Raise (NotAcceptable User_already_has_a_key) -> False).
      { rewrite E. apply no_duplicate_error_fst.
        destruct (vu_banned user); [apply nd_raise; reflexivity|].
        destruct (active_types (db w)) as [|t ts]; [apply nd_raise; reflexivity|].
        apply nd_bind; [apply nd_random_request_type | intros rt].
        apply nd_bind; [auto with nd | intros _].
        apply nd_bind.
        * apply nd_try_except. intros exc.
          apply nd_bind; [auto with nd | intros w0].
          destruct (created_keys w0).
          -- apply nd_raise. reflexivity.
          -- apply nd_bind; [apply nd_remove_key_from_server | intros _].
             apply nd_raise. reflexivity.
        * intros r. apply nd_bind.
          -- destruct (REAL_VPN_SERVERS (settings env));
               [apply nd_update_online_config | apply nd_ret].
          -- intros _. apply nd_bind.
             ++ destruct (filter _ (outline_keys (db w) user)).
                ** apply nd_ret.
                ** apply nd_bind; [apply nd_remove_key_from_server | intros _].
                   apply nd_remove_keys_from_db.
             ++ intros _. apply nd_bind; [auto with nd | intros w0; apply nd_ret]. }
      split; [split|].
      * intros H. destruct (Hno H).
      * intros (u0 & Hu0 & k & Hk). inversion Hu0; subst u0.
        apply non_legacy_keys_In in Hk. rewrite Ek in Hk. destruct Hk.
      * intros H. destruct (Hno H).
    + cbn in E. subst res. cbn. split; [split|reflexivity].
      * intros _. exists user. split; [reflexivity|].
        exists k. apply non_legacy_keys_In. rewrite Ek. now left.
      * reflexivity.
  - cbn in E. subst res. cbn.
    split; [split; [discriminate | intros (u & Hu & _); discriminate] | discriminate].
Qed.

(** C2 as stated does not hold: alice's only credential that is not
    legacy is inactive and removed, so she holds no live one, and [create]
    still rejects her with 'User already has a key'. *)
Lemma create_rejects_swept_credential :
  users_named (Scenario.env_ok false) Scenario.swept_central "alice"
    = [Scenario.alice]
  /\ live_non_legacy_keys Scenario.swept_central Scenario.alice = []
  /\ map (fun k => (ou_active k, ou_removed k))
         (non_legacy_keys Scenario.swept_central Scenario.alice) = [(false, true)]
  /\ fst (create (Scenario.env_ok false) (Scenario.request (Some "gtf") None)
            (Scenario.world_of Scenario.swept_central))
     = Raise (NotAcceptable User_already_has_a_key).
Proof. vm_compute. repeat split. Qed.

(** ** Batches of the location-based model *)

Lemma bind_ok {A B} (m : M A) (f : A -> M B) (w w' : World) (b : B) :
  bind m f w = (Ok b, w') ->
  exists a w1, m w = (Ok a, w1) /\ f a w1 = (Ok b, w').
Proof.
  unfold bind. destruct (m w) as [[a|e] w1]; intros H.
  - now exists a, w1.
  - discriminate H.
Qed.

Lemma kd_ret {A} (a : A) : keeps_db (ret a).
Proof. intros w r w' H. now inversion H. Qed.

Lemma kd_raise {A} (e : Exc) : keeps_db (@raise A e).
Proof. intros w r w' H. now inversion H. Qed.

Lemma kd_bind {A B} (m : M A) (f : A -> M B) :
  keeps_db m -> (forall a, keeps_db (f a)) -> keeps_db (bind m f).
Proof.
  intros Hm Hf w r w' H. unfold bind in H.
  destruct (m w) as [[a|e] w1] eqn:E.
  - rewrite (Hf a w1 r w' H). exact (Hm w _ w1 E).
  - inversion H; subst. exact (Hm w _ w' E).
Qed.

Lemma kd_try_except {A} (m : M A) (handler : Exc -> M A) :
  keeps_db m -> (forall e, keeps_db (handler e)) -> keeps_db (try_except m handler).
Proof.
  intros Hm Hh w r w' H. unfold try_except in H.
  destruct (m w) as [[a|e] w1] eqn:E.
  - inversion H; subst. exact (Hm w _ w' E).
  - rewrite (Hh e w1 r w' H). exact (Hm w _ w1 E).
Qed.

Lemma kd_draw (env : Env) : keeps_db (draw env).
Proof. intros w r w' H. now inversion H. Qed.

Lemma kd_get_db : keeps_db get_db.
Proof. intros w r w' H. now inversion H. Qed.

Lemma kd_randint (env : Env) (a b : Z) : keeps_db (randint env a b).
Proof. apply kd_bind; [apply kd_draw | intros r; apply kd_ret]. Qed.

Lemma kd_choice {A} (env : Env) (l : list A) : keeps_db (choice env l).
Proof.
  unfold choice. destruct l as [|x l]; [apply kd_raise|].
  apply kd_bind; [apply kd_draw | intros r].
  destruct (nth_error _ _); [apply kd_ret | apply kd_raise].
Qed.

Lemma kd_create_key_on_server (env : Env) (server : OutlineServer) :
  keeps_db (create_key_on_server env server).
Proof.
  unfold create_key_on_server.
  destruct (negb (REAL_VPN_SERVERS (settings env))).
  - apply kd_bind; [apply kd_randint | intros id].
    apply kd_bind; [apply kd_randint | intros n; apply kd_ret].
  - apply kd_bind.
    + intros w r w' H. now inversion H.
    + intros [id url| |]; [apply kd_ret | apply kd_raise | apply kd_raise].
Qed.

Lemma kd_apply_prefix (env : Env) (outline_key : string) :
  keeps_db (apply_prefix env outline_key).
Proof.
  unfold apply_prefix. apply kd_bind; [apply kd_get_db | intros d].
  apply kd_try_except.
  - apply kd_bind; [apply kd_choice | intros p; apply kd_ret].
  - intros e. apply kd_ret.
Qed.

Lemma fold_max_ge (l : list OutlineUser) (acc : Z) :
  acc <= fold_left (fun a k => Z.max a (ou_id k)) l acc
  /\ forall k, In k l -> ou_id k <= fold_left (fun a k => Z.max a (ou_id k)) l acc.
Proof.
  revert acc. induction l as [|x l IH]; intros acc; simpl.
  - split; [lia | intros k []].
  - destruct (IH (Z.max acc (ou_id x))) as (H1 & H2). split; [lia|].
    intros k [->|Hin]; [lia | now apply H2].
Qed.

(** The next primary key is above every key in the table. *)
Lemma next_pk_fresh (d : DB) (k : OutlineUser) :
  In k (outline_users d) -> ou_id k < next_pk d.
Proof.
  intros Hin. unfold next_pk.
  pose proof (proj2 (fold_max_ge (outline_users d) 0) k Hin). lia.
Qed.

Lemma legacy_loop_rows
      (env : Env) (user : Vpnuser) (request_type : string) (group_id : option Z)
      (new_rep : Z) (server_list : list OutlineServer)
      (outline_user : option OutlineUser) (prefix_str : option string)
      (w w' : World) (r : option OutlineUser * option string) :
  legacy_loop env user request_type group_id new_rep server_list
    outline_user prefix_str w = (Ok r, w') ->
  exists rows,
    outline_users (db w') = outline_users (db w) ++ rows
    /\ map ou_server rows = map srv_id server_list
    /\ Forall (fun row => ou_group_id row = group_id
                          /\ ou_user row = Some (vu_id user)
                          /\ ou_request_type row = request_type
                          /\ ou_reputation row = new_rep) rows
    /\ Forall (fun row => forall k, In k (outline_users (db w)) ->
                                    ou_id k < ou_id row) rows.
Proof.
  revert outline_user prefix_str w.
  induction server_list as [|server rest IH]; intros outline_user prefix_str w H.
  - inversion H; subst. exists []. rewrite app_nil_r. repeat split; constructor.
  - cbn [legacy_loop] in H.
    apply bind_ok in H. destruct H as (new_key & w1 & Hk & H).
    assert (Hdb1 : db w1 = db w).
    { refine (kd_try_except _ _ (kd_create_key_on_server env server) _ w _ w1 Hk).
      intros e. apply kd_raise. }
    cbv zeta in H.
    apply bind_ok in H. destruct H as (kp & w2 & Hp & H).
    assert (Hdb2 : db w2 = db w1) by exact (kd_apply_prefix env _ w1 _ w2 Hp).
    apply bind_ok in H. destruct H as ([] & w3 & Ha & H).
    inversion Ha; subst w3. clear Ha.
    apply bind_ok in H. destruct H as (row & w4 & Hc & H).
    unfold objects_create in Hc. inversion Hc; subst row w4. clear Hc.
    apply IH in H. destruct H as (rows & Hrows & Hsrv & Hall & Hfresh).
    cbn [db set_db set_created_keys outline_users set_outline_users] in Hrows, Hfresh.
    rewrite Hdb2, Hdb1 in Hrows, Hfresh.
    eexists (_ :: rows). split; [|split; [|split]].
    + rewrite Hrows. rewrite <- app_assoc. reflexivity.
    + cbn [map ou_server]. now rewrite Hsrv.
    + constructor; [repeat split | exact Hall].
    + constructor.
      * cbn [ou_id]. intros k Hin. now apply next_pk_fresh.
      * eapply Forall_impl; [|exact Hfresh]. cbv beta. intros row Hrow k Hin.
        apply Hrow. apply in_or_app. now left.
Qed.

Lemma save_user_outline_users (user : Vpnuser) (w w' : World) (r : Result unit) :
  save_user user w = (r, w') -> outline_users (db w') = outline_users (db w).
Proof.
  unfold save_user. cbv beta iota delta [bind get_db put_db].
  intros H. inversion H; subst. reflexivity.
Qed.

(** The legacy branch of [create_keys] for the location-based model: on
    success the table has grown by one row per server that [get_server]
    chose, in that order, all rows carrying the next group id. *)
Lemma create_keys_locationed
      (env : Env) (user : Vpnuser) (w w' : World)
      (out : OutlineUser) (prefix_str : option string) :
  create_keys env user "legacy" (Some DistributionModelChoice.LOCATIONED) w
    = (Ok (out, prefix_str), w') ->
  exists chosen w1 rows,
    get_server env user
      (level_of_request env (db w) user DistributionModelChoice.LOCATIONED)
      DistributionModelChoice.LOCATIONED None w = (Ok chosen, w1)
    /\ outline_users (db w') = outline_users (db w) ++ rows
    /\ map ou_server rows = map srv_id chosen
    /\ Forall (fun row => ou_group_id row = Some (next_group_id (db w))
                          /\ ou_user row = Some (vu_id user)
                          /\ ou_request_type row = "legacy") rows
    /\ Forall (fun row => forall k, In k (outline_users (db w)) ->
                                    ou_id k < ou_id row) rows.
Proof.
  unfold create_keys. cbn [String.eqb Ascii.eqb Bool.eqb].
  cbv beta iota zeta. intros H.
  apply bind_ok in H. destruct H as (d & w0 & Hd & H).
  inversion Hd; subst d w0. clear Hd.
  replace (DistributionModelChoice.LOCATIONED =? DistributionModelChoice.LOCATIONED)
    with true in H by reflexivity.
  apply bind_ok in H. destruct H as (chosen & w1 & Hg & H).
  destruct (get_server_total env user
              (level_of_request env (db w) user DistributionModelChoice.LOCATIONED)
              DistributionModelChoice.LOCATIONED None w)
    as (l & w1' & Hg' & Hsame).
  unfold level_of_request, reputation_after_request in Hg'.
  rewrite Hg in Hg'. inversion Hg'; subst l w1'. clear Hg'.
  destruct Hsame as (Hdb1 & _).
  destruct chosen as [|s chosen']; [discriminate H|].
  apply bind_ok in H. destruct H as (r & w2 & Hloop & H).
  apply legacy_loop_rows in Hloop.
  destruct Hloop as (rows & Hrows & Hsrv & Hall & Hfresh).
  apply bind_ok in H. destruct H as ([] & w3 & Hsave & H).
  assert (Hou : outline_users (db w3) = outline_users (db w2)).
  { destruct (negb _) in Hsave.
    - exact (save_user_outline_users _ _ _ _ Hsave).
    - inversion Hsave; subst. reflexivity. }
  destruct (fst r) as [o|]; [|discriminate H].
  inversion H; subst o w'. clear H.
  exists (s :: chosen'), w1, rows.
  split; [exact Hg|]. rewrite Hdb1 in Hrows, Hfresh.
  split; [now rewrite Hou|]. split; [exact Hsrv|]. split; [|exact Hfresh].
  eapply Forall_impl; [|exact Hall]. cbv beta. intros row (A & B & C & _).
  repeat split; assumption.
Qed.

Lemma untouched_refl (S : list Z) (w : World) : untouched S w w.
Proof. reflexivity. Qed.

Lemma untouched_trans (S : list Z) (w1 w2 w3 : World) :
  untouched S w1 w2 -> untouched S w2 w3 -> untouched S w1 w3.
Proof. unfold untouched. intros H1 H2. now rewrite H2. Qed.

Lemma untouched_same_db (S : list Z) (w w' : World) :
  outline_users (db w') = outline_users (db w) -> untouched S w w'.
Proof. unfold untouched. intros H. now rewrite H. Qed.

Lemma kf_keeps_db {A} (S : list Z) (m : M A) : keeps_db m -> keeps_fresh S m.
Proof.
  intros Hm w r w' H. apply untouched_same_db. now rewrite (Hm w r w' H).
Qed.

Lemma kf_ret {A} (S : list Z) (a : A) : keeps_fresh S (ret a).
Proof. apply kf_keeps_db, kd_ret. Qed.

Lemma kf_raise {A} (S : list Z) (e : Exc) : keeps_fresh S (@raise A e).
Proof. apply kf_keeps_db, kd_raise. Qed.

Lemma kf_lift {A} (S : list Z) (r : Result A) : keeps_fresh S (lift r).
Proof. intros w r0 w' H. inversion H; subst. apply untouched_refl. Qed.

Lemma kf_bind {A B} (S : list Z) (m : M A) (f : A -> M B) :
  keeps_fresh S m -> (forall a, keeps_fresh S (f a)) -> keeps_fresh S (bind m f).
Proof.
  intros Hm Hf w r w' H. unfold bind in H.
  destruct (m w) as [[a|e] w1] eqn:E.
  - eapply untouched_trans; [exact (Hm w _ w1 E) | exact (Hf a w1 r w' H)].
  - inversion H; subst. exact (Hm w _ w' E).
Qed.

Lemma filter_map_outside (S : list Z) (g : OutlineUser -> OutlineUser)
      (rows : list OutlineUser) :
  (forall k, ou_id (g k) = ou_id k) ->
  (forall k, existsb (Z.eqb (ou_id k)) S = false -> g k = k) ->
  filter (fun k => negb (existsb (Z.eqb (ou_id k)) S)) (map g rows) =
  filter (fun k => negb (existsb (Z.eqb (ou_id k)) S)) rows.
Proof.
  intros Hid Hout. induction rows as [|k rows IH]; [reflexivity|].
  cbn [map filter]. rewrite Hid.
  destruct (existsb (Z.eqb (ou_id k)) S) eqn:E; cbn [negb].
  - exact IH.
  - rewrite (Hout k E), IH. reflexivity.
Qed.

Lemma existsb_In_false (S : list Z) (a b : Z) :
  In b S -> existsb (Z.eqb a) S = false -> (a =? b) = false.
Proof.
  intros Hin Hex. destruct (a =? b) eqn:E; [|reflexivity].
  apply Z.eqb_eq in E. subst b.
  assert (existsb (Z.eqb a) S = true) as Habs
      by (apply existsb_exists; exists a; split; [exact Hin | apply Z.eqb_refl]).
  congruence.
Qed.

Lemma kf_mark_gone (S : list Z) (id : Z) : In id S -> keeps_fresh S (mark_gone id).
Proof.
  intros Hin w r w' H. rewrite mark_gone_run in H. inversion H; subst.
  unfold untouched. cbn [db set_db outline_users set_outline_users].
  unfold mark_all. apply filter_map_outside.
  - intros k. destruct (existsb _ _); reflexivity.
  - intros k Hk. cbn [existsb]. rewrite (existsb_In_false S _ _ Hin Hk). reflexivity.
Qed.

Lemma kf_bind_ok {A B} (S : list Z) (a : A) (f : A -> M B) :
  keeps_fresh S (f a) -> keeps_fresh S (bind (lift (Ok a)) f).
Proof. intros Hf w r w' H. exact (Hf w r w' H). Qed.

Lemma kf_bind_raise {A B} (S : list Z) (e : Exc) (f : A -> M B) :
  keeps_fresh S (bind (lift (Raise e)) f).
Proof. intros w r w' H. inversion H; subst. apply untouched_refl. Qed.

Lemma kf_call {A} (S : list Z) (m : M A) :
  (forall w, db (snd (m w)) = db w) -> keeps_fresh S m.
Proof.
  intros Hm w r w' H. apply untouched_same_db.
  specialize (Hm w). rewrite H in Hm. simpl in Hm. now rewrite Hm.
Qed.

Lemma kf_remove_one_key (S : list Z) (env : Env) (key : KeyDict) (failed : list Z) :
  (forall id, kd_id key = Some id -> In id S) ->
  keeps_fresh S (remove_one_key env key failed).
Proof.
  intros Hkey. unfold remove_one_key.
  destruct (kd_id key) as [id|]; cbn [subscript]; [|apply kf_bind_raise].
  specialize (Hkey id eq_refl). apply kf_bind_ok.
  assert (Hmark : forall (l : list Z), keeps_fresh S (mark_gone id ;;; ret l)).
  { intros l. apply kf_bind; [now apply kf_mark_gone | intros _; apply kf_ret]. }
  destruct (REAL_VPN_SERVERS (settings env)).
  - apply kf_bind; [apply kf_lift | intros sid].
    apply kf_bind; [apply kf_lift | intros kid].
    apply kf_bind; [apply kf_keeps_db, kd_get_db | intros d].
    apply kf_bind; [apply kf_lift | intros server].
    apply kf_bind.
    + destruct (srv_type server =? "gtf")%string; [|apply kf_ret].
      apply kf_bind; [apply kf_call; reflexivity | intros status].
      destruct (status =? 404); [apply Hmark|].
      destruct (status =? 200); [apply Hmark | apply kf_ret].
    + intros failed'. destruct (negb (srv_active server)); [apply Hmark|].
      apply kf_bind; [apply kf_call; reflexivity|].
      intros [| | |]; try apply Hmark; apply kf_ret.
  - apply kf_bind; [now apply kf_mark_gone | intros _].
    apply kf_bind; [apply kf_lift | intros _; apply kf_ret].
Qed.

Lemma kf_remove_key_from_server (S : list Z) (env : Env) (keys : list KeyDict) :
  (forall key id, In key keys -> kd_id key = Some id -> In id S) ->
  keeps_fresh S (remove_key_from_server env keys).
Proof.
  unfold remove_key_from_server. generalize (@nil Z) as failed.
  induction keys as [|key rest IH]; intros failed Hkeys; cbn [remove_keys_loop].
  - apply kf_ret.
  - apply kf_bind.
    + apply kf_remove_one_key. intros id. apply Hkeys. now left.
    + intros f. apply IH. intros k id Hin. apply Hkeys. now right.
Qed.

Lemma deactivate_id (now : Z) (k : OutlineUser) (issue transfer : option Z) :
  ou_id (deactivate now k issue transfer) = ou_id k.
Proof. unfold deactivate. destruct (_ =? _)%string; reflexivity. Qed.

Lemma kf_deactivate_keys (S : list Z) (keys : list OutlineUser)
      (user_issue : option Z) :
  (forall key, In key keys -> In (ou_id key) S) ->
  keeps_fresh S (deactivate_keys keys user_issue).
Proof.
  induction keys as [|key rest IH]; intros Hkeys; cbn [deactivate_keys].
  - apply kf_ret.
  - intros w r w' H.
    unfold bind at 1 in H. unfold get_db at 1 in H. cbv beta iota in H.
    unfold bind at 1 in H. unfold get_world at 1 in H. cbv beta iota in H.
    destruct (filter (fun k => ou_id k =? ou_id key) (outline_users (db w)))
      as [|key' [|key'' l]] eqn:E; cbn [objects_get] in H.
    + inversion H; subst. apply untouched_refl.
    + assert (Hid : ou_id key' = ou_id key).
      { assert (In key' (filter (fun k => ou_id k =? ou_id key)
                                (outline_users (db w))))
          as Hin by (rewrite E; now left).
        apply filter_In in Hin. now apply Z.eqb_eq. }
      unfold bind at 1 in H. unfold lift at 1 in H. cbv beta iota in H.
      unfold bind at 1 in H. unfold put_db at 1 in H. cbv beta iota in H.
      eapply untouched_trans;
        [|exact (IH (fun k Hin => Hkeys k (or_intror Hin)) _ _ _ H)].
      unfold untouched.
      cbn [db set_db outline_users set_outline_users replace_row].
      apply filter_map_outside.
      * intros k. destruct (ou_id k =? _) eqn:Ek; [|reflexivity].
        apply Z.eqb_eq in Ek. now rewrite Ek.
      * intros k Hk. rewrite deactivate_id, Hid.
        rewrite (existsb_In_false S _ _ (Hkeys key (or_introl eq_refl)) Hk).
        reflexivity.
    + inversion H; subst. apply untouched_refl.
Qed.

Lemma kf_remove_keys_from_db (S : list Z) (keys : list OutlineUser)
      (user_issue : option Z) :
  (forall key, In key keys -> In (ou_id key) S) ->
  keeps_fresh S (remove_keys_from_db keys user_issue).
Proof.
  intros Hkeys. unfold remove_keys_from_db.
  apply kf_bind; [apply kf_keeps_db, kd_get_db | intros d].
  now apply kf_deactivate_keys.
Qed.

Lemma kf_update_online_config (S : list Z) (env : Env) (outline_user : OutlineUser)
      (prefix_str : option string) :
  keeps_fresh S (update_online_config env outline_user prefix_str).
Proof.
  intros w r w' H. apply untouched_same_db.
  unfold update_online_config in H. cbv zeta in H.
  unfold bind at 1 in H. unfold get_db at 1 in H. cbv beta iota in H.
  unfold bind at 1 in H. unfold get_world at 1 in H. cbv beta iota in H.
  destruct (filter _ (online_configs (db w))) as [|c [|c' l]].
  - cbv beta iota delta [bind put_db] in H. inversion H; subst. reflexivity.
  - inversion H; subst. reflexivity.
  - inversion H; subst. reflexivity.
Qed.

Lemma max_group_fold (l : list OutlineUser) (acc : option Z) :
  let step := fun (acc : option Z) (k : OutlineUser) =>
                match ou_group_id k, acc with
                | Some g, Some a => Some (Z.max a g)
                | Some g, None => Some g
                | None, _ => acc
                end in
  (forall a, acc = Some a -> exists m, fold_left step l acc = Some m /\ a <= m)
  /\ (forall k g, In k l -> ou_group_id k = Some g ->
        exists m, fold_left step l acc = Some m /\ g <= m)
  /\ (forall m, fold_left step l acc = Some m ->
        acc = Some m \/ exists k, In k l /\ ou_group_id k = Some m).
Proof.
  cbv zeta. revert acc. induction l as [|x l IH]; intros acc.
  - cbn [fold_left]. repeat split.
    + intros a ->. exists a. split; [reflexivity | lia].
    + intros k g [].
    + intros m ->. now left.
  - cbn [fold_left].
    set (acc' := match ou_group_id x, acc with
                 | Some g, Some a => Some (Z.max a g)
                 | Some g, None => Some g
                 | None, _ => acc
                 end).
    destruct (IH acc') as (H1 & H2 & H3). repeat split.
    + intros a ->. subst acc'. destruct (ou_group_id x) as [g|].
      * destruct (H1 _ eq_refl) as (m & Hm & Hle). exists m. split; [exact Hm | lia].
      * exact (H1 _ eq_refl).
    + intros k g [->|Hin] Hg.
      * subst acc'. rewrite Hg in *. destruct acc as [a|].
        -- destruct (H1 _ eq_refl) as (m & Hm & Hle). exists m. split; [exact Hm | lia].
        -- exact (H1 _ eq_refl).
      * exact (H2 k g Hin Hg).
    + intros m Hm. destruct (H3 m Hm) as [Hacc|(k & Hin & Hk)].
      * subst acc'. destruct (ou_group_id x) as [g|] eqn:Eg.
        -- destruct acc as [a|].
           ++ inversion Hacc. destruct (Z.max_spec a g) as [(_ & E)|(_ & E)].
              ** right. exists x. split; [now left | congruence].
              ** left. congruence.
           ++ right. exists x. split; [now left | congruence].
        -- now left.
      * right. exists k. split; [now right | exact Hk].
Qed.

(** The group id of a new batch is one above the largest stored group id
    (1 when none is stored), hence above every stored group id. *)
Lemma next_group_id_spec (d : DB) :
  (forall m, max_group_id d = Some m ->
     next_group_id d = m + 1
     /\ (exists k, In k (outline_users d) /\ ou_group_id k = Some m)
     /\ forall k g, In k (outline_users d) -> ou_group_id k = Some g -> g <= m)
  /\ (max_group_id d = None ->
      next_group_id d = 1
      /\ forall k, In k (outline_users d) -> ou_group_id k = None).
Proof.
  unfold next_group_id, max_group_id.
  destruct (max_group_fold (outline_users d) None) as (_ & H2 & H3).
  cbv zeta in H2, H3. split.
  - intros m Hm. rewrite Hm. split; [|split].
    + destruct (Z.eqb_spec m 0); [subst; reflexivity | reflexivity].
    + destruct (H3 m Hm) as [Habs|Hk]; [discriminate | exact Hk].
    + intros k g Hin Hg. destruct (H2 k g Hin Hg) as (m' & Hm' & Hle).
      rewrite Hm in Hm'. inversion Hm'. lia.
  - intros Hnone. rewrite Hnone. split; [reflexivity|].
    intros k Hin. destruct (ou_group_id k) as [g|] eqn:Eg; [|reflexivity].
    destruct (H2 k g Hin Eg) as (m' & Hm' & _). congruence.
Qed.

Lemma first_non_empty_some (pools : list (list AnnotatedServer))
      (pool : list AnnotatedServer) :
  first_non_empty pools = Some pool -> pool <> [].
Proof.
  unfold first_non_empty. intros H. apply find_some in H.
  destruct H as (_ & H). destruct pool; [discriminate H | discriminate].
Qed.

Lemma documented_loop_full
      (env : Env) (user : Vpnuser) (level dist_model : Z)
      (locs : list (option Location)) (w w' : World) (l : list OutlineServer) :
  (forall loc, In loc locs ->
     first_non_empty (candidate_pools (db w) user level dist_model
                        (option_map loc_id loc)) <> None) ->
  documented_get_server_loop env user level dist_model locs w = (Ok l, w') ->
  List.length l = List.length locs.
Proof.
  revert w l. induction locs as [|loc rest IH]; intros w l Hall H.
  - inversion H. reflexivity.
  - cbn [documented_get_server_loop] in H.
    apply bind_ok in H. destruct H as (o & w1 & Hat & H).
    rewrite documented_get_server_at_run in Hat.
    destruct (first_non_empty _) as [pool|] eqn:Ep;
      [|exfalso; exact (Hall loc (or_introl eq_refl) Ep)].
    destruct (find_server_found env pool w (first_non_empty_some _ _ Ep))
      as (s & w1' & Hs & Hdb).
    rewrite Hs in Hat. inversion Hat; subst o w1'. clear Hat.
    apply bind_ok in H. destruct H as (others & w2 & Hrest & H).
    inversion H; subst l w'. cbn [List.length]. f_equal.
    apply (IH w1 others); [|exact Hrest].
    intros loc' Hin. rewrite Hdb. apply Hall. now right.
Qed.

Lemma filter_fresh_app (old rows : list OutlineUser) :
  Forall (fun row => forall k, In k old -> ou_id k < ou_id row) rows ->
  filter (fun k => negb (existsb (Z.eqb (ou_id k)) (map ou_id old))) (old ++ rows)
  = rows.
Proof.
  intros Hfresh. rewrite filter_app.
  assert (H1 : filter (fun k => negb (existsb (Z.eqb (ou_id k)) (map ou_id old))) old = []).
  { assert (Hsub : forall l, incl l old ->
      filter (fun k => negb (existsb (Z.eqb (ou_id k)) (map ou_id old))) l = []).
    { induction l as [|k l IHl]; intros Hincl; [reflexivity|]. cbn [filter].
      replace (existsb (Z.eqb (ou_id k)) (map ou_id old)) with true.
      - cbn [negb]. apply IHl. intros x Hx. apply Hincl. now right.
      - symmetry. apply existsb_exists. exists (ou_id k). split.
        + apply in_map. apply Hincl. now left.
        + apply Z.eqb_refl. }
    apply Hsub, incl_refl. }
  rewrite H1. cbn [app].
  induction Hfresh as [|row rows Hrow _ IH]; [reflexivity|]. cbn [filter].
  replace (existsb (Z.eqb (ou_id row)) (map ou_id old)) with false.
  - cbn [negb]. now rewrite IH.
  - symmetry. destruct (existsb _ _) eqn:E; [|reflexivity].
    apply existsb_exists in E. destruct E as (i & Hin & Hi).
    apply in_map_iff in Hin. destruct Hin as (k & Hk & Hin).
    apply Z.eqb_eq in Hi. specialize (Hrow k Hin). lia.
Qed.

Lemma kd_random_request_type (env : Env) (types : list string) :
  keeps_db (random_request_type env types).
Proof.
  unfold random_request_type, weighted_request_type.
  destruct (_ && _); [|apply kd_choice].
  apply kd_bind; [apply kd_draw | intros r].
  destruct (_ <? _); apply kd_ret.
Qed.

Lemma atomic_ok {A} (m : M A) (w w' : World) (a : A) :
  atomic m w = (Ok a, w') -> m w = (Ok a, w').
Proof.
  unfold atomic. destruct (m w) as [[a0|e] w1]; intros H; inversion H; reflexivity.
Qed.

(** [create_keys] called with a distribution model succeeds on the legacy
    branch only: the other branch ends in [OutlineUser.objects.create] with
    the keyword [model], which is no field of the row. *)
Lemma create_keys_model_legacy
      (env : Env) (user : Vpnuser) (request_type : string) (m : Z)
      (w w' : World) (r : OutlineUser * option string) :
  create_keys env user request_type (Some m) w = (Ok r, w') ->
  request_type = "legacy".
Proof.
  unfold create_keys.
  destruct (request_type =? "legacy")%string eqn:E;
    [intros _; now apply String.eqb_eq in E|].
  intros H.
  apply bind_ok in H. destruct H as (d & w0 & _ & H).
  apply bind_ok in H. destruct H as (sk & w1 & _ & H).
  apply bind_ok in H. destruct H as (lb & w2 & _ & H).
  apply bind_ok in H. destruct H as (kp & w3 & _ & H).
  apply bind_ok in H. destruct H as (u & w4 & _ & H).
  discriminate H.
Qed.

(** A successful location-based [create], seen from its two ends; the
    request may name its type or leave it to the draw. *)
Lemma create_locationed_rows
      (env : Env) (vd : ValidatedData) (w w' : World)
      (out : OutlineUser) (cks : list KeyDict) :
  vd_model vd = Some DistributionModelChoice.LOCATIONED ->
  create env vd w = (Ok (out, cks), w') ->
  exists user chosen w0 w1,
    users_named env (db w) (vd_user vd) = [user]
    /\ db w0 = db w
    /\ get_server env user
         (level_of_request env (db w) user DistributionModelChoice.LOCATIONED)
         DistributionModelChoice.LOCATIONED None w0 = (Ok chosen, w1)
    /\ map ou_server (fresh_rows (db w) (db w')) = map srv_id chosen
    /\ Forall (fun row => ou_group_id row = Some (next_group_id (db w))
                          /\ ou_user row = Some (vu_id user)
                          /\ ou_request_type row = "legacy")
              (fresh_rows (db w) (db w')).
Proof.
  intros Hmodel H. unfold create in H. rewrite Hmodel in H.
  apply bind_ok in H. destruct H as (d & w00 & Hd & H).
  inversion Hd; subst d w00. clear Hd.
  apply bind_ok in H. destruct H as (user & wu & Hu & H).
  destruct (users_named env (db w) (vd_user vd)) as [|u [|u' us]] eqn:Eu;
    try discriminate Hu.
  inversion Hu; subst u wu. clear Hu.
  destruct (filter _ (outline_keys (db w) user)) as [|k0 ks0]; [|discriminate H].
  destruct (vu_banned user); [discriminate H|].
  destruct (active_types (db w)) as [|t ts]; [discriminate H|].
  apply bind_ok in H. destruct H as (rt & w1 & Hrand & H).
  pose proof (kd_random_request_type env (t :: ts) w _ w1 Hrand) as Hdb1.
  apply bind_ok in H. destruct H as ([] & w2 & Hset & H).
  inversion Hset; subst w2. clear Hset.
  set (request_type := match vd_request_type vd with
                       | Some t0 => t0
                       | None => rt
                       end) in H.
  apply bind_ok in H. destruct H as (r & w3 & Htry & H).
  assert (Hkeys : create_keys env user request_type
                    (Some DistributionModelChoice.LOCATIONED)
                    (set_created_keys [] w1) = (Ok r, w3)).
  { unfold try_except in Htry.
    destruct (atomic _ (set_created_keys [] w1)) as [[a|e] wx] eqn:Ea.
    - inversion Htry; subst a wx. now apply atomic_ok.
    - exfalso. unfold bind at 1 in Htry. unfold get_world at 1 in Htry.
      cbv beta iota in Htry. destruct (created_keys wx).
      + discriminate Htry.
      + unfold bind in Htry.
        destruct (remove_key_from_server env _ wx) as [[f|e'] wy];
          discriminate Htry. }
  destruct r as [outline_user prefix_str].
  pose proof (create_keys_model_legacy _ _ _ _ _ _ _ Hkeys) as Hlegacy.
  rewrite Hlegacy in Hkeys. clear Hlegacy.
  apply create_keys_locationed in Hkeys.
  destruct Hkeys as (chosen & w1' & rows & Hget & Hrows & Hsrv & Hall & Hfresh).
  cbn [db set_created_keys] in Hget, Hrows, Hall, Hfresh.
  rewrite Hdb1 in Hget, Hrows, Hall, Hfresh.
  apply bind_ok in H. destruct H as ([] & w4 & Hcfg & H).
  apply bind_ok in H. destruct H as ([] & w5 & Hrm & H).
  apply bind_ok in H. destruct H as (wf & w6 & Hgw & H).
  inversion Hgw; subst wf w6. inversion H; subst out cks w'. clear Hgw H.
  set (S := map ou_id (outline_users (db w))).
  assert (U34 : untouched S w3 w4).
  { cbn [fst snd] in Hcfg. destruct (REAL_VPN_SERVERS (settings env)).
    - exact (kf_update_online_config S env _ _ w3 _ w4 Hcfg).
    - inversion Hcfg; subst. apply untouched_refl. }
  assert (U45 : untouched S w4 w5).
  { set (last_keys := filter (fun k => (ou_request_type k =? "legacy")%string)
                             (outline_keys (db w) user)) in *.
    assert (Hlast : forall key, In key last_keys -> In (ou_id key) S).
    { intros key Hin. unfold last_keys, outline_keys in Hin.
      apply filter_In in Hin. destruct Hin as (Hin & _).
      apply filter_In in Hin. destruct Hin as (Hin & _).
      unfold S. now apply in_map. }
    destruct last_keys as [|k1 ks1] eqn:El.
    - inversion Hrm; subst. apply untouched_refl.
    - refine (kf_bind S _ _ _ _ w4 _ w5 Hrm).
      + apply kf_remove_key_from_server. intros key id Hin Hid.
        unfold get_key_dict in Hin. apply in_map_iff in Hin.
        destruct Hin as (k & Hk & Hin). subst key. cbn [kd_id] in Hid.
        inversion Hid; subst id. now apply Hlast.
      + intros _. now apply kf_remove_keys_from_db. }
  assert (Hfinal : fresh_rows (db w) (db w5) = rows).
  { unfold fresh_rows. fold S.
    pose proof (untouched_trans S _ _ _ U34 U45) as U. unfold untouched in U.
    rewrite U, Hrows. unfold S. now apply filter_fresh_app. }
  exists user, chosen, (set_created_keys [] w1), w1'.
  rewrite Hfinal.
  split; [reflexivity|]. split; [exact Hdb1|]. split; [exact Hget|].
  split; [exact Hsrv | exact Hall].
Qed.

(** C8. A successful location-based [create], whether the request names its
    type or leaves it to the draw, leaves in the table, as the rows it
    created, exactly one row per server that [get_server] chose for the
    active locations, in that order; they belong to the user and share one
    group id, which is the largest group id stored before plus one (1 when
    none was stored) and so differs from every older group.  When every
    active location has a server to offer, the rows are as many as the
    active locations: three rows for three locations. *)
Theorem create_locationed_batch (env : Env) (vd : ValidatedData) (w : World) :
  vd_model vd = Some DistributionModelChoice.LOCATIONED ->
  is_ok (fst (create env vd w)) = true ->
  exists user chosen w0 w1,
    users_named env (db w) (vd_user vd) = [user]
    /\ db w0 = db w
    /\ get_server env user
         (level_of_request env (db w) user DistributionModelChoice.LOCATIONED)
         DistributionModelChoice.LOCATIONED None w0 = (Ok chosen, w1)
    /\ map ou_server (fresh_rows (db w) (db (snd (create env vd w))))
       = map srv_id chosen
    /\ Forall (fun row => ou_group_id row = Some (next_group_id (db w))
                          /\ ou_user row = Some (vu_id user)
                          /\ ou_request_type row = "legacy")
              (fresh_rows (db w) (db (snd (create env vd w))))
    /\ (forall m, max_group_id (db w) = Some m -> next_group_id (db w) = m + 1)
    /\ (max_group_id (db w) = None -> next_group_id (db w) = 1)
    /\ (forall k g, In k (outline_users (db w)) -> ou_group_id k = Some g ->
                    g < next_group_id (db w))
    /\ (every_location_served env (db w) user ->
        List.length (fresh_rows (db w) (db (snd (create env vd w))))
        = List.length (filter loc_active (locations (db w)))).
Proof.
  intros Hmodel Hok.
  destruct (create env vd w) as [[[out cks]|e] w'] eqn:E; [|discriminate Hok].
  cbn [fst snd]. clear Hok.
  destruct (create_locationed_rows env vd w w' out cks Hmodel E)
    as (user & chosen & w0 & w1 & Hu & Hdb & Hget & Hsrv & Hall).
  exists user, chosen, w0, w1.
  destruct (next_group_id_spec (db w)) as (Hmax & Hnone).
  split; [exact Hu|]. split; [exact Hdb|]. split; [exact Hget|].
  split; [exact Hsrv|]. split; [exact Hall|].
  split; [intros m Hm; exact (proj1 (Hmax m Hm))|].
  split; [intros Hn; exact (proj1 (Hnone Hn))|].
  split.
  - intros k g Hin Hg. destruct (max_group_id (db w)) as [m|] eqn:Em.
    + destruct (Hmax m eq_refl) as (Hnext & _ & Hle).
      specialize (Hle k g Hin Hg). lia.
    + destruct (Hnone eq_refl) as (_ & Hall0). rewrite (Hall0 k Hin) in Hg.
      discriminate Hg.
  - intros Hserved.
    rewrite <- (length_map ou_server), Hsrv, length_map.
    rewrite get_server_documented in Hget. unfold documented_get_server in Hget.
    apply bind_ok in Hget. destruct Hget as (d & w0' & Hd & Hloop).
    inversion Hd; subst d w0'. clear Hd.
    replace (DistributionModelChoice.LOCATIONED =? DistributionModelChoice.LOCATIONED)
      with true in Hloop by reflexivity.
    assert (Hlen : List.length chosen =
                   List.length (map Some (filter loc_active (locations (db w0))))).
    { eapply documented_loop_full; [|exact Hloop].
      intros loc Hin. apply in_map_iff in Hin. destruct Hin as (l & Hl & Hin).
      subst loc. apply filter_In in Hin. destruct Hin as (Hin & Hact).
      rewrite Hdb in *. cbn [option_map]. exact (Hserved l Hin Hact). }
    rewrite Hlen, Hdb. apply length_map.
Qed.

(** The theorem at work on three active locations (and an inactive one)
    with a working server each, the largest group id in store being 4; the
    request names no type. *)
Lemma create_locationed_batch_witness :
  exists user chosen w0 w1,
    users_named (Scenario.env_ok false) Scenario.three_locations "alice" = [user]
    /\ db w0 = Scenario.three_locations
    /\ get_server (Scenario.env_ok false) user
         (level_of_request (Scenario.env_ok false) Scenario.three_locations user
            DistributionModelChoice.LOCATIONED)
         DistributionModelChoice.LOCATIONED None w0 = (Ok chosen, w1)
    /\ map ou_server (fresh_rows Scenario.three_locations
                        (db (snd three_locations_drawn_run)))
       = map srv_id chosen
    /\ Forall (fun row => ou_group_id row
                            = Some (next_group_id Scenario.three_locations)
                          /\ ou_user row = Some (vu_id user)
                          /\ ou_request_type row = "legacy")
              (fresh_rows Scenario.three_locations (db (snd three_locations_drawn_run)))
    /\ (forall m, max_group_id Scenario.three_locations = Some m ->
                  next_group_id Scenario.three_locations = m + 1)
    /\ (max_group_id Scenario.three_locations = None ->
        next_group_id Scenario.three_locations = 1)
    /\ (forall k g, In k (outline_users Scenario.three_locations) ->
                    ou_group_id k = Some g ->
                    g < next_group_id Scenario.three_locations)
    /\ (every_location_served (Scenario.env_ok false) Scenario.three_locations user ->
        List.length (fresh_rows Scenario.three_locations
                       (db (snd three_locations_drawn_run)))
        = List.length (filter loc_active (locations Scenario.three_locations))).
Proof.
  apply (create_locationed_batch (Scenario.env_ok false)
           (Scenario.request None
              (Some DistributionModelChoice.LOCATIONED))
           (Scenario.world_of Scenario.three_locations));
    reflexivity.
Defined.

(** The same run, evaluated: three rows, on the servers of the three active
    locations, all in group 5. *)
Example three_locations_three_rows :
  is_ok (fst three_locations_run) = true
  /\ map (fun row => (ou_server row, ou_group_id row))
         (fresh_rows Scenario.three_locations (db (snd three_locations_run)))
     = [(1, Some 5); (2, Some 5); (5, Some 5)]
  /\ max_group_id Scenario.three_locations = Some 4.
Proof. vm_compute. repeat split. Qed.

(** The request that names no type gives the same three rows. *)
Example three_locations_drawn_three_rows :
  is_ok (fst three_locations_drawn_run) = true
  /\ map (fun row => (ou_server row, ou_group_id row))
         (fresh_rows Scenario.three_locations
            (db (snd three_locations_drawn_run)))
     = [(1, Some 5); (2, Some 5); (5, Some 5)].
Proof. vm_compute. repeat split. Qed.

(** ** The rollback, for every request *)

Lemma ki_same {A} (m : M A) :
  (forall w, created_keys (snd (m w)) = created_keys w) -> keeps_idless m.
Proof.
  intros Hm w r w' H Hw. unfold idless. specialize (Hm w). rewrite H in Hm.
  simpl in Hm. rewrite Hm. exact Hw.
Qed.

Lemma ki_ret {A} (a : A) : keeps_idless (ret a).
Proof. apply ki_same. reflexivity. Qed.

Lemma ki_raise {A} (e : Exc) : keeps_idless (@raise A e).
Proof. apply ki_same. reflexivity. Qed.

Lemma ki_bind {A B} (m : M A) (f : A -> M B) :
  keeps_idless m -> (forall a, keeps_idless (f a)) -> keeps_idless (bind m f).
Proof.
  intros Hm Hf w r w' H Hw. unfold bind in H.
  destruct (m w) as [[a|e] w1] eqn:E.
  - exact (Hf a w1 r w' H (Hm w _ w1 E Hw)).
  - inversion H; subst. exact (Hm w _ w' E Hw).
Qed.

Lemma ki_try_except {A} (m : M A) (handler : Exc -> M A) :
  keeps_idless m -> (forall e, keeps_idless (handler e)) ->
  keeps_idless (try_except m handler).
Proof.
  intros Hm Hh w r w' H Hw. unfold try_except in H.
  destruct (m w) as [[a|e] w1] eqn:E.
  - inversion H; subst. exact (Hm w _ w' E Hw).
  - exact (Hh e w1 r w' H (Hm w _ w1 E Hw)).
Qed.

Lemma ki_append_created_key (server : OutlineServer) (outline_key_id : Z)
      (outline_key : string) :
  keeps_idless (append_created_key server outline_key_id outline_key).
Proof.
  intros w r w' H Hw. inversion H; subst. unfold idless.
  cbn [created_keys set_created_keys]. apply Forall_app. split; [exact Hw|].
  constructor; [reflexivity | constructor].
Qed.

Lemma ki_get_server (env : Env) (user : Vpnuser) (level dist_model : Z)
      (location : option Location) :
  keeps_idless (get_server env user level dist_model location).
Proof.
  intros w r w' H Hw.
  destruct (get_server_total env user level dist_model location w)
    as (l & w1 & Hl & (_ & _ & Hck & _)).
  rewrite H in Hl. inversion Hl; subst. unfold idless. rewrite Hck. exact Hw.
Qed.

Create HintDb ki discriminated.

#[local] Hint Resolve ki_ret ki_raise ki_bind ki_try_except ki_append_created_key
  ki_get_server : ki.
#[local] Hint Extern 1 (keeps_idless (if ?b then _ else _)) => destruct b : ki.
#[local] Hint Extern 1 (keeps_idless (match ?x with _ => _ end)) => destruct x : ki.
#[local] Hint Extern 3 (keeps_idless _) => apply ki_same; reflexivity : ki.

Lemma ki_choice {A} (env : Env) (l : list A) : keeps_idless (choice env l).
Proof. unfold choice. auto 10 with ki. Qed.

#[local] Hint Resolve ki_choice : ki.

Lemma ki_create_key_on_server (env : Env) (server : OutlineServer) :
  keeps_idless (create_key_on_server env server).
Proof. unfold create_key_on_server, randint. auto 10 with ki. Qed.

Lemma ki_apply_prefix (env : Env) (outline_key : string) :
  keeps_idless (apply_prefix env outline_key).
Proof. unfold apply_prefix. auto 10 with ki. Qed.

Lemma ki_create_keys_gtf (env : Env) (server : OutlineServer) :
  keeps_idless (create_keys_gtf env server).
Proof. unfold create_keys_gtf. auto 10 with ki. Qed.

#[local] Hint Resolve ki_create_key_on_server ki_apply_prefix ki_create_keys_gtf : ki.

Lemma ki_legacy_loop
      (env : Env) (user : Vpnuser) (request_type : string) (group_id : option Z)
      (new_rep : Z) (server_list : list OutlineServer)
      (outline_user : option OutlineUser) (prefix_str : option string) :
  keeps_idless (legacy_loop env user request_type group_id new_rep server_list
                  outline_user prefix_str).
Proof.
  revert outline_user prefix_str.
  induction server_list as [|server rest IH]; intros outline_user prefix_str;
    cbn [legacy_loop]; auto 12 with ki.
Qed.

#[local] Hint Resolve ki_legacy_loop : ki.

Lemma ki_create_keys (env : Env) (user : Vpnuser) (request_type : string)
      (model : option Z) :
  keeps_idless (create_keys env user request_type model).
Proof.
  unfold create_keys, save_user. cbv zeta. auto 20 with ki.
Qed.

(** Whenever key creation fails after at least one key was made, for any
    request, user and backend behaviour, [create] ends with KeyError 'id':
    the database is as before the attempt, and the world is otherwise as the
    failed attempt left it, so that no revocation call was made. *)
Lemma create_rollback_never_revokes
      (env : Env) (vd : ValidatedData) (w w1 w2 : World)
      (user : Vpnuser) (t : string) (ts : list string) (random_type : string)
      (exc : Exc) :
  users_named env (db w) (vd_user vd) = [user] ->
  non_legacy_keys (db w) user = [] ->
  vu_banned user = false ->
  active_types (db w) = t :: ts ->
  random_request_type env (t :: ts) w = (Ok random_type, w1) ->
  create_keys env user
    (match vd_request_type vd with Some t0 => t0 | None => random_type end)
    (vd_model vd) (set_created_keys [] w1) = (Raise exc, w2) ->
  created_keys w2 <> [] ->
  create env vd w = (Raise (KeyError "id"), set_db (db w1) w2).
Proof.
  intros Hu Hk Hb Ht Hr Hc Hne.
  assert (Hidless : idless w2).
  { refine (ki_create_keys env user _ _ _ _ _ Hc _). constructor. }
  unfold create. unfold bind at 1. unfold get_db at 1. cbv beta iota.
  rewrite Hu. unfold bind at 1. unfold ret at 1. cbv beta iota.
  fold (non_legacy_keys (db w) user). rewrite Hk, Hb, Ht.
  unfold bind at 1. rewrite Hr.
  unfold bind at 1. cbv beta iota.
  unfold bind at 1. unfold try_except, atomic. rewrite Hc.
  cbn [db set_created_keys].
  unfold bind at 1. unfold get_world at 1. cbv beta iota.
  cbn [created_keys set_db].
  unfold idless in Hidless.
  destruct (created_keys w2) as [|key rest] eqn:Ek; [congruence|].
  inversion Hidless as [|? ? Hid _]; subst.
  unfold bind at 1.
  rewrite (remove_key_from_server_without_id env key rest _ Hid).
  reflexivity.
Qed.

(** ** The conditional statements at work *)

(** C6 on a pool of three servers with counts 3, 0 and 7. *)
Lemma find_server_zero_load_first_witness :
  exists s,
    find_server (Scenario.env_ok true) Scenario.pool_with_idle
      (Scenario.world_of Scenario.two_locations)
    = (Ok (Some s), Scenario.world_of Scenario.two_locations)
    /\ In (s, 0) Scenario.pool_with_idle.
Proof.
  apply (find_server_zero_load_first (Scenario.env_ok true)
           Scenario.pool_with_idle (Scenario.world_of Scenario.two_locations)).
  exists (Scenario.located_server 2 1). simpl. right. left. reflexivity.
Defined.


(** The same revocation, evaluated: no call, nothing failed, the row marked. *)
Example simulated_removal_marks_row :
  remove_key_from_server (Scenario.env_ok false)
    (get_key_dict (outline_users Scenario.gtf_holder))
    (Scenario.world_of Scenario.gtf_holder)
  = (Ok [],
     Scenario.world_of
       (set_outline_users
          [set_exists_on_server false (Scenario.credential 5 3 "gtf" true false None)]
          Scenario.gtf_holder)).
Proof. vm_compute. reflexivity. Qed.

(** * Further properties of the code *)

(** ** Tiers *)

Lemma server_level_le (st : Settings) (r1 r2 : Z) :
  r1 <= r2 ->
  ReputationSystem.server_level st r1 <= ReputationSystem.server_level st r2.
Proof.
  intros Hle.
  unfold ReputationSystem.server_level, ReputationSystem.server_level_of.
  set (T := ReputationSystem.reputation_map st).
  pose proof (scan_rev_seq r1 T (List.length T)) as H1.
  pose proof (scan_rev_seq r2 T (List.length T)) as H2.
  destruct (ReputationSystem.scan r1 T (rev (seq 0 (List.length T)))) as [n1|];
    destruct (ReputationSystem.scan r2 T (rev (seq 0 (List.length T)))) as [n2|].
  - destruct H1 as (Hn1 & Hge1 & _). destruct H2 as (_ & _ & Hmax2).
    specialize (Hmax2 n1 Hn1). lia.
  - destruct H1 as (Hn1 & Hge1 & _). specialize (H2 n1 Hn1). lia.
  - lia.
  - lia.
Qed.

(** X1. A higher reputation never gives a lower tier, whatever the
    threshold list. *)
Theorem server_level_monotone (st : Settings) (r1 r2 : Z) :
  r1 <= r2 ->
  ReputationSystem.server_level st r1 <= ReputationSystem.server_level st r2.
Proof. exact (server_level_le st r1 r2). Qed.

Lemma server_level_monotone_witness :
  ReputationSystem.server_level (settings (Scenario.env_ok false)) 1
  <= ReputationSystem.server_level (settings (Scenario.env_ok false)) 20.
Proof.
  apply (server_level_monotone (settings (Scenario.env_ok false)) 1 20). lia.
Defined.

(** X2. The tier is an index of the threshold list (0 when the list is
    empty), and a new key never lowers it. *)
Theorem server_level_in_range (st : Settings) (reputation : Z) :
  0 <= ReputationSystem.server_level st reputation
  /\ ReputationSystem.server_level st reputation
     <= Z.max 0 (Z.of_nat (List.length (ReputationSystem.reputation_map st)) - 1)
  /\ ReputationSystem.server_level st reputation
     <= ReputationSystem.server_level st
          (ReputationSystem.after_new_key reputation).
Proof.
  split; [|split].
  - unfold ReputationSystem.server_level, ReputationSystem.server_level_of.
    destruct (ReputationSystem.scan _ _ _); lia.
  - unfold ReputationSystem.server_level, ReputationSystem.server_level_of.
    set (T := ReputationSystem.reputation_map st).
    pose proof (scan_rev_seq reputation T (List.length T)) as H.
    destruct (ReputationSystem.scan reputation T (rev (seq 0 (List.length T))))
      as [n|]; [destruct H as (Hn & _); lia | lia].
  - apply server_level_le. unfold ReputationSystem.after_new_key. lia.
Qed.

(** ** Selection *)

Lemma insert_desc_In (x y : AnnotatedServer) (l : list AnnotatedServer) :
  In x (insert_desc y l) <-> x = y \/ In x l.
Proof.
  induction l as [|z l IH]; simpl.
  - intuition.
  - destruct (snd y <? snd z); simpl; rewrite ?IH; intuition.
Qed.

Lemma order_by_In (x : AnnotatedServer) (l : list AnnotatedServer) :
  In x (order_by_usercount_desc l) <-> In x l.
Proof.
  induction l as [|y l IH]; simpl; [reflexivity|].
  rewrite insert_desc_In, IH. intuition.
Qed.

(** What a candidate pool holds: the servers of the table that pass the
    filter, each with its live-user count. *)
Lemma candidate_pool_In
      (d : DB) (user : Vpnuser) (level : Z) (exclude exact : bool)
      (dist_model : Z) (location : option Z) (s : OutlineServer) (uc : Z) :
  In (s, uc) (candidate_pool d user level exclude exact dist_model location) <->
  In s (servers d) /\ uc = usercount d s
  /\ base_filter (fun l => if exact then l =? level else l >=? level)
                 dist_model user s = true
  /\ in_location location s = true
  /\ (negb exclude || negb (previously_used d user s)) = true.
Proof.
  unfold candidate_pool. rewrite order_by_In, in_map_iff. split.
  - intros (s' & Heq & Hin). inversion Heq; subst s' uc.
    apply filter_In in Hin. destruct Hin as (Hin & Hf).
    apply andb_true_iff in Hf. destruct Hf as (Hf & Hx).
    apply andb_true_iff in Hf. destruct Hf as (Hb & Hl). auto.
  - intros (Hin & -> & Hb & Hl & Hx). exists s. split; [reflexivity|].
    apply filter_In. split; [exact Hin|]. now rewrite Hb, Hl, Hx.
Qed.

Lemma walk_member (servers : list AnnotatedServer) (tot prob : Q)
      (last : option OutlineServer) (s : OutlineServer) :
  walk servers tot prob last = Some s ->
  (exists uc, In (s, uc) servers) \/ last = Some s.
Proof.
  revert prob last. induction servers as [|[s0 uc0] rest IH]; intros prob last H.
  - now right.
  - simpl in H.
    destruct (Qle_bool (prob - 1 / inject_Z uc0 * (1 / tot) * 100) 0).
    + inversion H; subst. left. exists uc0. now left.
    + apply IH in H. destruct H as [(uc & Hin)|Hl].
      * left. exists uc. now right.
      * inversion Hl; subst. left. exists uc0. now left.
Qed.

Lemma scan_idle_member (servers : list AnnotatedServer) (acc : Q)
      (s : OutlineServer) :
  scan_idle servers acc = inl s -> In (s, 0) servers.
Proof.
  revert acc. induction servers as [|[s0 uc0] rest IH]; intros acc H.
  - discriminate H.
  - simpl in H. destruct (uc0 =? 0) eqn:E.
    + inversion H; subst. apply Z.eqb_eq in E. subst. now left.
    + right. exact (IH _ H).
Qed.

Lemma find_server_run (env : Env) (servers : list AnnotatedServer) (w : World) :
  exists o w',
    find_server env servers w = (Ok o, w')
    /\ same_store w w'
    /\ (rnd w' = rnd w \/ rnd w' = S (rnd w))
    /\ match o with
       | Some s => exists uc, In (s, uc) servers
       | None => servers = []
       end.
Proof.
  unfold find_server.
  destruct servers as [|[s1 u1] [|[s2 u2] rest]].
  - exists None, w. repeat split; auto.
  - exists (Some s1), w. repeat split; auto. exists u1. now left.
  - replace (Z.of_nat (List.length ((s1, u1) :: (s2, u2) :: rest)) >? 1) with true
      by (symmetry; apply Z.gtb_lt; simpl List.length; lia).
    destruct (scan_idle ((s1, u1) :: (s2, u2) :: rest) 0) as [s|tot] eqn:E.
    + exists (Some s), w. repeat split; auto.
      exists 0. exact (scan_idle_member _ _ _ E).
    + cbv beta iota delta [bind randint draw ret].
      destruct (walk_some ((s1, u1) :: (s2, u2) :: rest) tot
                  (inject_Z (0 + random_draw env (rnd w) mod (100 - 0 + 1))) None)
        as (s & Hs); [discriminate|].
      exists (Some s), (next_rnd w). rewrite Hs.
      split; [reflexivity|]. split; [repeat split|]. split; [now right|].
      destruct (walk_member _ _ _ _ _ Hs) as [Hin|Habs]; [exact Hin | discriminate].
Qed.

(** X3. Whatever the draw, [find_server] returns a server of the pool it
    was given, and returns none only when the pool is empty; it consumes at
    most one draw and touches nothing else. *)
Theorem find_server_picks_from_pool
        (env : Env) (servers : list AnnotatedServer) (w : World) :
  exists o w',
    find_server env servers w = (Ok o, w')
    /\ same_store w w'
    /\ (rnd w' = rnd w \/ rnd w' = S (rnd w))
    /\ match o with
       | Some s => exists uc, In (s, uc) servers
       | None => servers = []
       end.
Proof. exact (find_server_run env servers w). Qed.

Lemma base_filter_true (level_ok : Z -> bool) (dist_model : Z) (user : Vpnuser)
      (s : OutlineServer) :
  base_filter level_ok dist_model user s = true <->
  srv_type s = "legacy" /\ srv_active s = true /\ srv_is_distributing s = true
  /\ level_ok (srv_level s) = true /\ srv_dist_model s = dist_model
  /\ srv_user_src s = vu_channel user.
Proof.
  unfold base_filter. rewrite !andb_true_iff, Z.eqb_eq, !String.eqb_eq. tauto.
Qed.

Lemma candidate_pool_offered
      (d : DB) (user : Vpnuser) (level : Z) (exclude exact : bool)
      (dist_model : Z) (location : option Z) (s : OutlineServer) (uc : Z) :
  In (s, uc) (candidate_pool d user level exclude exact dist_model location) ->
  offered d user level dist_model s
  /\ in_location location s = true
  /\ (exclude = true -> previously_used d user s = false)
  /\ (exact = true -> srv_level s = level).
Proof.
  intros H. apply candidate_pool_In in H.
  destruct H as (Hin & _ & Hb & Hl & Hx).
  apply base_filter_true in Hb. destruct Hb as (A & B & C & D & E & F).
  split; [|split; [exact Hl|split]].
  - repeat split; try assumption.
    destruct exact; [apply Z.eqb_eq in D; lia | apply Z.geb_le in D; lia].
  - intros ->. simpl in Hx. now apply negb_true_iff in Hx.
  - intros ->. now apply Z.eqb_eq in D.
Qed.

Lemma first_non_empty_pools
      (d : DB) (user : Vpnuser) (level dist_model : Z) (location : option Z)
      (pool : list AnnotatedServer) :
  first_non_empty (candidate_pools d user level dist_model location) = Some pool ->
  exists exclude exact,
    pool = candidate_pool d user level exclude exact dist_model location.
Proof.
  unfold first_non_empty. intros H. apply find_some in H. destruct H as (H & _).
  unfold candidate_pools in H. simpl in H.
  destruct H as [H|[H|[H|[H|[]]]]]; subst pool; eauto.
Qed.

Lemma documented_at_member
      (env : Env) (user : Vpnuser) (level dist_model : Z) (loc : option Location)
      (w w' : World) (s : OutlineServer) :
  documented_get_server_at env user level dist_model loc w = (Ok (Some s), w') ->
  exists exclude exact uc,
    In (s, uc) (candidate_pool (db w) user level exclude exact dist_model
                  (option_map loc_id loc)).
Proof.
  rewrite documented_get_server_at_run.
  destruct (first_non_empty _) as [pool|] eqn:Ep; [|discriminate].
  destruct (first_non_empty_pools _ _ _ _ _ _ Ep) as (e & x & ->).
  intros H. destruct (find_server_run env
    (candidate_pool (db w) user level e x dist_model (option_map loc_id loc)) w)
    as (o & w1 & Hrun & _ & _ & Hmem).
  rewrite H in Hrun. inversion Hrun; subst o w1.
  destruct Hmem as (uc & Hin). eauto.
Qed.

Lemma documented_loop_members
      (env : Env) (user : Vpnuser) (level dist_model : Z)
      (locs : list (option Location)) (w w' : World) (l : list OutlineServer) :
  documented_get_server_loop env user level dist_model locs w = (Ok l, w') ->
  Forall (fun s => exists loc exclude exact uc,
                     In loc locs
                     /\ In (s, uc) (candidate_pool (db w) user level exclude exact
                                      dist_model (option_map loc_id loc))) l.
Proof.
  revert w w' l. induction locs as [|loc rest IH]; intros w w' l H.
  - inversion H. constructor.
  - cbn [documented_get_server_loop] in H.
    apply bind_ok in H. destruct H as (o & w1 & Hat & H).
    destruct (documented_get_server_at_total env user level dist_model loc w)
      as (o' & w1' & Hat' & (Hdb & _)).
    rewrite Hat in Hat'. inversion Hat'; subst o' w1'. clear Hat'.
    apply bind_ok in H. destruct H as (others & w2 & Hrest & H).
    apply IH in Hrest. rewrite Hdb in Hrest.
    assert (Hothers : Forall (fun s => exists loc0 exclude exact uc,
                     In loc0 (loc :: rest)
                     /\ In (s, uc) (candidate_pool (db w) user level exclude exact
                                      dist_model (option_map loc_id loc0))) others).
    { eapply Forall_impl; [|exact Hrest]. cbv beta.
      intros s (l0 & e & x & uc & Hin & Hp). exists l0, e, x, uc.
      split; [now right | exact Hp]. }
    destruct o as [s|]; inversion H; subst l w'; [|exact Hothers].
    constructor; [|exact Hothers].
    destruct (documented_at_member _ _ _ _ _ _ _ _ Hat) as (e & x & uc & Hp).
    exists loc, e, x, uc. split; [now left | exact Hp].
Qed.

Lemma get_server_members
      (env : Env) (user : Vpnuser) (level dist_model : Z)
      (location : option Location) (w : World) :
  exists l w',
    get_server env user level dist_model location w = (Ok l, w')
    /\ same_store w w'
    /\ (List.length l <=
        List.length (if (dist_model =? DistributionModelChoice.LOCATIONED)%Z
                     then map Some (filter loc_active (locations (db w)))
                     else [location]))%nat
    /\ Forall (fun s => exists loc exclude exact uc,
                 In loc (if (dist_model =? DistributionModelChoice.LOCATIONED)%Z
                         then map Some (filter loc_active (locations (db w)))
                         else [location])
                 /\ In (s, uc) (candidate_pool (db w) user level exclude exact
                                  dist_model (option_map loc_id loc))) l.
Proof.
  rewrite get_server_documented. unfold documented_get_server, bind, get_db.
  destruct (documented_get_server_loop_total env user level dist_model
              (if dist_model =? DistributionModelChoice.LOCATIONED
               then map Some (filter loc_active (locations (db w)))
               else [location]) w) as (l & w' & Hl & S & Hlen).
  rewrite Hl. exists l, w'. split; [reflexivity|]. split; [exact S|].
  split; [exact Hlen|]. exact (documented_loop_members _ _ _ _ _ _ _ _ Hl).
Qed.

(** X4. [get_server] never raises, and every server it returns may be
    offered to the user: a legacy server of the table, active,
    distributing, of the requested model and the user's channel, at the
    requested tier or above.  Outside the location-based model it returns
    at most one server, in the requested location if one is given; in the
    location-based model at most one per active location, each in an active
    location. *)
Theorem get_server_offers_only_eligible
        (env : Env) (user : Vpnuser) (level dist_model : Z)
        (location : option Location) (w : World) :
  exists l w',
    get_server env user level dist_model location w = (Ok l, w')
    /\ (forall s, In s l -> offered (db w) user level dist_model s)
    /\ (dist_model <> DistributionModelChoice.LOCATIONED ->
        (List.length l <= 1)%nat
        /\ forall s, In s l ->
             in_location (option_map loc_id location) s = true)
    /\ (dist_model = DistributionModelChoice.LOCATIONED ->
        (List.length l <= List.length (filter loc_active (locations (db w))))%nat
        /\ forall s, In s l ->
             exists loc, In loc (locations (db w)) /\ loc_active loc = true
                         /\ in_location (Some (loc_id loc)) s = true).
Proof.
  destruct (get_server_members env user level dist_model location w)
    as (l & w' & Hrun & _ & Hlen & Hall).
  exists l, w'. split; [exact Hrun|]. rewrite Forall_forall in Hall.
  split; [|split].
  - intros s Hin. destruct (Hall s Hin) as (loc & e & x & uc & _ & Hp).
    exact (proj1 (candidate_pool_offered _ _ _ _ _ _ _ _ _ Hp)).
  - intros Hdm. apply Z.eqb_neq in Hdm. rewrite Hdm in Hlen, Hall.
    split; [exact Hlen|]. intros s Hin.
    destruct (Hall s Hin) as (loc & e & x & uc & [<-|[]] & Hp).
    exact (proj1 (proj2 (candidate_pool_offered _ _ _ _ _ _ _ _ _ Hp))).
  - intros ->. cbn [Z.eqb Pos.eqb DistributionModelChoice.LOCATIONED] in Hlen, Hall.
    rewrite length_map in Hlen. split; [exact Hlen|]. intros s Hin.
    destruct (Hall s Hin) as (loc & e & x & uc & Hloc & Hp).
    apply in_map_iff in Hloc. destruct Hloc as (l0 & <- & Hl0).
    apply filter_In in Hl0. destruct Hl0 as (Hl0 & Hact).
    exists l0. split; [exact Hl0|]. split; [exact Hact|].
    exact (proj1 (proj2 (candidate_pool_offered _ _ _ _ _ _ _ _ _ Hp))).
Qed.

Lemma candidate_pool_nonempty
      (d : DB) (user : Vpnuser) (level : Z) (exclude exact : bool)
      (dist_model : Z) (location : option Z) (s : OutlineServer) :
  In s (servers d) ->
  base_filter (fun l => if exact then l =? level else l >=? level)
              dist_model user s = true ->
  in_location location s = true ->
  (negb exclude || negb (previously_used d user s)) = true ->
  candidate_pool d user level exclude exact dist_model location <> [].
Proof.
  intros Hin Hb Hl Hx Hnil.
  assert (In (s, usercount d s)
             (candidate_pool d user level exclude exact dist_model location)) as H
      by (apply candidate_pool_In; auto).
  rewrite Hnil in H. destruct H.
Qed.

Lemma get_server_single_run
      (env : Env) (user : Vpnuser) (level dist_model : Z)
      (location : option Location) (w : World) :
  dist_model <> DistributionModelChoice.LOCATIONED ->
  get_server env user level dist_model location w =
  match first_non_empty (candidate_pools (db w) user level dist_model
                           (option_map loc_id location)) with
  | Some pool =>
      match find_server env pool w with
      | (Ok (Some s), w') => (Ok [s], w')
      | (Ok None, w') => (Ok [], w')
      | (Raise e, w') => (Raise e, w')
      end
  | None => (Ok [], w)
  end.
Proof.
  intros Hdm. apply Z.eqb_neq in Hdm.
  rewrite get_server_documented. unfold documented_get_server.
  unfold bind at 1. unfold get_db at 1. cbv beta iota. rewrite Hdm.
  cbn [documented_get_server_loop]. unfold bind at 1.
  rewrite documented_get_server_at_run.
  destruct (first_non_empty _) as [pool|]; [|reflexivity].
  destruct (find_server env pool w) as [[[s|]|e] w']; reflexivity.
Qed.

(** X5. Outside the location-based model: when some server that may be
    offered to the user (right type, model and channel, active,
    distributing, in the location asked for, at the user's tier or above)
    carries no earlier credential of the user, [get_server] returns one
    server and it is such an unused one; if the unused server is at exactly
    the user's tier, so is the one returned. *)
Theorem get_server_prefers_unused
        (env : Env) (user : Vpnuser) (level dist_model : Z)
        (location : option Location) (w : World) (s0 : OutlineServer) :
  dist_model <> DistributionModelChoice.LOCATIONED ->
  In s0 (servers (db w)) ->
  base_filter (fun l => l >=? level) dist_model user s0 = true ->
  in_location (option_map loc_id location) s0 = true ->
  previously_used (db w) user s0 = false ->
  exists s w',
    get_server env user level dist_model location w = (Ok [s], w')
    /\ offered (db w) user level dist_model s
    /\ previously_used (db w) user s = false
    /\ (srv_level s0 = level -> srv_level s = level).
Proof.
  intros Hdm Hin Hb Hl Hu.
  rewrite (get_server_single_run env user level dist_model location w Hdm).
  unfold candidate_pools. rewrite !first_non_empty_cons.
  assert (H2 : candidate_pool (db w) user level true false dist_model
                 (option_map loc_id location) <> []).
  { eapply candidate_pool_nonempty; [exact Hin | exact Hb | exact Hl |].
    rewrite Hu. reflexivity. }
  destruct (candidate_pool (db w) user level true true dist_model
              (option_map loc_id location)) as [|x1 p1] eqn:E1.
  - destruct (candidate_pool (db w) user level true false dist_model
                (option_map loc_id location)) as [|x2 p2] eqn:E2; [congruence|].
    destruct (find_server_run env (x2 :: p2) w) as (o & w' & Hrun & _ & _ & Hmem).
    rewrite Hrun. destruct o as [s|]; [|discriminate Hmem].
    destruct Hmem as (uc & Hmem). rewrite <- E2 in Hmem.
    apply candidate_pool_offered in Hmem. destruct Hmem as (Ho & _ & Hx & _).
    exists s, w'. split; [reflexivity|]. split; [exact Ho|].
    split; [now apply Hx|].
    intros Hlevel. exfalso.
    apply (candidate_pool_nonempty (db w) user level true true dist_model
             (option_map loc_id location) s0 Hin); auto.
    + apply base_filter_true in Hb. apply base_filter_true.
      destruct Hb as (A & B & C & D & E & F). repeat split; auto.
      now apply Z.eqb_eq.
    + rewrite Hu. reflexivity.
  - destruct (find_server_run env (x1 :: p1) w) as (o & w' & Hrun & _ & _ & Hmem).
    rewrite Hrun. destruct o as [s|]; [|discriminate Hmem].
    destruct Hmem as (uc & Hmem). rewrite <- E1 in Hmem.
    apply candidate_pool_offered in Hmem. destruct Hmem as (Ho & _ & Hx & He).
    exists s, w'. split; [reflexivity|]. split; [exact Ho|].
    split; [now apply Hx|]. intros _. now apply He.
Qed.

(** X5 on the basic fleet: alice has used server 7; server 8 is free. *)
Lemma get_server_prefers_unused_witness :
  exists s w',
    get_server (Scenario.env_ok false) Scenario.alice 0
      DistributionModelChoice.BASIC None
      (Scenario.world_of Scenario.basic_fleet) = (Ok [s], w')
    /\ offered (db (Scenario.world_of Scenario.basic_fleet)) Scenario.alice 0
         DistributionModelChoice.BASIC s
    /\ previously_used (db (Scenario.world_of Scenario.basic_fleet))
         Scenario.alice s = false
    /\ (srv_level (Scenario.basic_server 8 0) = 0 -> srv_level s = 0).
Proof.
  apply (get_server_prefers_unused (Scenario.env_ok false) Scenario.alice 0
           DistributionModelChoice.BASIC None
           (Scenario.world_of Scenario.basic_fleet) (Scenario.basic_server 8 0)).
  - discriminate.
  - simpl. right. left. reflexivity.
  - reflexivity.
  - reflexivity.
  - reflexivity.
Defined.

(** ** Frames of computations *)

Section Preserves.

Variable R : World -> World -> Prop.
Hypothesis R_refl : forall w, R w w.
Hypothesis R_trans : forall w1 w2 w3, R w1 w2 -> R w2 w3 -> R w1 w3.

Lemma pr_ret {A} (a : A) : preserves R (ret a).
Proof. intros w r w' H. inversion H; subst. apply R_refl. Qed.

Lemma pr_raise {A} (e : Exc) : preserves R (@raise A e).
Proof. intros w r w' H. inversion H; subst. apply R_refl. Qed.

Lemma pr_lift {A} (r : Result A) : preserves R (lift r).
Proof. intros w r0 w' H. inversion H; subst. apply R_refl. Qed.

Lemma pr_bind {A B} (m : M A) (f : A -> M B) :
  preserves R m -> (forall a, preserves R (f a)) -> preserves R (bind m f).
Proof.
  intros Hm Hf w r w' H. unfold bind in H.
  destruct (m w) as [[a|e] w1] eqn:E.
  - eapply R_trans; [exact (Hm w _ w1 E) | exact (Hf a w1 r w' H)].
  - inversion H; subst. exact (Hm w _ w' E).
Qed.

Lemma pr_bind_ok {A B} (a : A) (f : A -> M B) :
  preserves R (f a) -> preserves R (bind (lift (Ok a)) f).
Proof. intros Hf w r w' H. exact (Hf w r w' H). Qed.

Lemma pr_bind_raise {A B} (e : Exc) (f : A -> M B) :
  preserves R (bind (lift (Raise e)) f).
Proof. intros w r w' H. inversion H; subst. apply R_refl. Qed.

Lemma pr_try_except {A} (m : M A) (handler : Exc -> M A) :
  preserves R m -> (forall e, preserves R (handler e)) ->
  preserves R (try_except m handler).
Proof.
  intros Hm Hh w r w' H. unfold try_except in H.
  destruct (m w) as [[a|e] w1] eqn:E.
  - inversion H; subst. exact (Hm w _ w' E).
  - eapply R_trans; [exact (Hm w _ w1 E) | exact (Hh e w1 r w' H)].
Qed.

Lemma pr_step {A} (m : M A) :
  (forall w, R w (snd (m w))) -> preserves R m.
Proof.
  intros Hm w r w' H. specialize (Hm w). rewrite H in Hm. exact Hm.
Qed.

End Preserves.

Lemma rt_ret {A} (P : A -> Prop) (a : A) : P a -> returns P (ret a).
Proof. intros Ha w a' w' H. inversion H; subst. exact Ha. Qed.

Lemma rt_raise {A} (P : A -> Prop) (e : Exc) : returns P (@raise A e).
Proof. intros w a w' H. discriminate H. Qed.

Lemma rt_bind {A B} (Q : A -> Prop) (P : B -> Prop) (m : M A) (f : A -> M B) :
  returns Q m -> (forall a, Q a -> returns P (f a)) -> returns P (bind m f).
Proof.
  intros Hm Hf w b w' H. apply bind_ok in H. destruct H as (a & w1 & Ha & Hb).
  exact (Hf a (Hm w a w1 Ha) w1 b w' Hb).
Qed.

Lemma rt_bind_any {A B} (P : B -> Prop) (m : M A) (f : A -> M B) :
  (forall a, returns P (f a)) -> returns P (bind m f).
Proof.
  intros Hf. apply (rt_bind (fun _ => True)); [intros w a w' _; exact I|].
  intros a _. apply Hf.
Qed.

Lemma rt_bind_ok {A B} (P : B -> Prop) (a : A) (f : A -> M B) :
  returns P (f a) -> returns P (bind (lift (Ok a)) f).
Proof. intros Hf w b w' H. exact (Hf w b w' H). Qed.

Lemma rt_bind_raise {A B} (P : B -> Prop) (e : Exc) (f : A -> M B) :
  returns P (bind (lift (Raise e)) f).
Proof. intros w b w' H. discriminate H. Qed.

(** ** What revocation may change *)

Lemma cleared_only_refl (ids : list Z) (rows : list OutlineUser) :
  cleared_only ids rows rows.
Proof. induction rows; constructor; auto. Qed.

Lemma cleared_only_trans (ids : list Z) (r1 r2 r3 : list OutlineUser) :
  cleared_only ids r1 r2 -> cleared_only ids r2 r3 -> cleared_only ids r1 r3.
Proof.
  intros H12. revert r3. induction H12 as [|k k' l l' Hk _ IH]; intros r3 H23.
  - inversion H23. constructor.
  - inversion H23 as [|k2 k'' l2 l'' Hk' Hl']; subst. constructor; [|now apply IH].
    destruct Hk as [->|(-> & Hin)]; destruct Hk' as [->|(-> & Hin')]; auto.
Qed.

Lemma revoked_only_refl (ids : list Z) (w : World) : revoked_only ids w w.
Proof.
  split; [apply cleared_only_refl|]. split; [repeat split|].
  repeat split. exists []. now rewrite app_nil_r.
Qed.

Lemma revoked_only_trans (ids : list Z) (w1 w2 w3 : World) :
  revoked_only ids w1 w2 -> revoked_only ids w2 w3 -> revoked_only ids w1 w3.
Proof.
  intros (A1 & (B1 & B2 & B3 & B4 & B5 & B6 & B7) & C1 & D1 & E1 & (l1 & F1))
         (A2 & (G1 & G2 & G3 & G4 & G5 & G6 & G7) & C2 & D2 & E2 & (l2 & F2)).
  split; [exact (cleared_only_trans _ _ _ _ A1 A2)|].
  split; [repeat split; congruence|].
  split; [congruence|]. split; [congruence|]. split; [congruence|].
  exists (l1 ++ l2). rewrite F2, F1. now rewrite app_assoc.
Qed.

Lemma mark_all_cleared (ids : list Z) (id : Z) (rows : list OutlineUser) :
  In id ids -> cleared_only ids rows (mark_all [id] rows).
Proof.
  intros Hin. unfold mark_all. induction rows as [|k rows IH]; constructor; auto.
  cbn [existsb]. destruct (ou_id k =? id) eqn:E; cbn [orb]; [|now left].
  right. split; [reflexivity|]. apply Z.eqb_eq in E. now rewrite E.
Qed.

Lemma ro_mark_gone (ids : list Z) (id : Z) :
  In id ids -> preserves (revoked_only ids) (mark_gone id).
Proof.
  intros Hin w r w' H. rewrite mark_gone_run in H. inversion H; subst.
  split; [apply mark_all_cleared; exact Hin|].
  split; [repeat split|]. repeat split. exists []. now rewrite app_nil_r.
Qed.

Lemma ro_call {A} (ids : list Z) (m : M A) (c : World -> Call) :
  (forall w, snd (m w) = log_call (c w) w) -> preserves (revoked_only ids) m.
Proof.
  intros Hm w r w' H. specialize (Hm w). rewrite H in Hm. simpl in Hm. subst w'.
  split; [apply cleared_only_refl|]. split; [repeat split|].
  repeat split. exists [c w]. reflexivity.
Qed.

Lemma ro_remove_one_key (ids : list Z) (env : Env) (key : KeyDict)
      (failed : list Z) :
  (forall id, kd_id key = Some id -> In id ids) ->
  preserves (revoked_only ids) (remove_one_key env key failed).
Proof.
  intros Hkey. unfold remove_one_key.
  pose proof (revoked_only_refl ids) as Rr.
  pose proof (revoked_only_trans ids) as Rt.
  destruct (kd_id key) as [id|]; cbn [subscript]; [|now apply pr_bind_raise].
  specialize (Hkey id eq_refl). apply pr_bind_ok.
  assert (Hmark : forall (l : list Z),
             preserves (revoked_only ids) (mark_gone id ;;; ret l)).
  { intros l. apply pr_bind; auto using ro_mark_gone. intros _. now apply pr_ret. }
  destruct (REAL_VPN_SERVERS (settings env)).
  - apply pr_bind; [assumption | now apply pr_lift | intros sid].
    apply pr_bind; [assumption | now apply pr_lift | intros kid].
    apply pr_bind; [assumption | apply pr_step; intros w0; apply Rr | intros d].
    apply pr_bind; [assumption | now apply pr_lift | intros server].
    apply pr_bind; [assumption | |].
    + destruct (srv_type server =? "gtf")%string; [|now apply pr_ret].
      apply pr_bind; [assumption | |intros status].
      * eapply ro_call. intros w0. reflexivity.
      * destruct (status =? 404); [apply Hmark|].
        destruct (status =? 200); [apply Hmark | now apply pr_ret].
    + intros failed'. destruct (negb (srv_active server)); [apply Hmark|].
      apply pr_bind; [assumption | |].
      * eapply ro_call. intros w0. reflexivity.
      * intros [| | |]; try apply Hmark; now apply pr_ret.
  - apply pr_bind; [assumption | now apply ro_mark_gone | intros _].
    apply pr_bind; [assumption | now apply pr_lift | intros _; now apply pr_ret].
Qed.

Lemma ids_of_In (keys : list KeyDict) (key : KeyDict) (id : Z) :
  In key keys -> kd_id key = Some id -> In id (ids_of keys).
Proof.
  intros Hin Hid. unfold ids_of. apply in_flat_map. exists key.
  split; [exact Hin|]. rewrite Hid. now left.
Qed.

Lemma ro_remove_keys_loop (ids : list Z) (env : Env) (keys : list KeyDict)
      (failed : list Z) :
  incl (ids_of keys) ids ->
  preserves (revoked_only ids) (remove_keys_loop env keys failed).
Proof.
  revert failed. induction keys as [|key rest IH]; intros failed Hincl;
    cbn [remove_keys_loop].
  - apply pr_ret, revoked_only_refl.
  - apply pr_bind; [apply revoked_only_trans | |].
    + apply ro_remove_one_key. intros id Hid. apply Hincl.
      eapply ids_of_In; [now left | exact Hid].
    + intros f. apply IH. intros i Hi. apply Hincl.
      unfold ids_of in *. cbn [flat_map]. apply in_or_app. now right.
Qed.

Lemma remove_one_key_returns (env : Env) (key : KeyDict) (failed : list Z) :
  returns (fun f => exists id, kd_id key = Some id /\ incl f (failed ++ [id]))
          (remove_one_key env key failed).
Proof.
  unfold remove_one_key.
  destruct (kd_id key) as [id|]; cbn [subscript]; [|apply rt_bind_raise].
  apply rt_bind_ok.
  assert (H0 : incl failed (failed ++ [id])) by (apply incl_appl, incl_refl).
  assert (H1 : incl (failed ++ [id]) (failed ++ [id])) by apply incl_refl.
  assert (H2 : incl ((failed ++ [id]) ++ [id]) (failed ++ [id])).
  { apply incl_app; [apply incl_refl | apply incl_appr, incl_refl]. }
  set (P := fun f : list Z => exists id0, Some id = Some id0 /\ incl f (failed ++ [id0])).
  assert (P0 : forall f, incl f (failed ++ [id]) -> P f) by (intros f Hf; exists id; auto).
  set (Q := fun f : list Z => f = failed \/ f = failed ++ [id]).
  destruct (REAL_VPN_SERVERS (settings env)).
  - apply rt_bind_any. intros sid. apply rt_bind_any. intros kid.
    apply rt_bind_any. intros d. apply rt_bind_any. intros server.
    apply (rt_bind Q).
    + destruct (srv_type server =? "gtf")%string; [|apply rt_ret; now left].
      apply rt_bind_any. intros status.
      destruct (status =? 404);
        [apply rt_bind_any; intros _; apply rt_ret; now left|].
      destruct (status =? 200);
        [apply rt_bind_any; intros _; apply rt_ret; now left|].
      apply rt_ret. now right.
    + intros f [->| ->].
      * destruct (negb (srv_active server));
          [apply rt_bind_any; intros _; apply rt_ret; auto|].
        apply rt_bind_any. intros [| | |];
          try (apply rt_bind_any; intros _); apply rt_ret; auto.
      * destruct (negb (srv_active server));
          [apply rt_bind_any; intros _; apply rt_ret; auto|].
        apply rt_bind_any. intros [| | |];
          try (apply rt_bind_any; intros _); apply rt_ret; auto.
  - apply rt_bind_any. intros _. apply rt_bind_any. intros _. apply rt_ret. auto.
Qed.

Lemma remove_keys_loop_returns (env : Env) (keys : list KeyDict) (failed : list Z) :
  returns (fun f => incl f (failed ++ ids_of keys))
          (remove_keys_loop env keys failed).
Proof.
  revert failed. induction keys as [|key rest IH]; intros failed;
    cbn [remove_keys_loop].
  - apply rt_ret. cbn [ids_of flat_map]. rewrite app_nil_r. apply incl_refl.
  - eapply rt_bind; [apply remove_one_key_returns|].
    cbv beta. intros f (id & Hid & Hf) w a w' H.
    specialize (IH f w a w' H). unfold ids_of in *. cbn [flat_map]. rewrite Hid.
    intros x Hx. specialize (IH x Hx). apply in_app_or in IH.
    destruct IH as [Hx1|Hx2].
    + specialize (Hf x Hx1). apply in_app_or in Hf. destruct Hf as [?|?].
      * apply in_or_app. now left.
      * apply in_or_app. right. apply in_or_app. now left.
    + apply in_or_app. right. apply in_or_app. now right.
Qed.

(** X6. In either mode, every id that [remove_key_from_server] reports as
    failed is the 'id' of one of the keys it was given. *)
Theorem remove_key_from_server_reports_given_ids
        (env : Env) (keys : list KeyDict) (w : World) :
  forall failed,
    fst (remove_key_from_server env keys w) = Ok failed ->
    incl failed (ids_of keys).
Proof.
  intros failed H.
  destruct (remove_key_from_server env keys w) as [r w'] eqn:E.
  simpl in H. subst r.
  exact (remove_keys_loop_returns env keys [] w failed w' E).
Qed.

(** X6 on alice's GTF credential when the endpoint answers 404 and the
    manager call times out. *)
Lemma remove_key_from_server_reports_given_ids_witness :
  incl [5] (ids_of (get_key_dict (outline_users Scenario.gtf_holder))).
Proof.
  apply (remove_key_from_server_reports_given_ids Scenario.env_gtf_gone
           (get_key_dict (outline_users Scenario.gtf_holder))
           (Scenario.world_of Scenario.gtf_holder) [5]).
  reflexivity.
Defined.

(** X7. Whether it returns or raises, and whatever the backends answer,
    [remove_key_from_server] changes nothing in the database but the
    [exists_on_server] flag, which it may clear on rows named by the keys it
    was given: all other rows and columns, all other tables, the clock and
    the list of created keys stay as they were, and the log of backend calls
    only grows. *)
Theorem remove_key_from_server_only_clears_flag
        (env : Env) (keys : list KeyDict) (w : World) :
  revoked_only (ids_of keys) w (snd (remove_key_from_server env keys w)).
Proof.
  destruct (remove_key_from_server env keys w) as [r w'] eqn:E.
  exact (ro_remove_keys_loop (ids_of keys) env keys [] (incl_refl _) w r w' E).
Qed.

Lemma ens_ret {A} (P : A -> World -> Prop) (a : A) :
  (forall w, P a w) -> ensures P (ret a).
Proof. intros Ha w a' w' H. inversion H; subst. apply Ha. Qed.

Lemma ens_bind_any {A B} (P : B -> World -> Prop) (m : M A) (f : A -> M B) :
  (forall a, ensures P (f a)) -> ensures P (bind m f).
Proof.
  intros Hf w b w' H. apply bind_ok in H. destruct H as (a & w1 & _ & Hb).
  exact (Hf a w1 b w' Hb).
Qed.

Lemma ens_bind_rt {A B} (Q : A -> Prop) (P : B -> World -> Prop)
      (m : M A) (f : A -> M B) :
  returns Q m -> (forall a, Q a -> ensures P (f a)) -> ensures P (bind m f).
Proof.
  intros Hm Hf w b w' H. apply bind_ok in H. destruct H as (a & w1 & Ha & Hb).
  exact (Hf a (Hm w a w1 Ha) w1 b w' Hb).
Qed.

Lemma ens_bind_ok {A B} (P : B -> World -> Prop) (a : A) (f : A -> M B) :
  ensures P (f a) -> ensures P (bind (lift (Ok a)) f).
Proof. intros Hf w b w' H. exact (Hf w b w' H). Qed.

Lemma ens_bind_raise {A B} (P : B -> World -> Prop) (e : Exc) (f : A -> M B) :
  ensures P (bind (lift (Raise e)) f).
Proof. intros w b w' H. discriminate H. Qed.

Lemma gone_mark_all (id : Z) (rows : list OutlineUser) :
  gone id (mark_all [id] rows).
Proof.
  intros k Hin Hid. unfold mark_all in Hin. apply in_map_iff in Hin.
  destruct Hin as (k0 & Hk & _). cbn [existsb] in Hk.
  destruct (ou_id k0 =? id) eqn:E; cbn [orb] in Hk; subst k.
  - reflexivity.
  - apply Z.eqb_neq in E. contradiction.
Qed.

Lemma gone_cleared (ids : list Z) (id : Z) (rows rows' : list OutlineUser) :
  cleared_only ids rows rows' -> gone id rows -> gone id rows'.
Proof.
  intros Hc. induction Hc as [|k k' l l' Hk _ IH]; intros Hg.
  - exact Hg.
  - intros x [<-|Hx] Hid.
    + destruct Hk as [->|(-> & _)]; [|reflexivity].
      apply Hg; [now left | exact Hid].
    + apply IH; [|exact Hx | exact Hid].
      intros y Hy. apply Hg. now right.
Qed.

Lemma ens_mark_gone (id : Z) (P : list Z -> World -> Prop) (l : list Z) :
  (forall w, gone id (outline_users (db w)) -> P l w) ->
  ensures P (mark_gone id ;;; ret l).
Proof.
  intros HP w a w' H. unfold bind in H. rewrite mark_gone_run in H.
  inversion H; subst. apply HP. apply gone_mark_all.
Qed.

Lemma remove_one_key_outcome (env : Env) (key : KeyDict) (failed : list Z) :
  ensures (fun f w' => exists id, kd_id key = Some id
                                  /\ incl failed f
                                  /\ (In id f \/ gone id (outline_users (db w'))))
          (remove_one_key env key failed).
Proof.
  unfold remove_one_key.
  destruct (kd_id key) as [id|]; cbn [subscript]; [|apply ens_bind_raise].
  apply ens_bind_ok.
  assert (H0 : incl failed failed) by apply incl_refl.
  assert (H1 : incl failed (failed ++ [id])) by (apply incl_appl, incl_refl).
  assert (H2 : incl failed ((failed ++ [id]) ++ [id]))
    by (apply incl_appl, incl_appl, incl_refl).
  assert (I1 : In id (failed ++ [id])) by (apply in_or_app; right; now left).
  assert (I2 : In id ((failed ++ [id]) ++ [id])) by (apply in_or_app; right; now left).
  set (Q := fun f : list Z => f = failed \/ f = failed ++ [id]).
  destruct (REAL_VPN_SERVERS (settings env)).
  - apply ens_bind_any. intros sid. apply ens_bind_any. intros kid.
    apply ens_bind_any. intros d. apply ens_bind_any. intros server.
    apply (ens_bind_rt Q).
    + destruct (srv_type server =? "gtf")%string; [|apply rt_ret; now left].
      apply rt_bind_any. intros status.
      destruct (status =? 404);
        [apply rt_bind_any; intros _; apply rt_ret; now left|].
      destruct (status =? 200);
        [apply rt_bind_any; intros _; apply rt_ret; now left|].
      apply rt_ret. now right.
    + intros f [->| ->].
      * destruct (negb (srv_active server));
          [apply ens_mark_gone; intros w0 Hg; exists id; auto|].
        apply ens_bind_any. intros [| | |];
          try (apply ens_mark_gone; intros w0 Hg; exists id; auto);
          apply ens_ret; intros w0; exists id; auto.
      * destruct (negb (srv_active server));
          [apply ens_mark_gone; intros w0 Hg; exists id; auto|].
        apply ens_bind_any. intros [| | |];
          try (apply ens_mark_gone; intros w0 Hg; exists id; auto);
          apply ens_ret; intros w0; exists id; auto.
  - intros w a w' H. unfold bind in H. rewrite mark_gone_run in H.
    destruct (kd_outline_key_id key); cbn in H; inversion H; subst.
    exists id. split; [reflexivity|]. split; [exact H0|]. right.
    apply gone_mark_all.
Qed.

Lemma remove_keys_loop_outcome (env : Env) (keys : list KeyDict) :
  forall (failed : list Z) (w : World) (f : list Z) (w' : World),
    remove_keys_loop env keys failed w = (Ok f, w') ->
    incl failed f
    /\ forall id, In id (ids_of keys) ->
                  In id f \/ gone id (outline_users (db w')).
Proof.
  induction keys as [|key rest IH]; intros failed w f w' H;
    cbn [remove_keys_loop] in H.
  - inversion H; subst. split; [apply incl_refl|]. intros id [].
  - apply bind_ok in H. destruct H as (f1 & w1 & H1 & H2).
    destruct (remove_one_key_outcome env key failed w f1 w1 H1)
      as (id0 & Hid0 & Hincl & Hout).
    destruct (IH f1 w1 f w' H2) as (Hincl' & Hrest).
    split; [intros x Hx; apply Hincl', Hincl, Hx|].
    intros id Hid. unfold ids_of in Hid. cbn [flat_map] in Hid. rewrite Hid0 in Hid.
    destruct Hid as [<-|Hid].
    + destruct Hout as [Hf|Hg]; [left; apply Hincl', Hf|]. right.
      destruct (ro_remove_keys_loop (ids_of rest) env rest f1 (incl_refl _)
                  w1 (Ok f) w' H2) as (Hc & _).
      exact (gone_cleared _ _ _ _ Hc Hg).
    + apply Hrest. exact Hid.
Qed.

(** X8. When [remove_key_from_server] returns, every key it was given is
    accounted for: its id is in the returned list of failures, or all rows
    with that id are marked as gone from their server. *)
Theorem remove_key_from_server_accounts_for_every_key
        (env : Env) (keys : list KeyDict) (w : World) :
  forall failed id,
    fst (remove_key_from_server env keys w) = Ok failed ->
    In id (ids_of keys) ->
    In id failed
    \/ gone id (outline_users (db (snd (remove_key_from_server env keys w)))).
Proof.
  intros failed id H Hid.
  destruct (remove_key_from_server env keys w) as [r w'] eqn:E.
  simpl in H. subst r. simpl.
  destruct (remove_keys_loop_outcome env keys [] w failed w' E) as (_ & Hall).
  apply Hall, Hid.
Qed.

(** X8 on alice's GTF credential in simulated mode. *)
Lemma remove_key_from_server_accounts_for_every_key_witness :
  In 5 []
  \/ gone 5 (outline_users
               (db (snd (remove_key_from_server (Scenario.env_ok false)
                           (get_key_dict (outline_users Scenario.gtf_holder))
                           (Scenario.world_of Scenario.gtf_holder))))).
Proof.
  apply (remove_key_from_server_accounts_for_every_key (Scenario.env_ok false)
           (get_key_dict (outline_users Scenario.gtf_holder))
           (Scenario.world_of Scenario.gtf_holder) [] 5).
  - reflexivity.
  - simpl. left. reflexivity.
Defined.

(** ** Revocation of stored rows *)

Lemma succ_ret {A} (a : A) : succeeds (ret a).
Proof. intros w. now exists a, w. Qed.

Lemma succ_bind {A B} (m : M A) (f : A -> M B) :
  succeeds m -> (forall a, succeeds (f a)) -> succeeds (bind m f).
Proof.
  intros Hm Hf w. destruct (Hm w) as (a & w1 & Ha).
  destruct (Hf a w1) as (b & w2 & Hb). exists b, w2.
  unfold bind. now rewrite Ha.
Qed.

Lemma succ_mark_gone (id : Z) : succeeds (mark_gone id).
Proof. intros w. rewrite mark_gone_run. eauto. Qed.

Lemma bind_lift_ok {A B} (a : A) (f : A -> M B) (w : World) :
  bind (lift (Ok a)) f w = f a w.
Proof. reflexivity. Qed.

Lemma bind_get_db {B} (f : DB -> M B) (w : World) :
  bind get_db f w = f (db w) w.
Proof. reflexivity. Qed.

Lemma remove_one_key_stored (env : Env) (k : OutlineUser) (failed : list Z)
      (w : World) (s : OutlineServer) :
  server_by_id (db w) (ou_server k) = [s] ->
  (srv_type s =? "gtf")%string = false ->
  exists f w', remove_one_key env
                 {| kd_id := Some (ou_id k);
                    kd_server := Some (ou_server k);
                    kd_outline_key_id := Some (ou_outline_key_id k);
                    kd_outline_key := Some (ou_outline_key k);
                    kd_exists_on_server := None |} failed w = (Ok f, w').
Proof.
  intros Hs Hgtf. unfold remove_one_key.
  cbn [kd_id kd_server kd_outline_key_id subscript].
  rewrite bind_lift_ok.
  assert (Hmark : forall l : list Z, succeeds (mark_gone (ou_id k) ;;; ret l)).
  { intros l. apply succ_bind; [apply succ_mark_gone | intros _; apply succ_ret]. }
  destruct (REAL_VPN_SERVERS (settings env)).
  - rewrite !bind_lift_ok, bind_get_db, Hs. cbn [objects_get].
    rewrite bind_lift_ok, Hgtf. revert w Hs.
    match goal with |- forall w, _ -> exists f w', ?m w = _ =>
      intros w _; assert (Hm : succeeds m); [|exact (Hm w)] end.
    apply succ_bind; [apply succ_ret|].
    intros failed'. destruct (negb (srv_active s)); [apply Hmark|].
    apply succ_bind; [intros w0; unfold outline_manager_delete_key; eauto|].
    intros [| | |]; try apply Hmark; apply succ_ret.
  - apply succ_bind; [apply succ_mark_gone|]. intros _.
    intros w0. rewrite bind_lift_ok. apply succ_ret.
Qed.

Lemma on_manager_server_frame (d d' : DB) (k : OutlineUser) :
  servers d' = servers d -> on_manager_server d k -> on_manager_server d' k.
Proof.
  intros Hsrv (s & Hs & Hgtf). exists s. split; [|exact Hgtf].
  unfold server_by_id in *. now rewrite Hsrv.
Qed.

Lemma remove_keys_loop_stored (env : Env) (rows : list OutlineUser) :
  forall (failed : list Z) (w : World),
    Forall (on_manager_server (db w)) rows ->
    exists f w', remove_keys_loop env (get_key_dict rows) failed w = (Ok f, w').
Proof.
  induction rows as [|k rows IH]; intros failed w Hall;
    cbn [get_key_dict map remove_keys_loop].
  - now exists failed, w.
  - inversion Hall as [|? ? (s & Hs & Hgtf) Hrest]; subst.
    destruct (remove_one_key_stored env k failed w s Hs Hgtf) as (f1 & w1 & H1).
    assert (Hsrv : servers (db w1) = servers (db w)).
    { refine (proj1 (proj1 (proj2 (ro_remove_one_key [ou_id k] env _ failed _
                                     w _ w1 H1)))).
      cbn [kd_id]. intros id Hid. inversion Hid. now left. }
    destruct (IH f1 w1) as (f & w' & H2).
    { eapply Forall_impl; [|exact Hrest]. cbv beta. intros k0.
      now apply on_manager_server_frame. }
    exists f, w'. unfold bind. rewrite H1. exact H2.
Qed.

(** X9. On the key dictionaries that [get_key_dict] builds from credential
    rows each of which points to exactly one server row, none of them a GTF
    server, [remove_key_from_server] always returns, in either mode and
    whatever the manager answers or raises: such dictionaries carry every
    entry it reads, the server look-up finds its row, and the manager call
    sits in a [try] that catches every exception. *)
Theorem remove_key_from_server_returns_on_stored_rows
        (env : Env) (rows : list OutlineUser) (w : World) :
  Forall (on_manager_server (db w)) rows ->
  is_ok (fst (remove_key_from_server env (get_key_dict rows) w)) = true.
Proof.
  intros Hall.
  destruct (remove_keys_loop_stored env rows [] w Hall) as (f & w' & H).
  unfold remove_key_from_server. now rewrite H.
Qed.

(** X9 on alice's swept central credential when the manager call times
    out. *)
Lemma remove_key_from_server_returns_on_stored_rows_witness :
  is_ok (fst (remove_key_from_server Scenario.env_gtf_gone
                (get_key_dict (outline_users Scenario.swept_central))
                (Scenario.world_of Scenario.swept_central))) = true.
Proof.
  apply (remove_key_from_server_returns_on_stored_rows Scenario.env_gtf_gone
           (outline_users Scenario.swept_central)
           (Scenario.world_of Scenario.swept_central)).
  simpl. constructor; [|constructor].
  exists Scenario.central_server. split; reflexivity.
Defined.

(** ** Padding *)

Lemma string_length_append (s1 s2 : string) :
  String.length (s1 ++ s2)%string = (String.length s1 + String.length s2)%nat.
Proof. induction s1 as [|c s1 IH]; simpl; [reflexivity | now rewrite IH]. Qed.

Lemma string_append_nil_r (s : string) : (s ++ "")%string = s.
Proof. induction s as [|c s IH]; simpl; [reflexivity | now rewrite IH]. Qed.

Lemma repeat_char_length (c : ascii) (n : nat) :
  String.length (repeat_char c n) = n.
Proof. induction n as [|n IH]; simpl; [reflexivity | now rewrite IH]. Qed.

Lemma base64_padding_run (txt : string) :
  exists n,
    (n <= 3)%nat
    /\ base64_padding txt = (txt ++ repeat_char "=" n)%string
    /\ (String.length (base64_padding txt) mod 4 = 0)%nat
    /\ (n = 0%nat <-> (String.length txt mod 4 = 0)%nat).
Proof.
  unfold base64_padding.
  pose proof (Nat.mod_upper_bound (String.length txt) 4 ltac:(discriminate)) as Hlt.
  pose proof (Nat.div_mod_eq (String.length txt) 4) as Hdm.
  destruct (Nat.eqb (String.length txt mod 4) 0) eqn:E; cbn [negb].
  - apply Nat.eqb_eq in E. exists 0%nat. cbn [repeat_char].
    rewrite string_append_nil_r. repeat split; auto; lia.
  - apply Nat.eqb_neq in E. exists (4 - String.length txt mod 4)%nat.
    split; [lia|]. split; [reflexivity|]. split; [|lia].
    rewrite string_length_append, repeat_char_length.
    replace (String.length txt + (4 - String.length txt mod 4))%nat
      with ((1 + String.length txt / 4) * 4)%nat by lia.
    apply Nat.Div0.mod_mul.
Qed.

(** X10. [base64_padding] returns its argument followed by at most three
    '=' signs, none exactly when the length is already a multiple of four;
    the length of the result is a multiple of four, and padding a padded
    text changes nothing. *)
Theorem base64_padding_multiple_of_four (txt : string) :
  (exists n,
      (n <= 3)%nat
      /\ base64_padding txt = (txt ++ repeat_char "=" n)%string
      /\ (n = 0%nat <-> (String.length txt mod 4 = 0)%nat))
  /\ (String.length (base64_padding txt) mod 4 = 0)%nat
  /\ base64_padding (base64_padding txt) = base64_padding txt.
Proof.
  destruct (base64_padding_run txt) as (n & Hn & Heq & Hmod & Hz).
  split; [exists n; auto|]. split; [exact Hmod|].
  unfold base64_padding at 1. rewrite Hmod. reflexivity.
Qed.

(** ** The port of an access key *)

Lemma split_on_first (sep : ascii) (s : string) :
  exists pieces, split_on sep s = before sep s :: pieces.
Proof.
  induction s as [|c s (pieces & IH)]; cbn [split_on before].
  - now exists [].
  - destruct (Ascii.eqb c sep); [eauto|]. rewrite IH. eauto.
Qed.

Lemma item_split_on_0 (sep : ascii) (s : string) :
  item (split_on sep s) 0 = Ok (before sep s).
Proof. destruct (split_on_first sep s) as (pieces & ->). reflexivity. Qed.

Lemma split_on_app (sep : ascii) (a b : string) :
  contains sep a = false ->
  split_on sep (a ++ String sep b) = a :: split_on sep b.
Proof.
  induction a as [|c a IH]; cbn [contains String.append split_on]; intros H.
  - now rewrite Ascii.eqb_refl.
  - apply orb_false_iff in H. destruct H as (Hc & Ha).
    rewrite Hc, (IH Ha). reflexivity.
Qed.

Lemma split_on_free (sep : ascii) (a : string) :
  contains sep a = false -> split_on sep a = [a].
Proof.
  induction a as [|c a IH]; cbn [contains split_on]; intros H; [reflexivity|].
  apply orb_false_iff in H. destruct H as (Hc & Ha).
  rewrite Hc, (IH Ha). reflexivity.
Qed.

Lemma before_app (sep : ascii) (a b : string) :
  contains sep a = false -> before sep (a ++ b) = (a ++ before sep b)%string.
Proof.
  induction a as [|c a IH]; cbn [contains String.append before]; intros H.
  - reflexivity.
  - apply orb_false_iff in H. destruct H as (Hc & Ha).
    rewrite Hc, (IH Ha). reflexivity.
Qed.

Lemma contains_app (c : ascii) (a b : string) :
  contains c (a ++ b) = contains c a || contains c b.
Proof.
  induction a as [|x a IH]; cbn [contains String.append]; [reflexivity|].
  rewrite IH. apply orb_assoc.
Qed.

Lemma contains_before (c sep : ascii) (s : string) :
  contains c s = false -> contains c (before sep s) = false.
Proof.
  induction s as [|x s IH]; cbn [contains before]; intros H; [reflexivity|].
  apply orb_false_iff in H. destruct H as (Hx & Hs).
  destruct (Ascii.eqb x sep); [reflexivity|].
  cbn [contains]. now rewrite Hx, (IH Hs).
Qed.

Lemma contains_drop (c : ascii) (n : nat) (s : string) :
  contains c s = false -> contains c (drop n s) = false.
Proof.
  revert s. induction n as [|n IH]; intros s H; [destruct s; exact H|].
  destruct s as [|x s]; cbn [drop]; [reflexivity|].
  cbn [contains] in H. apply orb_false_iff in H. now apply IH.
Qed.

Lemma drop_app (a b : string) : drop (String.length a) (a ++ b) = b.
Proof.
  induction a as [|c a IH]; cbn [String.length String.append drop].
  - now destruct b.
  - exact IH.
Qed.

(** X11. On an access key made of a scheme of five characters, user
    information, '@', a host, ':', a port and then nothing, a path or a
    query, where user information, host and port hold none of the
    separators they are split at, [prefix_port] returns the port, whatever
    the path or query is. *)
Theorem prefix_port_is_the_port (scheme userinfo host port tail : string) :
  String.length scheme = 5%nat ->
  contains "/" userinfo = false -> contains "@" userinfo = false ->
  contains "/" host = false -> contains "@" host = false ->
  contains ":" host = false ->
  contains "/" port = false -> contains "@" port = false ->
  contains ":" port = false -> contains "?" port = false ->
  is_tail tail ->
  prefix_port (scheme ++ userinfo ++ "@" ++ host ++ ":" ++ port ++ tail)
  = Ok port.
Proof.
  intros Hlen Hu1 Hu2 Hh1 Hh2 Hh3 Hp1 Hp2 Hp3 Hp4 Ht.
  unfold prefix_port. rewrite <- Hlen, drop_app, item_split_on_0.
  cbn [bind_result].
  (* the first piece *)
  assert (H1 : exists t1,
             before "/" (userinfo ++ "@" ++ host ++ ":" ++ port ++ tail)
             = (userinfo ++ String "@" (host ++ ":" ++ port ++ t1))%string
             /\ (t1 = EmptyString \/ exists q, t1 = String "?" q)).
  { exists (before "/" tail).
    rewrite (before_app "/" userinfo _ Hu1).
    change ("@" ++ host ++ ":" ++ port ++ tail)%string
      with (String "@" (host ++ ":" ++ port ++ tail)).
    cbn [before]. replace (Ascii.eqb "@" "/") with false by reflexivity.
    rewrite (before_app "/" host _ Hh1).
    change (":" ++ port ++ tail)%string with (String ":" (port ++ tail)).
    cbn [before]. replace (Ascii.eqb ":" "/") with false by reflexivity.
    rewrite (before_app "/" port _ Hp1). split; [reflexivity|].
    destruct Ht as [->|[(q & ->)|(q & ->)]]; cbn; eauto. }
  destruct H1 as (t1 & -> & Ht1).
  rewrite (split_on_app "@" userinfo _ Hu2).
  change (item (userinfo :: ?l) 1) with (item l 0).
  rewrite item_split_on_0. cbn [bind_result].
  rewrite (before_app "@" host _ Hh2).
  change (":" ++ port ++ t1)%string with (String ":" (port ++ t1)).
  cbn [before]. replace (Ascii.eqb ":" "@") with false by reflexivity.
  rewrite (before_app "@" port _ Hp2).
  change (host ++ String ":" (port ++ before "@" t1))%string
    with (host ++ String ":" (port ++ before "@" t1))%string.
  rewrite (split_on_app ":" host _ Hh3).
  change (item (host :: ?l) 1) with (item l 0).
  rewrite item_split_on_0. cbn [bind_result].
  rewrite (before_app ":" port _ Hp3).
  destruct Ht1 as [->|(q & ->)].
  - cbn [before]. rewrite string_append_nil_r, Hp4. reflexivity.
  - cbn [before]. replace (Ascii.eqb "?" "@") with false by reflexivity.
    cbn [before]. replace (Ascii.eqb "?" ":") with false by reflexivity.
    rewrite contains_app, Hp4. cbn [contains orb negb].
    replace (Ascii.eqb "?" "?") with true by reflexivity. cbn [orb].
    rewrite item_split_on_0, (before_app "?" port _ Hp4).
    cbn [before]. replace (Ascii.eqb "?" "?") with true by reflexivity.
    now rewrite string_append_nil_r.
Qed.

(** X11 on the access key of the GTF endpoint of the scenarios. *)
Lemma prefix_port_is_the_port_witness :
  prefix_port "ss://Y2hhY2hhOnB3@192.0.2.9:443?outline=1" = Ok "443"%string.
Proof.
  apply (prefix_port_is_the_port "ss://" "Y2hhY2hhOnB3" "192.0.2.9" "443"
           "?outline=1");
    try reflexivity.
  right. right. exists "outline=1"%string. reflexivity.
Defined.

(** A key that holds no '@' makes [prefix_port] raise IndexError, which the
    counting view swallows by skipping the key. *)
Lemma prefix_port_without_at (outline_key : string) :
  contains "@" outline_key = false ->
  prefix_port outline_key = Raise IndexError.
Proof.
  intros H. unfold prefix_port. rewrite item_split_on_0. cbn [bind_result].
  rewrite split_on_free; [reflexivity|].
  apply contains_before, contains_drop, H.
Qed.

(** So on a key without user information. *)
Lemma prefix_port_without_at_witness :
  prefix_port "ss://b" = Raise IndexError.
Proof.
  apply (prefix_port_without_at "ss://b"). reflexivity.
Defined.

(** ** The keys shown to a user *)

Lemma latest_spec (keys : list OutlineUser) (k : OutlineUser) :
  latest keys = Some k ->
  In k keys /\ forall x, In x keys -> ou_updated_date x <= ou_updated_date k.
Proof.
  revert k. induction keys as [|a keys IH]; intros k H; cbn [latest] in H;
    [discriminate H|].
  destruct (latest keys) as [k'|] eqn:E.
  - destruct (IH k' eq_refl) as (Hin & Hmax).
    destruct (ou_updated_date a <? ou_updated_date k') eqn:Hlt;
      inversion H; subst k; clear H.
    + split; [now right|]. apply Z.ltb_lt in Hlt.
      intros x [<-|Hx]; [lia | now apply Hmax].
    + split; [now left|]. apply Z.ltb_ge in Hlt.
      intros x [<-|Hx]; [lia | specialize (Hmax x Hx); lia].
  - inversion H; subst k; clear H. split; [now left|].
    destruct keys as [|b keys]; [intros x [<-|[]]; lia|].
    cbn [latest] in E. destruct (latest keys) as [k'|];
      [destruct (_ <? _)|]; discriminate E.
Qed.

Lemma latest_none (keys : list OutlineUser) : latest keys = None -> keys = [].
Proof.
  destruct keys as [|a keys]; [reflexivity|]. cbn [latest].
  destruct (latest keys) as [k'|]; [destruct (_ <? _)|]; discriminate.
Qed.

Lemma same_group_eq (a b : option Z) : same_group a b = true -> a = b.
Proof.
  destruct a as [x|], b as [y|]; cbn [same_group]; try discriminate.
  intros H. apply Z.eqb_eq in H. now subst.
Qed.

(** X13. What [get_keys] returns, when it returns: only credentials of the
    user that are stored and not removed, all of one group; when the list is
    not empty it holds the user's most recently updated credential that is
    not removed.  It returns the empty list when the user has no credential
    that is not removed. *)
Theorem get_keys_own_live_group (d : DB) (self : Vpnuser)
        (keys : list OutlineUser) :
  get_keys d self = Ok keys ->
  (forall k, In k keys ->
             In k (outline_keys d self) /\ ou_removed k = false)
  /\ (forall k1 k2, In k1 keys -> In k2 keys ->
                    ou_group_id k1 = ou_group_id k2)
  /\ (keys <> [] ->
      exists last_key,
        In last_key keys
        /\ forall k, In k (outline_keys d self) -> ou_removed k = false ->
                     ou_updated_date k <= ou_updated_date last_key)
  /\ ((forall k, In k (outline_keys d self) -> ou_removed k = true) ->
      keys = []).
Proof.
  unfold get_keys. intros H.
  destruct (latest (filter (fun k => negb (ou_removed k)) (outline_keys d self)))
    as [last_key|] eqn:E.
  - destruct (latest_spec _ _ E) as (Hin & Hmax).
    apply filter_In in Hin. destruct Hin as (Hin & Hlive).
    apply negb_true_iff in Hlive.
    assert (Hlast : forall k, In k (outline_keys d self) -> ou_removed k = false ->
                              ou_updated_date k <= ou_updated_date last_key).
    { intros k Hk Hr. apply Hmax. apply filter_In. split; [exact Hk|].
      now rewrite Hr. }
    assert (Hsome : (forall k, In k (outline_keys d self) -> ou_removed k = true) ->
                    keys = []).
    { intros Hall. rewrite (Hall last_key Hin) in Hlive. discriminate Hlive. }
    destruct (key_server d last_key) as [server|]; [|discriminate H].
    cbv zeta in H.
    destruct (srv_dist_model server =? DistributionModelChoice.LOCATIONED).
    + destruct (truthy (ou_group_id last_key)) eqn:Et.
      * inversion H; subst keys; clear H.
        split; [|split; [|split; [|exact Hsome]]].
        -- intros k Hk. apply filter_In in Hk. destruct Hk as (Hk & Hc).
           apply andb_true_iff in Hc. destruct Hc as (Hr & _).
           apply negb_true_iff in Hr. now split.
        -- intros k1 k2 H1 H2. apply filter_In in H1, H2.
           destruct H1 as (_ & H1), H2 as (_ & H2).
           apply andb_true_iff in H1, H2.
           destruct H1 as (_ & H1), H2 as (_ & H2).
           apply same_group_eq in H1, H2. congruence.
        -- intros _. exists last_key. split; [|exact Hlast].
           apply filter_In. split; [exact Hin|]. rewrite Hlive. cbn [negb andb].
           destruct (ou_group_id last_key) as [g|]; [|discriminate Et].
           cbn [same_group]. apply Z.eqb_refl.
      * inversion H; subst keys. split; [intros k []|].
        split; [intros k1 k2 []|]. split; [congruence | exact Hsome].
    + destruct (srv_dist_model server =? DistributionModelChoice.FIXED_IP);
        inversion H; subst keys; clear H.
      * split; [intros k []|]. split; [intros k1 k2 []|].
        split; [congruence | exact Hsome].
      * split; [intros k [<-|[]]; now split|].
        split; [intros k1 k2 [<-|[]] [<-|[]]; reflexivity|].
        split; [|exact Hsome]. intros _. exists last_key.
        split; [now left | exact Hlast].
  - inversion H; subst keys. split; [intros k []|].
    split; [intros k1 k2 []|]. split; [congruence | reflexivity].
Qed.

(** X13 on alice's credential of the basic fleet. *)
Lemma get_keys_own_live_group_witness :
  (forall k, In k [Scenario.credential 1 7 "legacy" true false None] ->
             In k (outline_keys Scenario.basic_fleet Scenario.alice)
             /\ ou_removed k = false)
  /\ (forall k1 k2, In k1 [Scenario.credential 1 7 "legacy" true false None] ->
                    In k2 [Scenario.credential 1 7 "legacy" true false None] ->
                    ou_group_id k1 = ou_group_id k2)
  /\ ([Scenario.credential 1 7 "legacy" true false None] <> [] ->
      exists last_key,
        In last_key [Scenario.credential 1 7 "legacy" true false None]
        /\ forall k, In k (outline_keys Scenario.basic_fleet Scenario.alice) ->
                     ou_removed k = false ->
                     ou_updated_date k <= ou_updated_date last_key)
  /\ ((forall k, In k (outline_keys Scenario.basic_fleet Scenario.alice) ->
                 ou_removed k = true) ->
      [Scenario.credential 1 7 "legacy" true false None] = []).
Proof.
  apply (get_keys_own_live_group Scenario.basic_fleet Scenario.alice
           [Scenario.credential 1 7 "legacy" true false None]).
  reflexivity.
Defined.

(** ** The sweeper *)

Lemma adds_weaken {A} (n n' : nat) (m : M A) :
  (n <= n')%nat -> adds_calls n m -> adds_calls n' m.
Proof. intros Hle Hm w r w' H. specialize (Hm w r w' H). lia. Qed.

Lemma adds_same {A} (m : M A) :
  (forall w, calls (snd (m w)) = calls w) -> adds_calls 0 m.
Proof.
  intros Hm w r w' H. specialize (Hm w). rewrite H in Hm. simpl in Hm.
  rewrite Hm. lia.
Qed.

Lemma adds_ret {A} (a : A) : adds_calls 0 (ret a).
Proof. now apply adds_same. Qed.

Lemma adds_lift {A} (r : Result A) : adds_calls 0 (lift r).
Proof. now apply adds_same. Qed.

Lemma adds_mark_gone (id : Z) : adds_calls 0 (mark_gone id).
Proof. apply adds_same. intros w. now rewrite mark_gone_run. Qed.

Lemma adds_call {A} (m : M A) (c : World -> Call) :
  (forall w, snd (m w) = log_call (c w) w) -> adds_calls 1 m.
Proof.
  intros Hm w r w' H. specialize (Hm w). rewrite H in Hm. simpl in Hm. subst w'.
  cbn [calls log_call]. rewrite length_app. simpl. lia.
Qed.

Lemma adds_bind {A B} (n1 n2 n : nat) (m : M A) (f : A -> M B) :
  (n1 + n2 <= n)%nat ->
  adds_calls n1 m -> (forall a, adds_calls n2 (f a)) -> adds_calls n (bind m f).
Proof.
  intros Hle Hm Hf w r w' H. unfold bind in H.
  destruct (m w) as [[a|e] w1] eqn:E.
  - specialize (Hm w _ w1 E). specialize (Hf a w1 r w' H). lia.
  - inversion H; subst. specialize (Hm w _ w' E). lia.
Qed.

Lemma adds_remove_one_key (env : Env) (key : KeyDict) (failed : list Z) :
  adds_calls 2 (remove_one_key env key failed).
Proof.
  unfold remove_one_key.
  assert (Hmark : forall (id : Z) (l : list Z),
             adds_calls 0 (mark_gone id ;;; ret l)).
  { intros id l. apply (adds_bind 0 0); [lia | apply adds_mark_gone|].
    intros _. apply adds_ret. }
  apply (adds_bind 0 2); [lia | apply adds_lift | intros id].
  destruct (REAL_VPN_SERVERS (settings env)).
  - apply (adds_bind 0 2); [lia | apply adds_lift | intros sid].
    apply (adds_bind 0 2); [lia | apply adds_lift | intros kid].
    apply (adds_bind 0 2); [lia | now apply adds_same | intros d].
    apply (adds_bind 0 2); [lia | apply adds_lift | intros server].
    apply (adds_bind 1 1); [lia | |].
    + destruct (srv_type server =? "gtf")%string;
        [|apply (adds_weaken 0); [lia | apply adds_ret]].
      apply (adds_bind 1 0); [lia | |intros status].
      * eapply adds_call. intros w0. reflexivity.
      * destruct (status =? 404); [apply Hmark|].
        destruct (status =? 200); [apply Hmark | apply adds_ret].
    + intros failed'.
      destruct (negb (srv_active server));
        [apply (adds_weaken 0); [lia | apply Hmark]|].
      apply (adds_bind 1 0); [lia | |].
      * eapply adds_call. intros w0. reflexivity.
      * intros [| | |]; try apply Hmark; apply adds_ret.
  - apply (adds_weaken 0); [lia|].
    apply (adds_bind 0 0); [lia | apply adds_mark_gone | intros _].
    apply (adds_bind 0 0); [lia | apply adds_lift | intros _; apply adds_ret].
Qed.

Lemma cleared_only_incl (ids ids' : list Z) (rows rows' : list OutlineUser) :
  incl ids ids' -> cleared_only ids rows rows' -> cleared_only ids' rows rows'.
Proof.
  intros Hincl H. induction H as [|k k' l l' Hk _ IH]; constructor; auto.
  destruct Hk as [->|(-> & Hin)]; auto.
Qed.

Lemma revoked_only_incl (ids ids' : list Z) (w w' : World) :
  incl ids ids' -> revoked_only ids w w' -> revoked_only ids' w w'.
Proof.
  intros Hincl (Hc & Hrest). split; [|exact Hrest].
  exact (cleared_only_incl _ _ _ _ Hincl Hc).
Qed.

Lemma delete_keys_loop_outcome (env : Env) (keys : list OutlineUser) :
  forall (removed : Z) (w : World) (r : Z) (w' : World),
    delete_keys_loop env keys removed w = (Ok r, w') ->
    removed <= r <= removed + Z.of_nat (List.length keys)
    /\ revoked_only (map ou_id keys) w w'
    /\ (List.length (calls w') <= List.length (calls w) + 2 * List.length keys)%nat
    /\ (r = removed + Z.of_nat (List.length keys) ->
        forall k, In k keys -> gone (ou_id k) (outline_users (db w'))).
Proof.
  induction keys as [|key rest IH]; intros removed w r w' Hrun.
  - cbn [delete_keys_loop] in Hrun. inversion Hrun; subst r w'.
    cbn [List.length map].
    split; [lia|]. split; [apply revoked_only_refl|].
    split; [lia|]. intros _ k [].
  - cbn [delete_keys_loop] in Hrun.
    apply bind_ok in Hrun. destruct Hrun as (failed & w1 & H1 & Hrun).
    change (remove_key_from_server env (get_key_dict [key]) w)
      with (remove_keys_loop env (get_key_dict [key]) [] w) in H1.
    assert (R1 : revoked_only [ou_id key] w w1).
    { exact (ro_remove_keys_loop [ou_id key] env (get_key_dict [key]) []
               (incl_refl _) w _ w1 H1). }
    assert (C1 : (List.length (calls w1) <= List.length (calls w) + 2)%nat).
    { cbn [get_key_dict map remove_keys_loop] in H1.
      refine (adds_bind 2 0 2 _ _ (Nat.le_refl _) (adds_remove_one_key env _ [])
                (fun f => adds_ret f) w _ w1 H1). }
    assert (G1 : failed = [] -> gone (ou_id key) (outline_users (db w1))).
    { intros ->.
      destruct (remove_keys_loop_outcome env (get_key_dict [key]) [] w [] w1 H1)
        as (_ & Hout).
      destruct (Hout (ou_id key)) as [[]|Hg]; [now left | exact Hg]. }
    cbn [List.length map].
    assert (R1' : revoked_only (ou_id key :: map ou_id rest) w w1).
    { refine (revoked_only_incl _ _ _ _ _ R1). intros x [<-|[]]. now left. }
    destruct failed as [|id0 failed'].
    + destruct (IH (removed + 1) w1 r w' Hrun) as (Hb & Hr & Hc & Hg).
      split; [lia|].
      split.
      { refine (revoked_only_trans _ _ _ _ R1' (revoked_only_incl _ _ _ _ _ Hr)).
        intros x Hx. now right. }
      split; [lia|].
      intros Heq k [<-|Hk].
      * destruct Hr as (Hcl & _). exact (gone_cleared _ _ _ _ Hcl (G1 eq_refl)).
      * apply Hg; [lia | exact Hk].
    + destruct (IH removed w1 r w' Hrun) as (Hb & Hr & Hc & Hg).
      split; [lia|].
      split.
      { refine (revoked_only_trans _ _ _ _ R1' (revoked_only_incl _ _ _ _ _ Hr)).
        intros x Hx. now right. }
      split; [lia|]. intros Heq. lia.
Qed.

Lemma delete_keys_loop_returns (env : Env) (keys : list OutlineUser) :
  forall (removed : Z) (w : World),
    Forall (on_manager_server (db w)) keys ->
    exists r w', delete_keys_loop env keys removed w = (Ok r, w').
Proof.
  induction keys as [|key rest IH]; intros removed w Hall.
  - now exists removed, w.
  - inversion Hall as [|? ? Hkey Hrest]; subst.
    destruct (remove_keys_loop_stored env [key] [] w) as (failed & w1 & H1);
      [constructor; [exact Hkey | constructor]|].
    assert (Hsrv : servers (db w1) = servers (db w)).
    { exact (proj1 (proj1 (proj2
               (ro_remove_keys_loop [ou_id key] env (get_key_dict [key]) []
                  (incl_refl _) w _ w1 H1)))). }
    assert (Hrest1 : Forall (on_manager_server (db w1)) rest).
    { eapply Forall_impl; [|exact Hrest]. cbv beta. intros k0.
      now apply on_manager_server_frame. }
    cbn [delete_keys_loop]. unfold bind.
    change (remove_key_from_server env (get_key_dict [key]) w)
      with (remove_keys_loop env (get_key_dict [key]) [] w).
    rewrite H1. destruct failed; apply IH; exact Hrest1.
Qed.

(** X14. The sweep takes the keys due, capped by the --count option.  When
    none of them is on a GTF server and each one's server row is stored, it
    returns, whatever the manager answers or raises.  Whenever it returns,
    on GTF servers too, it returns the pair (removed, total) where total is
    the number of keys due and 0 <= removed <= total; it has made at most
    two backend calls per key and changed nothing in the database but
    [exists_on_server], cleared on rows of the keys it worked on only; and
    when removed = total, every key it worked on is marked as gone. *)
Theorem delete_keys_from_servers_bounded
        (env : Env) (count : option nat) (w : World) :
  (Forall (on_manager_server (db w)) (due_keys (db w) count) ->
   is_ok (fst (delete_keys_from_servers env count w)) = true)
  /\ (forall n, count = Some n ->
                (List.length (due_keys (db w) count) <= n)%nat)
  /\ (forall removed total w',
        delete_keys_from_servers env count w = (Ok (removed, total), w') ->
        total = Z.of_nat (List.length (due_keys (db w) count))
        /\ 0 <= removed <= total
        /\ revoked_only (map ou_id (due_keys (db w) count)) w w'
        /\ (List.length (calls w')
            <= List.length (calls w) + 2 * List.length (due_keys (db w) count))%nat
        /\ (removed = total ->
            forall k, In k (due_keys (db w) count) ->
                      gone (ou_id k) (outline_users (db w')))).
Proof.
  split; [|split].
  - intros Hall. unfold delete_keys_from_servers. rewrite bind_get_db. cbv zeta.
    fold (due_keys (db w) count).
    destruct (Z.of_nat (List.length (due_keys (db w) count)) >? 0);
      [|reflexivity].
    destruct (delete_keys_loop_returns env _ 0 w Hall) as (r & w' & Hrun).
    unfold bind. now rewrite Hrun.
  - intros n ->. unfold due_keys. apply firstn_le_length.
  - intros removed total w'.
    unfold delete_keys_from_servers. rewrite bind_get_db. cbv zeta.
    fold (due_keys (db w) count).
    destruct (Z.of_nat (List.length (due_keys (db w) count)) >? 0) eqn:E;
      intros Hrun.
    + apply bind_ok in Hrun. destruct Hrun as (r & w1 & Hloop & Hret).
      inversion Hret; subst removed total w1. clear Hret.
      destruct (delete_keys_loop_outcome env _ 0 w r w' Hloop)
        as (Hb & Hr & Hc & Hg).
      split; [reflexivity|]. split; [lia|]. split; [exact Hr|].
      split; [exact Hc|]. intros Heq. apply Hg. lia.
    + inversion Hrun; subst removed total w'. clear Hrun.
      rewrite Z.gtb_ltb in E. apply Z.ltb_ge in E.
      assert (Hnil : due_keys (db w) count = []).
      { destruct (due_keys (db w) count); [reflexivity | simpl in E; lia]. }
      rewrite Hnil in *. cbn [List.length map].
      split; [reflexivity|]. split; [simpl; lia|].
      split; [apply revoked_only_refl|]. split; [lia|]. intros _ k [].
Qed.

(** X14 on the swept central credential, which is removed and still on
    its server: the sweep returns (1, 1) after one manager call, and the
    credential is marked as gone. *)
Lemma delete_keys_from_servers_bounded_witness :
  is_ok (fst sweep_run) = true
  /\ fst sweep_run = Ok (1, 1)
  /\ revoked_only [5] (Scenario.world_of Scenario.swept_central) (snd sweep_run)
  /\ (List.length (calls (snd sweep_run)) <= 2)%nat
  /\ gone 5 (outline_users (db (snd sweep_run))).
Proof.
  destruct (delete_keys_from_servers_bounded (Scenario.env_ok true) None
              (Scenario.world_of Scenario.swept_central)) as (Hret & _ & Hout).
  split.
  - apply Hret. simpl. constructor; [|constructor].
    exists Scenario.central_server. split; reflexivity.
  - destruct (Hout 1 1 (snd sweep_run) eq_refl) as (_ & _ & Hr & Hc & Hg).
    split; [reflexivity|]. split; [exact Hr|]. split; [exact Hc|].
    apply (Hg eq_refl (Scenario.credential 5 4 "central" false true None)).
    simpl. left. reflexivity.
Defined.

Lemma delete_keys_loop_simulated (env : Env) (keys : list OutlineUser) :
  REAL_VPN_SERVERS (settings env) = false ->
  forall (removed : Z) (w : World),
    delete_keys_loop env keys removed w
    = (Ok (removed + Z.of_nat (List.length keys)),
       set_db (set_outline_users
                 (mark_all (map ou_id keys) (outline_users (db w))) (db w)) w).
Proof.
  intros Hsim. induction keys as [|key rest IH]; intros removed w.
  - cbn [delete_keys_loop List.length map]. unfold ret.
    rewrite mark_all_nil, set_outline_users_same, set_db_same.
    f_equal. f_equal. simpl. lia.
  - cbn [delete_keys_loop]. unfold bind.
    destruct (remove_keys_loop_simulated env (get_key_dict [key]) [] w Hsim)
      as (r & w1 & Hrun & _ & _ & Hgood).
    destruct (Hgood eq_refl) as (-> & ->).
    change (remove_key_from_server env (get_key_dict [key]) w)
      with (remove_keys_loop env (get_key_dict [key]) [] w).
    rewrite Hrun, IH. cbn [ids_of get_key_dict map flat_map kd_id app List.length].
    f_equal; [f_equal; lia|].
    destruct w as [d c r0 n ck]; destruct d.
    unfold set_db, set_outline_users; cbn -[mark_all].
    now rewrite mark_all_app.
Qed.

Lemma mark_all_not_due (ids : list Z) (rows : list OutlineUser) :
  (forall k, In k rows -> ou_exists_on_server k && ou_removed k = true ->
             In (ou_id k) ids) ->
  filter (fun k => ou_exists_on_server k && ou_removed k) (mark_all ids rows) = [].
Proof.
  unfold mark_all. induction rows as [|k rows IH]; intros H; [reflexivity|].
  cbn [map filter].
  destruct (existsb (Z.eqb (ou_id k)) ids) eqn:E.
  - cbn [set_exists_on_server ou_exists_on_server andb].
    apply IH. intros x Hx. apply H. now right.
  - destruct (ou_exists_on_server k && ou_removed k) eqn:Ed.
    + specialize (H k (or_introl eq_refl) Ed).
      assert (Ht : existsb (Z.eqb (ou_id k)) ids = true).
      { apply existsb_exists. exists (ou_id k). split; [exact H|].
        apply Z.eqb_refl. }
      congruence.
    + apply IH. intros x Hx. apply H. now right.
Qed.

(** X15. With REAL_VPN_SERVERS off, the sweep makes no backend call,
    counts every key it worked on as removed, and leaves the world as it
    was but for [exists_on_server], cleared on the rows of those keys.
    Without a limit, no key is due once it is over. *)
Theorem delete_keys_from_servers_simulated
        (env : Env) (count : option nat) (w : World) :
  REAL_VPN_SERVERS (settings env) = false ->
  delete_keys_from_servers env count w
  = (Ok (Z.of_nat (List.length (due_keys (db w) count)),
         Z.of_nat (List.length (due_keys (db w) count))),
     set_db (set_outline_users
               (mark_all (map ou_id (due_keys (db w) count))
                  (outline_users (db w))) (db w)) w)
  /\ (count = None ->
      due_keys (db (snd (delete_keys_from_servers env count w))) None = []).
Proof.
  intros Hsim.
  assert (Hrun : delete_keys_from_servers env count w
                 = (Ok (Z.of_nat (List.length (due_keys (db w) count)),
                        Z.of_nat (List.length (due_keys (db w) count))),
                    set_db (set_outline_users
                              (mark_all (map ou_id (due_keys (db w) count))
                                 (outline_users (db w))) (db w)) w)).
  { unfold delete_keys_from_servers. rewrite bind_get_db. cbv zeta.
    fold (due_keys (db w) count).
    destruct (Z.of_nat (List.length (due_keys (db w) count)) >? 0) eqn:E.
    - unfold bind. rewrite (delete_keys_loop_simulated env _ Hsim 0 w).
      reflexivity.
    - rewrite Z.gtb_ltb in E. apply Z.ltb_ge in E.
      assert (Hnil : due_keys (db w) count = []).
      { destruct (due_keys (db w) count); [reflexivity | simpl in E; lia]. }
      rewrite Hnil. cbn [List.length map Z.of_nat]. unfold ret.
      now rewrite mark_all_nil, set_outline_users_same, set_db_same. }
  split; [exact Hrun|].
  intros ->. rewrite Hrun. cbn [snd db set_db]. unfold due_keys.
  cbn [outline_users set_outline_users].
  replace (outline_users
             (set_outline_users
                (mark_all
                   (map ou_id
                      (filter (fun k => ou_exists_on_server k && ou_removed k)
                         (outline_users (db w)))) (outline_users (db w))) (db w)))
    with (mark_all
            (map ou_id
               (filter (fun k => ou_exists_on_server k && ou_removed k)
                  (outline_users (db w)))) (outline_users (db w)))
    by (destruct (db w); reflexivity).
  apply mark_all_not_due. intros k Hk Hd.
  apply in_map. apply filter_In. now split.
Qed.

(** X15 on the swept central credential. *)
Lemma delete_keys_from_servers_simulated_witness :
  delete_keys_from_servers (Scenario.env_ok false) None
    (Scenario.world_of Scenario.swept_central)
  = (Ok (Z.of_nat (List.length
                     (due_keys (db (Scenario.world_of Scenario.swept_central))
                        None)),
         Z.of_nat (List.length
                     (due_keys (db (Scenario.world_of Scenario.swept_central))
                        None))),
     set_db (set_outline_users
               (mark_all
                  (map ou_id
                     (due_keys (db (Scenario.world_of Scenario.swept_central))
                        None))
                  (outline_users (db (Scenario.world_of Scenario.swept_central))))
               (db (Scenario.world_of Scenario.swept_central)))
       (Scenario.world_of Scenario.swept_central))
  /\ (@None nat = None ->
      due_keys (db (snd (delete_keys_from_servers (Scenario.env_ok false) None
                           (Scenario.world_of Scenario.swept_central)))) None
      = []).
Proof.
  apply (delete_keys_from_servers_simulated (Scenario.env_ok false) None
           (Scenario.world_of Scenario.swept_central)).
  reflexivity.
Defined.

(** ** What a successful create stores *)

Lemma legacy_loop_created
      (env : Env) (user : Vpnuser) (request_type : string) (group_id : option Z)
      (new_rep : Z) (server_list : list OutlineServer)
      (outline_user : option OutlineUser) (prefix_str : option string)
      (w w' : World) (r : option OutlineUser * option string) :
  legacy_loop env user request_type group_id new_rep server_list
    outline_user prefix_str w = (Ok r, w') ->
  exists rows,
    outline_users (db w') = outline_users (db w) ++ rows
    /\ Forall (created_for user request_type) rows
    /\ Forall (fun row => ou_reputation row = new_rep
                          /\ ou_group_id row = group_id
                          /\ exists s, In s server_list
                                       /\ ou_server row = srv_id s) rows
    /\ Forall (fun row => forall k, In k (outline_users (db w)) ->
                                    ou_id k < ou_id row) rows
    /\ (forall out, fst r = Some out -> In out rows \/ outline_user = Some out)
    /\ (server_list <> [] -> rows <> [])
    /\ vpnusers (db w') = vpnusers (db w).
Proof.
  revert outline_user prefix_str w.
  induction server_list as [|server rest IH]; intros outline_user prefix_str w H.
  - inversion H; subst. exists []. rewrite app_nil_r.
    split; [reflexivity|]. split; [constructor|]. split; [constructor|].
    split; [constructor|]. split; [intros out Hout; now right|].
    split; [intros Hne; now contradiction Hne | reflexivity].
  - cbn [legacy_loop] in H.
    apply bind_ok in H. destruct H as (new_key & w1 & Hk & H).
    assert (Hdb1 : db w1 = db w).
    { refine (kd_try_except _ _ (kd_create_key_on_server env server) _ w _ w1 Hk).
      intros e. apply kd_raise. }
    cbv zeta in H.
    apply bind_ok in H. destruct H as (kp & w2 & Hp & H).
    assert (Hdb2 : db w2 = db w1) by exact (kd_apply_prefix env _ w1 _ w2 Hp).
    apply bind_ok in H. destruct H as ([] & w3 & Ha & H).
    inversion Ha; subst w3. clear Ha.
    apply bind_ok in H. destruct H as (row & w4 & Hc & H).
    unfold objects_create in Hc. inversion Hc; subst row w4. clear Hc.
    apply IH in H.
    destruct H as (rows & Hrows & Hall & Hrep & Hfresh & Hout & _ & Hvu).
    cbn [db set_db set_created_keys outline_users set_outline_users] in Hrows, Hfresh.
    rewrite Hdb2, Hdb1 in Hrows, Hfresh.
    eexists (_ :: rows). split; [|split; [|split; [|split; [|split; [|split]]]]].
    + rewrite Hrows. rewrite <- app_assoc. reflexivity.
    + constructor; [repeat split | exact Hall].
    + constructor.
      * split; [reflexivity|]. split; [reflexivity|].
        exists server. split; [now left | reflexivity].
      * eapply Forall_impl; [|exact Hrep]. cbv beta.
        intros row (A & B & (s & Hs & Hsrv)). split; [exact A|].
        split; [exact B|]. exists s. split; [now right | exact Hsrv].
    + constructor.
      * cbn [ou_id]. intros k Hin. now apply next_pk_fresh.
      * eapply Forall_impl; [|exact Hfresh]. cbv beta. intros row Hrow k Hin.
        apply Hrow. apply in_or_app. now left.
    + intros out Ho. destruct (Hout out Ho) as [Hin|Heq].
      * left. now right.
      * left. left. inversion Heq. now rewrite Hdb2, Hdb1.
    + discriminate.
    + rewrite Hvu. cbn [db set_db set_created_keys vpnusers set_outline_users].
      now rewrite Hdb2, Hdb1.
Qed.

Lemma kd_create_keys_gtf (env : Env) (server : OutlineServer) :
  keeps_db (create_keys_gtf env server).
Proof.
  unfold create_keys_gtf. cbv zeta.
  apply kd_bind; [intros w r w' H; now inversion H | intros response].
  destruct (fst response =? 200); [|apply kd_raise].
  apply kd_bind; [intros w r w' H; now inversion H | intros u; apply kd_ret].
Qed.

Lemma get_server_offered
      (env : Env) (user : Vpnuser) (level dist_model : Z)
      (location : option Location) (w w' : World) (l : list OutlineServer) :
  get_server env user level dist_model location w = (Ok l, w') ->
  db w' = db w /\ Forall (offered (db w) user level dist_model) l.
Proof.
  intros H.
  destruct (get_server_members env user level dist_model location w)
    as (l0 & w0 & Hrun & Hsame & _ & Hall).
  rewrite H in Hrun. inversion Hrun; subst l0 w0.
  split; [exact (proj1 Hsame)|].
  eapply Forall_impl; [|exact Hall]. cbv beta.
  intros s (loc & exclude & exact & uc & _ & Hin).
  exact (proj1 (candidate_pool_offered _ _ _ _ _ _ _ _ _ Hin)).
Qed.

(** The rows that a successful [create_keys] has added. *)
Lemma create_keys_rows
      (env : Env) (user : Vpnuser) (request_type : string) (model : option Z)
      (w w' : World) (out : OutlineUser) (prefix_str : option string) :
  create_keys env user request_type model w = (Ok (out, prefix_str), w') ->
  exists rows,
    outline_users (db w') = outline_users (db w) ++ rows
    /\ In out rows
    /\ Forall (created_for user request_type) rows
    /\ Forall (fun row => forall k, In k (outline_users (db w)) ->
                                    ou_id k < ou_id row) rows
    /\ (request_type <> "legacy" ->
        rows = [out]
        /\ ou_reputation out = 0
        /\ ou_group_id out = None
        /\ vpnusers (db w') = vpnusers (db w)
        /\ is_gtf_or_central request_type = true
        /\ model = None)
    /\ (request_type = "legacy" ->
        Forall (fun row =>
                  ou_reputation row
                  = reputation_after_request (db w) user
                      (match model with
                       | Some m => m
                       | None => DistributionModelChoice.BASIC
                       end)
                  /\ exists s,
                       offered (db w) user
                         (level_of_request env (db w) user
                            (match model with
                             | Some m => m
                             | None => DistributionModelChoice.BASIC
                             end))
                         (match model with
                          | Some m => m
                          | None => DistributionModelChoice.BASIC
                          end) s
                       /\ ou_server row = srv_id s) rows
        /\ (vpnusers (db w')
            = map (fun u => if vu_id u =? vu_id user
                            then with_reputation
                                   (reputation_after_request (db w) user
                                      (match model with
                                       | Some m => m
                                       | None => DistributionModelChoice.BASIC
                                       end)) user
                            else u) (vpnusers (db w))
            \/ (reputation_after_request (db w) user
                  (match model with
                   | Some m => m
                   | None => DistributionModelChoice.BASIC
                   end) = vu_reputation user
                /\ vpnusers (db w') = vpnusers (db w)))).
Proof.
  unfold create_keys. intros H.
  destruct (request_type =? "legacy")%string eqn:Et.
  - apply String.eqb_eq in Et. subst request_type.
    apply bind_ok in H. destruct H as (d & w0 & Hd & H).
    inversion Hd; subst d w0. clear Hd. cbv zeta in H.
    apply bind_ok in H. destruct H as (chosen & w1 & Hg & H).
    fold (reputation_after_request (db w) user
            (match model with
             | Some m => m
             | None => DistributionModelChoice.BASIC
             end)) in Hg, H.
    fold (level_of_request env (db w) user
            (match model with
             | Some m => m
             | None => DistributionModelChoice.BASIC
             end)) in Hg.
    destruct (get_server_offered _ _ _ _ _ _ _ _ Hg) as (Hdb1 & Hoff).
    destruct chosen as [|s chosen']; [discriminate H|].
    apply bind_ok in H. destruct H as (r & w2 & Hloop & H).
    apply legacy_loop_created in Hloop.
    destruct Hloop as (rows & Hrows & Hall & Hrep & Hfresh & Hout & _ & Hvu2).
    apply bind_ok in H. destruct H as ([] & w3 & Hsave & H).
    assert (Hou : outline_users (db w3) = outline_users (db w2)).
    { destruct (negb _) in Hsave.
      - exact (save_user_outline_users _ _ _ _ Hsave).
      - inversion Hsave; subst. reflexivity. }
    destruct (fst r) as [o|] eqn:Er; [|discriminate H].
    inversion H; subst o w'. clear H.
    exists rows. rewrite Hdb1 in Hrows, Hfresh, Hvu2.
    split; [now rewrite Hou|].
    split; [destruct (Hout out eq_refl) as [Hin|Habs];
            [exact Hin | discriminate Habs]|].
    split; [exact Hall|]. split; [exact Hfresh|].
    split; [intros Hne; now contradiction Hne|].
    intros _. split.
    + eapply Forall_impl; [|exact Hrep]. cbv beta.
      intros row (A & _ & (s0 & Hs0 & Hsrv)). split; [exact A|].
      exists s0. split; [|exact Hsrv].
      rewrite Forall_forall in Hoff. exact (Hoff s0 Hs0).
    + destruct (negb (reputation_after_request (db w) user
                        (match model with
                         | Some m => m
                         | None => DistributionModelChoice.BASIC
                         end) =? vu_reputation user)) eqn:En.
      * left. unfold save_user in Hsave.
        cbv beta iota delta [bind get_db put_db] in Hsave.
        inversion Hsave; subst w3.
        cbn [db set_db vpnusers set_vpnusers vu_id with_reputation].
        now rewrite Hvu2.
      * right. apply negb_false_iff, Z.eqb_eq in En. split; [exact En|].
        inversion Hsave; subst w3. exact Hvu2.
  - apply String.eqb_neq in Et.
    apply bind_ok in H. destruct H as (d & w0 & Hd & H).
    inversion Hd; subst d w0. clear Hd.
    apply bind_ok in H. destruct H as (sk & w1 & Hsk & H).
    assert (Hdb1 : db w1 = db w /\ is_gtf_or_central request_type = true).
    { unfold is_gtf_or_central.
      destruct (request_type =? "central")%string.
      - split; [|now rewrite orb_true_r].
        refine (kd_bind _ _ _ _ w _ w1 Hsk).
        + apply kd_try_except; [apply kd_choice | intros e; apply kd_raise].
        + intros server. apply kd_bind; [|intros k; apply kd_ret].
          apply kd_try_except; [apply kd_create_key_on_server|].
          intros e; apply kd_raise.
      - destruct (request_type =? "gtf")%string; [|discriminate Hsk].
        split; [|reflexivity].
        refine (kd_try_except _ _ _ _ w _ w1 Hsk).
        + apply kd_bind; [apply kd_choice | intros server].
          apply kd_bind; [apply kd_create_keys_gtf | intros k; apply kd_ret].
        + intros e. apply kd_raise. }
    destruct Hdb1 as (Hdb1 & Htype).
    cbv zeta in H.
    apply bind_ok in H. destruct H as (lb & w2 & Hlb & H).
    assert (Hdb2 : db w2 = db w1).
    { refine (kd_try_except _ _ _ _ w1 _ w2 Hlb);
        [apply kd_choice | intros e; apply kd_raise]. }
    apply bind_ok in H. destruct H as (kp & w3 & Hp & H).
    assert (Hdb3 : db w3 = db w2) by exact (kd_apply_prefix env _ w2 _ w3 Hp).
    apply bind_ok in H. destruct H as ([] & w4 & Ha & H).
    inversion Ha; subst w4. clear Ha.
    destruct model as [m|]; [discriminate H|].
    apply bind_ok in H. destruct H as (row & w5 & Hc & H).
    unfold objects_create in Hc. inversion Hc; subst row w5. clear Hc.
    inversion H; subst out w'. clear H.
    cbn [db set_db set_created_keys outline_users vpnusers set_outline_users].
    rewrite Hdb3, Hdb2, Hdb1.
    eexists. split; [reflexivity|]. split; [now left|].
    split; [constructor; [repeat split | constructor]|].
    split; [constructor; [|constructor]|].
    + cbn [ou_id]. intros k Hin. now apply next_pk_fresh.
    + split; [intros _; repeat split; exact Htype|].
      intros Habs. contradiction.
Qed.

Lemma same_credential_refl (k : OutlineUser) : same_credential k k.
Proof. repeat split; auto. Qed.

Lemma same_credential_trans (k1 k2 k3 : OutlineUser) :
  same_credential k1 k2 -> same_credential k2 k3 -> same_credential k1 k3.
Proof.
  intros (A1 & B1 & C1 & D1 & E1) (A2 & B2 & C2 & D2 & E2).
  repeat split; try congruence. auto.
Qed.

Lemma Forall2_same_refl (l : list OutlineUser) : Forall2 same_credential l l.
Proof. induction l; constructor; auto using same_credential_refl. Qed.

Lemma Forall2_same_trans (l1 l2 l3 : list OutlineUser) :
  Forall2 same_credential l1 l2 -> Forall2 same_credential l2 l3 ->
  Forall2 same_credential l1 l3.
Proof.
  intros H12. revert l3. induction H12 as [|k k' l l' Hk _ IH]; intros l3 H23.
  - inversion H23. constructor.
  - inversion H23 as [|k2 k'' l2 l'' Hk' Hl']; subst.
    constructor; [exact (same_credential_trans _ _ _ Hk Hk') | now apply IH].
Qed.

Lemma Forall2_map_same (g : OutlineUser -> OutlineUser) (l : list OutlineUser) :
  (forall k, In k l -> same_credential k (g k)) ->
  Forall2 same_credential l (map g l).
Proof.
  induction l as [|k l IH]; intros H; constructor.
  - apply H. now left.
  - apply IH. intros x Hx. apply H. now right.
Qed.

Lemma Forall2_In_r {A B} (P : A -> B -> Prop) (l : list A) (l' : list B) (y : B) :
  Forall2 P l l' -> In y l' -> exists x, In x l /\ P x y.
Proof.
  intros H. induction H as [|a b l l' Hab _ IH]; intros Hin; [destruct Hin|].
  destruct Hin as [<-|Hin].
  - exists a. split; [now left | exact Hab].
  - destruct (IH Hin) as (x & Hx & Hp). exists x. split; [now right | exact Hp].
Qed.

Lemma cleared_only_same (ids : list Z) (rows rows' : list OutlineUser) :
  cleared_only ids rows rows' -> Forall2 same_credential rows rows'.
Proof.
  intros H. induction H as [|k k' l l' Hk _ IH]; constructor; auto.
  destruct Hk as [->|(-> & _)]; repeat split; auto.
Qed.

Lemma deactivate_same (now : Z) (k : OutlineUser) (issue transfer : option Z) :
  same_credential k (deactivate now k issue transfer)
  /\ (ou_request_type k = "legacy" ->
      ou_removed (deactivate now k issue transfer) = true).
Proof.
  unfold deactivate.
  destruct (ou_request_type k =? "legacy")%string eqn:E.
  - split; [repeat split|]; reflexivity.
  - split; [apply same_credential_refl|]. intros Hl.
    apply String.eqb_neq in E. contradiction.
Qed.

(** A run of [deactivate_keys] that returns: rows keep their identity, and
    every legacy row named by a key of the list is removed. *)
Lemma deactivate_keys_run (keys : list OutlineUser) (user_issue : option Z) :
  forall (w w' : World),
    deactivate_keys keys user_issue w = (Ok tt, w') ->
    Forall2 same_credential (outline_users (db w)) (outline_users (db w'))
    /\ vpnusers (db w') = vpnusers (db w)
    /\ forall key k', In key keys -> In k' (outline_users (db w')) ->
                      ou_id k' = ou_id key -> ou_request_type k' = "legacy" ->
                      ou_removed k' = true.
Proof.
  induction keys as [|key rest IH]; intros w w' H; cbn [deactivate_keys] in H.
  - inversion H; subst. split; [apply Forall2_same_refl|].
    split; [reflexivity|]. intros key k' [].
  - unfold bind at 1 in H. unfold get_db at 1 in H. cbv beta iota in H.
    unfold bind at 1 in H. unfold get_world at 1 in H. cbv beta iota in H.
    destruct (filter (fun k => ou_id k =? ou_id key) (outline_users (db w)))
      as [|key' [|key'' l]] eqn:E; cbn [objects_get] in H;
      [discriminate H| |discriminate H].
    unfold bind at 1 in H. unfold lift at 1 in H. cbv beta iota in H.
    unfold bind at 1 in H. unfold put_db at 1 in H. cbv beta iota in H.
    destruct (IH _ _ H) as (Hsame & Hvu & Hdone).
    cbn [db set_db outline_users vpnusers set_outline_users replace_row]
      in Hsame, Hvu.
    rewrite deactivate_id in Hsame.
    assert (Hid : ou_id key' = ou_id key).
    { assert (In key' (filter (fun k => ou_id k =? ou_id key)
                              (outline_users (db w))))
        as Hin by (rewrite E; now left).
      apply filter_In in Hin. now apply Z.eqb_eq. }
    assert (Hone : forall k, In k (outline_users (db w)) ->
                             ou_id k = ou_id key' -> k = key').
    { intros k Hk Hk'.
      assert (In k (filter (fun k => ou_id k =? ou_id key)
                           (outline_users (db w)))) as Hin.
      { apply filter_In. split; [exact Hk|]. apply Z.eqb_eq. congruence. }
      rewrite E in Hin. destruct Hin as [->|[]]. reflexivity. }
    assert (Hstep : Forall2 same_credential (outline_users (db w))
                      (map (fun k => if ou_id k =? ou_id key'
                                     then deactivate (now w) key' user_issue None
                                     else k) (outline_users (db w)))).
    { apply Forall2_map_same. intros k Hk.
      destruct (ou_id k =? ou_id key') eqn:Ek; [|apply same_credential_refl].
      apply Z.eqb_eq in Ek. rewrite <- (Hone k Hk Ek).
      apply deactivate_same. }
    split; [exact (Forall2_same_trans _ _ _ Hstep Hsame)|].
    split; [exact Hvu|].
    intros key0 k' [<-|Hin] Hk' Hid' Hleg; [|exact (Hdone key0 k' Hin Hk' Hid' Hleg)].
    destruct (Forall2_In_r _ _ _ _ Hsame Hk') as (k1 & Hk1 & (A & _ & C & D & _)).
    apply D. apply in_map_iff in Hk1. destruct Hk1 as (k0 & Hk0 & Hin0).
    destruct (ou_id k0 =? ou_id key') eqn:Ek.
    + subst k1. apply deactivate_same.
      destruct (deactivate_same (now w) key' user_issue None) as ((_ & _ & T & _) & _).
      congruence.
    + subst k1. apply Z.eqb_neq in Ek. congruence.
Qed.

Lemma update_online_config_rows (env : Env) (outline_user : OutlineUser)
      (prefix_str : option string) (w w' : World) (r : Result unit) :
  update_online_config env outline_user prefix_str w = (r, w') ->
  outline_users (db w') = outline_users (db w)
  /\ vpnusers (db w') = vpnusers (db w).
Proof.
  intros H. unfold update_online_config in H. cbv zeta in H.
  unfold bind at 1 in H. unfold get_db at 1 in H. cbv beta iota in H.
  unfold bind at 1 in H. unfold get_world at 1 in H. cbv beta iota in H.
  destruct (filter _ (online_configs (db w))) as [|c [|c' l]].
  - cbv beta iota delta [bind put_db] in H. inversion H; subst. now split.
  - inversion H; subst. now split.
  - inversion H; subst. now split.
Qed.

Lemma filter_old_ids (S : list Z) (l : list OutlineUser) :
  Forall (fun k => In (ou_id k) S) l ->
  filter (fun k => negb (existsb (Z.eqb (ou_id k)) S)) l = [].
Proof.
  induction 1 as [|k l Hk _ IH]; [reflexivity|]. cbn [filter].
  assert (existsb (Z.eqb (ou_id k)) S = true) as ->
      by (apply existsb_exists; exists (ou_id k); split;
          [exact Hk | apply Z.eqb_refl]).
  exact IH.
Qed.

Lemma filter_new_ids (S : list Z) (l : list OutlineUser) :
  Forall (fun k => ~ In (ou_id k) S) l ->
  filter (fun k => negb (existsb (Z.eqb (ou_id k)) S)) l = l.
Proof.
  induction 1 as [|k l Hk _ IH]; [reflexivity|]. cbn [filter].
  destruct (existsb (Z.eqb (ou_id k)) S) eqn:E.
  - apply existsb_exists in E. destruct E as (x & Hx & Hxe).
    apply Z.eqb_eq in Hxe. subst x. contradiction.
  - cbn [negb]. now rewrite IH.
Qed.

(** A successful [create], seen from its two ends: the rows stored before,
    each at a later time, followed by the rows it created. *)
Lemma create_ok_rows
      (env : Env) (vd : ValidatedData) (w w' : World)
      (out : OutlineUser) (cks : list KeyDict) :
  create env vd w = (Ok (out, cks), w') ->
  exists user t rows ev,
    users_named env (db w) (vd_user vd) = [user]
    /\ vu_banned user = false
    /\ (forall t', vd_request_type vd = Some t' -> t = t')
    /\ outline_users (db w') = ev ++ rows
    /\ Forall2 same_credential (outline_users (db w)) ev
    /\ (forall k', In k' ev -> ou_user k' = Some (vu_id user) ->
                   ou_removed k' = true /\ ou_request_type k' = "legacy")
    /\ In out rows
    /\ Forall (created_for user t) rows
    /\ Forall (fun row => forall k, In k (outline_users (db w)) ->
                                    ou_id k < ou_id row) rows
    /\ (t <> "legacy" ->
        rows = [out]
        /\ ou_reputation out = 0
        /\ ou_group_id out = None
        /\ vpnusers (db w') = vpnusers (db w)
        /\ is_gtf_or_central t = true
        /\ vd_model vd = None)
    /\ (t = "legacy" ->
        Forall (fun row =>
                  ou_reputation row
                  = reputation_after_request (db w) user
                      (match vd_model vd with
                       | Some m => m
                       | None => DistributionModelChoice.BASIC
                       end)
                  /\ exists s,
                       offered (db w) user
                         (level_of_request env (db w) user
                            (match vd_model vd with
                             | Some m => m
                             | None => DistributionModelChoice.BASIC
                             end))
                         (match vd_model vd with
                          | Some m => m
                          | None => DistributionModelChoice.BASIC
                          end) s
                       /\ ou_server row = srv_id s) rows
        /\ (vpnusers (db w')
            = map (fun u => if vu_id u =? vu_id user
                            then with_reputation
                                   (reputation_after_request (db w) user
                                      (match vd_model vd with
                                       | Some m => m
                                       | None => DistributionModelChoice.BASIC
                                       end)) user
                            else u) (vpnusers (db w))
            \/ (reputation_after_request (db w) user
                  (match vd_model vd with
                   | Some m => m
                   | None => DistributionModelChoice.BASIC
                   end) = vu_reputation user
                /\ vpnusers (db w') = vpnusers (db w)))).
Proof.
  intros H. unfold create in H.
  apply bind_ok in H. destruct H as (d & w00 & Hd & H).
  inversion Hd; subst d w00. clear Hd.
  apply bind_ok in H. destruct H as (user & wu & Hu & H).
  destruct (users_named env (db w) (vd_user vd)) as [|u [|u' us]] eqn:Eu;
    try discriminate Hu.
  inversion Hu; subst u wu. clear Hu.
  fold (non_legacy_keys (db w) user) in H.
  destruct (non_legacy_keys (db w) user) as [|k0 ks0] eqn:Enl; [|discriminate H].
  destruct (vu_banned user) eqn:Eb; [discriminate H|].
  destruct (active_types (db w)) as [|t ts]; [discriminate H|].
  apply bind_ok in H. destruct H as (rt & w1 & Hrand & H).
  pose proof (kd_random_request_type env (t :: ts) w _ w1 Hrand) as Hdb1.
  apply bind_ok in H. destruct H as ([] & w2 & Hset & H).
  inversion Hset; subst w2. clear Hset.
  apply bind_ok in H. destruct H as (r & w3 & Htry & H).
  set (rtype := match vd_request_type vd with Some t0 => t0 | None => rt end) in *.
  assert (Hkeys : create_keys env user rtype (vd_model vd)
                    (set_created_keys [] w1) = (Ok r, w3)).
  { unfold try_except in Htry.
    destruct (atomic _ (set_created_keys [] w1)) as [[a|e] wx] eqn:Ea.
    - inversion Htry; subst a wx. now apply atomic_ok.
    - exfalso. unfold bind at 1 in Htry. unfold get_world at 1 in Htry.
      cbv beta iota in Htry. destruct (created_keys wx).
      + discriminate Htry.
      + unfold bind in Htry.
        destruct (remove_key_from_server env _ wx) as [[f|e'] wy];
          discriminate Htry. }
  destruct r as [outline_user prefix_str].
  apply create_keys_rows in Hkeys.
  destruct Hkeys as (rows & Hrows & Hin & Hall & Hfresh & Hnl & Hleg).
  cbn [db set_created_keys] in Hrows, Hfresh, Hnl, Hleg.
  rewrite Hdb1 in Hrows, Hfresh, Hnl, Hleg.
  apply bind_ok in H. destruct H as ([] & w4 & Hcfg & H).
  apply bind_ok in H. destruct H as ([] & w5 & Hrm & H).
  apply bind_ok in H. destruct H as (wf & w6 & Hgw & H).
  inversion Hgw; subst wf w6. inversion H; subst out cks w'. clear Hgw H.
  cbn [fst snd] in *.
  assert (H34 : outline_users (db w4) = outline_users (db w3)
                /\ vpnusers (db w4) = vpnusers (db w3)).
  { destruct (REAL_VPN_SERVERS (settings env)).
    - exact (update_online_config_rows env _ _ w3 w4 _ Hcfg).
    - inversion Hcfg; subst. now split. }
  destruct H34 as (Hrows4 & Hvu4).
  set (S := map ou_id (outline_users (db w))).
  set (last_keys := filter (fun k => (ou_request_type k =? "legacy")%string)
                           (outline_keys (db w) user)) in *.
  assert (Hlast : forall key, In key last_keys -> In (ou_id key) S).
  { intros key Hk. unfold last_keys, outline_keys in Hk.
    apply filter_In in Hk. destruct Hk as (Hk & _).
    apply filter_In in Hk. destruct Hk as (Hk & _).
    unfold S. now apply in_map. }
  assert (Hmine : forall k, In k (outline_users (db w)) ->
                            ou_user k = Some (vu_id user) ->
                            In k last_keys /\ ou_request_type k = "legacy").
  { intros k Hk Hu.
    assert (Hok : In k (outline_keys (db w) user)).
    { unfold outline_keys. apply filter_In. split; [exact Hk|].
      rewrite Hu. apply Z.eqb_refl. }
    destruct (ou_request_type k =? "legacy")%string eqn:El.
    - split; [|now apply String.eqb_eq].
      unfold last_keys. apply filter_In. now split.
    - exfalso.
      assert (In k (non_legacy_keys (db w) user)) as Habs.
      { unfold non_legacy_keys. apply filter_In. split; [exact Hok|].
        now rewrite El. }
      rewrite Enl in Habs. destruct Habs. }
  (* the rows before, at the end *)
  assert (Hend : Forall2 same_credential (outline_users (db w4))
                         (outline_users (db w5))
                 /\ vpnusers (db w5) = vpnusers (db w4)
                 /\ untouched S w4 w5
                 /\ forall key k', In key last_keys ->
                                   In k' (outline_users (db w5)) ->
                                   ou_id k' = ou_id key ->
                                   ou_request_type k' = "legacy" ->
                                   ou_removed k' = true).
  { destruct last_keys as [|k1 ks1] eqn:El.
    - inversion Hrm; subst. split; [apply Forall2_same_refl|].
      split; [reflexivity|]. split; [apply untouched_refl|]. intros key k' [].
    - apply bind_ok in Hrm. destruct Hrm as (failed & w45 & Hrev & Hdb).
      pose proof (ro_remove_keys_loop (ids_of (get_key_dict (k1 :: ks1))) env
                    (get_key_dict (k1 :: ks1)) [] (incl_refl _) w4 _ w45 Hrev)
        as (Hcl & (_ & Hvu45 & _) & _).
      assert (U1 : untouched S w4 w45).
      { refine (kf_remove_key_from_server S env _ _ w4 _ w45 Hrev).
        intros key id Hk Hid.
        unfold get_key_dict in Hk. apply in_map_iff in Hk.
        destruct Hk as (k & Hk & Hk'). subst key. cbn [kd_id] in Hid.
        inversion Hid; subst id. now apply Hlast. }
      assert (U2 : untouched S w45 w5)
        by exact (kf_remove_keys_from_db S _ _ Hlast w45 _ w5 Hdb).
      unfold remove_keys_from_db in Hdb. rewrite bind_get_db in Hdb.
      apply deactivate_keys_run in Hdb. destruct Hdb as (Hsame & Hvu5 & Hdone).
      split; [exact (Forall2_same_trans _ _ _ (cleared_only_same _ _ _ Hcl) Hsame)|].
      split; [congruence|]. split; [exact (untouched_trans S _ _ _ U1 U2)|].
      exact Hdone. }
  destruct Hend as (Hsame & Hvu5 & U45 & Hdone).
  rewrite Hrows4, Hrows in Hsame.
  apply Forall2_app_inv_l in Hsame.
  destruct Hsame as (ev & new' & Hev & Hnew & Hsplit).
  assert (Hev_old : Forall (fun k => In (ou_id k) S) ev).
  { apply Forall_forall. intros k' Hk'.
    destruct (Forall2_In_r _ _ _ _ Hev Hk') as (k & Hk & (A & _)).
    rewrite A. unfold S. now apply in_map. }
  assert (Hnew_new : Forall (fun k => ~ In (ou_id k) S) new').
  { apply Forall_forall. intros k' Hk' Habs.
    destruct (Forall2_In_r _ _ _ _ Hnew Hk') as (k & Hk & (A & _)).
    rewrite A in Habs. unfold S in Habs. apply in_map_iff in Habs.
    destruct Habs as (k0 & Hid & Hk0).
    rewrite Forall_forall in Hfresh. specialize (Hfresh k Hk k0 Hk0). lia. }
  assert (Hnew_eq : new' = rows).
  { unfold untouched in U45. rewrite Hsplit, Hrows4, Hrows in U45.
    rewrite filter_app, (filter_old_ids S ev Hev_old),
      (filter_new_ids S new' Hnew_new) in U45.
    cbn [app] in U45. rewrite U45. unfold S. now apply filter_fresh_app. }
  subst new'.
  exists user, rtype, rows, ev.
  split; [reflexivity|]. split; [exact Eb|].
  split; [intros t' Ht'; unfold rtype; now rewrite Ht'|].
  split; [exact Hsplit|]. split; [exact Hev|].
  split.
  { intros k' Hk' Hu.
    destruct (Forall2_In_r _ _ _ _ Hev Hk') as (k & Hk & (A & B & C & D & _)).
    destruct (Hmine k Hk (eq_trans (eq_sym B) Hu)) as (Hkl & Hkleg).
    split; [|congruence].
    apply (Hdone k k' Hkl); [|exact A | congruence].
    rewrite Hsplit. apply in_or_app. now left. }
  split; [exact Hin|]. split; [exact Hall|]. split; [exact Hfresh|].
  split.
  - intros Hne. destruct (Hnl Hne) as (A & B & C & D & E & F).
    repeat split; auto. congruence.
  - intros Hl. destruct (Hleg Hl) as (A & B). split; [exact A|].
    rewrite Hvu5, Hvu4. exact B.
Qed.

Lemma fresh_rows_after (d d' : DB) (ev rows : list OutlineUser) :
  outline_users d' = ev ++ rows ->
  Forall2 same_credential (outline_users d) ev ->
  Forall (fun row => forall k, In k (outline_users d) -> ou_id k < ou_id row)
         rows ->
  fresh_rows d d' = rows.
Proof.
  intros Hsplit Hev Hfresh. unfold fresh_rows. rewrite Hsplit, filter_app.
  rewrite filter_old_ids, filter_new_ids; [reflexivity| |].
  - apply Forall_forall. intros row Hrow Habs.
    apply in_map_iff in Habs. destruct Habs as (k & Hid & Hk).
    rewrite Forall_forall in Hfresh. specialize (Hfresh row Hrow k Hk). lia.
  - apply Forall_forall. intros k' Hk'.
    destruct (Forall2_In_r _ _ _ _ Hev Hk') as (k & Hk & (A & _)).
    rewrite A. now apply in_map.
Qed.

(** After a successful [create], the user's credentials that are not
    removed are the rows it created. *)
Lemma create_ok_live
      (env : Env) (vd : ValidatedData) (w w' : World)
      (out : OutlineUser) (cks : list KeyDict) (user : Vpnuser) :
  create env vd w = (Ok (out, cks), w') ->
  users_named env (db w) (vd_user vd) = [user] ->
  filter (fun k => negb (ou_removed k)) (outline_keys (db w') user)
  = fresh_rows (db w) (db w').
Proof.
  intros H Hu.
  destruct (create_ok_rows env vd w w' out cks H)
    as (user' & t & rows & ev & Hu' & _ & _ & Hsplit & Hev & Hold & _ & Hall
        & Hfresh & _).
  rewrite Hu in Hu'. inversion Hu'; subst user'. clear Hu'.
  rewrite (fresh_rows_after _ _ _ _ Hsplit Hev Hfresh).
  unfold outline_keys. rewrite Hsplit, !filter_app.
  assert (Hev0 : filter (fun k => negb (ou_removed k))
                   (filter (fun k => match ou_user k with
                                     | Some u => u =? vu_id user
                                     | None => false
                                     end) ev) = []).
  { clear Hsplit Hev. induction ev as [|k ev IH]; [reflexivity|].
    cbn [filter]. destruct (ou_user k) as [u|] eqn:Eu.
    - destruct (u =? vu_id user) eqn:E.
      + apply Z.eqb_eq in E. subst u. cbn [filter].
        destruct (Hold k (or_introl eq_refl) Eu) as (-> & _). cbn [negb].
        apply IH. intros k' Hk'. apply Hold. now right.
      + apply IH. intros k' Hk'. apply Hold. now right.
    - apply IH. intros k' Hk'. apply Hold. now right. }
  rewrite Hev0. cbn [app]. clear Hsplit Hfresh.
  induction Hall as [|row rows (A & _ & _ & B & _) _ IH]; [reflexivity|].
  cbn [filter]. rewrite A, Z.eqb_refl. cbn [filter]. rewrite B. cbn [negb].
  now rewrite IH.
Qed.

Lemma get_keys_members (d : DB) (self : Vpnuser) (keys : list OutlineUser) :
  get_keys d self = Ok keys ->
  incl keys (filter (fun k => negb (ou_removed k)) (outline_keys d self)).
Proof.
  unfold get_keys. intros H.
  destruct (latest (filter (fun k => negb (ou_removed k)) (outline_keys d self)))
    as [last_key|] eqn:E; [|inversion H; intros k []].
  destruct (latest_spec _ _ E) as (Hin & _).
  destruct (key_server d last_key) as [server|]; [|discriminate H].
  cbv zeta in H.
  destruct (srv_dist_model server =? DistributionModelChoice.LOCATIONED).
  - destruct (truthy (ou_group_id last_key)); inversion H; [|intros k []].
    intros k Hk. apply filter_In in Hk. destruct Hk as (Hk & Hc).
    apply andb_true_iff in Hc. apply filter_In. now split.
  - destruct (srv_dist_model server =? DistributionModelChoice.FIXED_IP);
      inversion H; [intros k []|].
    intros k [<-|[]]. exact Hin.
Qed.

(** X16. The credential a successful [create] returns is one of the rows
    it created; every such row belongs to the requesting user, who is not
    banned, has the request type of the returned credential, which is the
    one asked for if one was, and is active, not removed and on its
    server. *)
Theorem create_stores_live_credentials
        (env : Env) (vd : ValidatedData) (w : World) :
  is_ok (fst (create env vd w)) = true ->
  exists user out cks,
    fst (create env vd w) = Ok (out, cks)
    /\ users_named env (db w) (vd_user vd) = [user]
    /\ vu_banned user = false
    /\ In out (fresh_rows (db w) (db (snd (create env vd w))))
    /\ Forall (created_for user (ou_request_type out))
              (fresh_rows (db w) (db (snd (create env vd w))))
    /\ (forall t, vd_request_type vd = Some t -> ou_request_type out = t).
Proof.
  intros Hok.
  destruct (create env vd w) as [[[out cks]|e] w'] eqn:E; [|discriminate Hok].
  cbn [fst snd]. clear Hok.
  destruct (create_ok_rows env vd w w' out cks E)
    as (user & t & rows & ev & Hu & Hb & Ht & Hsplit & Hev & _ & Hin & Hall
        & Hfresh & _).
  rewrite (fresh_rows_after _ _ _ _ Hsplit Hev Hfresh).
  assert (Hty : ou_request_type out = t).
  { rewrite Forall_forall in Hall. exact (proj1 (proj2 (Hall out Hin))). }
  exists user, out, cks. rewrite Hty.
  split; [reflexivity|]. split; [exact Hu|]. split; [exact Hb|].
  split; [exact Hin|]. split; [exact Hall|].
  intros t' Ht'. now apply Ht.
Qed.

(** X16 on alice's renewal in the basic fleet. *)
Lemma create_stores_live_credentials_witness :
  exists user out cks,
    fst renewal_run = Ok (out, cks)
    /\ users_named (Scenario.env_ok false)
         (db (Scenario.world_of Scenario.basic_fleet))
         (vd_user (Scenario.request (Some "legacy") None)) = [user]
    /\ vu_banned user = false
    /\ In out (fresh_rows (db (Scenario.world_of Scenario.basic_fleet))
                 (db (snd renewal_run)))
    /\ Forall (created_for user (ou_request_type out))
              (fresh_rows (db (Scenario.world_of Scenario.basic_fleet))
                 (db (snd renewal_run)))
    /\ (forall t, vd_request_type (Scenario.request (Some "legacy") None)
                  = Some t -> ou_request_type out = t).
Proof.
  apply (create_stores_live_credentials (Scenario.env_ok false)
           (Scenario.request (Some "legacy") None)
           (Scenario.world_of Scenario.basic_fleet)).
  vm_compute. reflexivity.
Defined.

(** X17. After a successful [create], the credentials of the user that
    are not removed are exactly the rows it created: every credential the
    user held before is now removed. *)
Theorem create_retires_older_credentials
        (env : Env) (vd : ValidatedData) (w : World) (user : Vpnuser) :
  is_ok (fst (create env vd w)) = true ->
  users_named env (db w) (vd_user vd) = [user] ->
  filter (fun k => negb (ou_removed k))
         (outline_keys (db (snd (create env vd w))) user)
  = fresh_rows (db w) (db (snd (create env vd w))).
Proof.
  intros Hok Hu.
  destruct (create env vd w) as [[[out cks]|e] w'] eqn:E; [|discriminate Hok].
  exact (create_ok_live env vd w w' out cks user E Hu).
Qed.

(** X17 on alice's renewal in the basic fleet. *)
Lemma create_retires_older_credentials_witness :
  filter (fun k => negb (ou_removed k))
         (outline_keys (db (snd renewal_run)) Scenario.alice)
  = fresh_rows (db (Scenario.world_of Scenario.basic_fleet))
      (db (snd renewal_run)).
Proof.
  apply (create_retires_older_credentials (Scenario.env_ok false)
           (Scenario.request (Some "legacy") None)
           (Scenario.world_of Scenario.basic_fleet) Scenario.alice).
  - vm_compute. reflexivity.
  - reflexivity.
Defined.

(** X18. After a successful [create], whatever [get_keys] returns for the
    user is among the rows that [create] stored: no older credential is
    shown again. *)
Theorem get_keys_after_create
        (env : Env) (vd : ValidatedData) (w : World) (user : Vpnuser)
        (keys : list OutlineUser) :
  is_ok (fst (create env vd w)) = true ->
  users_named env (db w) (vd_user vd) = [user] ->
  get_keys (db (snd (create env vd w))) user = Ok keys ->
  incl keys (fresh_rows (db w) (db (snd (create env vd w)))).
Proof.
  intros Hok Hu Hk.
  destruct (create env vd w) as [[[out cks]|e] w'] eqn:E; [|discriminate Hok].
  cbn [snd] in *.
  rewrite <- (create_ok_live env vd w w' out cks user E Hu).
  exact (get_keys_members _ _ _ Hk).
Qed.

(** X18 on alice's renewal in the basic fleet. *)
Lemma get_keys_after_create_witness :
  incl (filter (fun k => negb (ou_removed k))
               (outline_users (db (snd renewal_run))))
       (fresh_rows (db (Scenario.world_of Scenario.basic_fleet))
                   (db (snd renewal_run))).
Proof.
  apply (get_keys_after_create (Scenario.env_ok false)
           (Scenario.request (Some "legacy") None)
           (Scenario.world_of Scenario.basic_fleet) Scenario.alice).
  - vm_compute. reflexivity.
  - reflexivity.
  - vm_compute. reflexivity.
Defined.

(** X19. When the credential that a successful [create] returns is not a
    legacy one, it is the only row created; it is a 'gtf' or a 'central'
    credential with reputation 0 and no group, the request carried no
    'model' entry, and the table of users, so every stored reputation, is
    as before. *)
Theorem create_pool_key_is_single
        (env : Env) (vd : ValidatedData) (w : World) :
  is_ok (fst (create env vd w)) = true ->
  exists out cks,
    fst (create env vd w) = Ok (out, cks)
    /\ (ou_request_type out <> "legacy" ->
        fresh_rows (db w) (db (snd (create env vd w))) = [out]
        /\ ou_reputation out = 0
        /\ ou_group_id out = None
        /\ vpnusers (db (snd (create env vd w))) = vpnusers (db w)
        /\ is_gtf_or_central (ou_request_type out) = true
        /\ vd_model vd = None).
Proof.
  intros Hok.
  destruct (create env vd w) as [[[out cks]|e] w'] eqn:E; [|discriminate Hok].
  cbn [fst snd]. clear Hok.
  destruct (create_ok_rows env vd w w' out cks E)
    as (user & t & rows & ev & Hu & Hb & Ht & Hsplit & Hev & _ & Hin & Hall
        & Hfresh & Hnl & _).
  rewrite (fresh_rows_after _ _ _ _ Hsplit Hev Hfresh).
  assert (Hty : ou_request_type out = t).
  { rewrite Forall_forall in Hall. exact (proj1 (proj2 (Hall out Hin))). }
  exists out, cks. split; [reflexivity|]. rewrite Hty. exact Hnl.
Qed.

(** X19 on alice's request for a key of the central pool. *)
Lemma create_pool_key_is_single_witness :
  exists out cks,
    fst central_run = Ok (out, cks)
    /\ (ou_request_type out <> "legacy" ->
        fresh_rows (db (Scenario.world_of Scenario.central_pool))
          (db (snd central_run)) = [out]
        /\ ou_reputation out = 0
        /\ ou_group_id out = None
        /\ vpnusers (db (snd central_run))
           = vpnusers (db (Scenario.world_of Scenario.central_pool))
        /\ is_gtf_or_central (ou_request_type out) = true
        /\ vd_model (Scenario.request (Some "central") None) = None).
Proof.
  apply (create_pool_key_is_single (Scenario.env_ok false)
           (Scenario.request (Some "central") None)
           (Scenario.world_of Scenario.central_pool)).
  vm_compute. reflexivity.
Defined.

Lemma with_reputation_same (user : Vpnuser) :
  with_reputation (vu_reputation user) user = user.
Proof. destruct user; reflexivity. Qed.

Lemma users_named_In (env : Env) (d : DB) (name : string) (user : Vpnuser) :
  users_named env d name = [user] -> In user (vpnusers d).
Proof.
  unfold users_named. destruct (hash_user_id env name) as [h|]; [|discriminate].
  intros H.
  assert (Hin : In user (filter (fun u => (vu_username u =? h)%string)
                                (vpnusers d))) by (rewrite H; now left).
  apply filter_In in Hin. exact (proj1 Hin).
Qed.

(** X20. After a successful legacy [create], every row created carries
    the reputation that the request recorded, which is the user's
    reputation or one more; that reputation is the one stored for the user;
    and every row sits on a server that may be offered to the user at the
    tier of that reputation, for the requested model. *)
Theorem create_legacy_reputation_and_tier
        (env : Env) (vd : ValidatedData) (w : World) (user : Vpnuser) :
  is_ok (fst (create env vd w)) = true ->
  users_named env (db w) (vd_user vd) = [user] ->
  vd_request_type vd = Some "legacy" ->
  Forall (fun row =>
            ou_reputation row
            = reputation_after_request (db w) user (requested_model vd)
            /\ exists s,
                 offered (db w) user
                   (level_of_request env (db w) user (requested_model vd))
                   (requested_model vd) s
                 /\ ou_server row = srv_id s)
         (fresh_rows (db w) (db (snd (create env vd w))))
  /\ vu_reputation user
     <= reputation_after_request (db w) user (requested_model vd)
     <= vu_reputation user + 1
  /\ In (with_reputation
           (reputation_after_request (db w) user (requested_model vd)) user)
        (vpnusers (db (snd (create env vd w)))).
Proof.
  intros Hok Hu Hrt.
  destruct (create env vd w) as [[[out cks]|e] w'] eqn:E; [|discriminate Hok].
  cbn [fst snd]. clear Hok.
  destruct (create_ok_rows env vd w w' out cks E)
    as (user' & t & rows & ev & Hu' & _ & Ht & Hsplit & Hev & _ & _ & _
        & Hfresh & _ & Hleg).
  rewrite Hu in Hu'. inversion Hu'; subst user'. clear Hu'.
  rewrite (fresh_rows_after _ _ _ _ Hsplit Hev Hfresh).
  destruct (Hleg (Ht _ Hrt)) as (Hrows & Hvu).
  fold (requested_model vd) in Hrows, Hvu.
  split; [exact Hrows|]. split.
  - unfold reputation_after_request, ReputationSystem.after_new_key.
    destruct (increase_reputation _ _ _); lia.
  - pose proof (users_named_In _ _ _ _ Hu) as Hin.
    destruct Hvu as [->|(-> & ->)].
    + apply in_map_iff. exists user. split; [|exact Hin].
      now rewrite Z.eqb_refl.
    + now rewrite with_reputation_same.
Qed.

(** X20 on alice's renewal in the basic fleet. *)
Lemma create_legacy_reputation_and_tier_witness :
  Forall (fun row =>
            ou_reputation row
            = reputation_after_request
                (db (Scenario.world_of Scenario.basic_fleet)) Scenario.alice
                (requested_model (Scenario.request (Some "legacy") None))
            /\ exists s,
                 offered (db (Scenario.world_of Scenario.basic_fleet))
                   Scenario.alice
                   (level_of_request (Scenario.env_ok false)
                      (db (Scenario.world_of Scenario.basic_fleet))
                      Scenario.alice
                      (requested_model (Scenario.request (Some "legacy") None)))
                   (requested_model (Scenario.request (Some "legacy") None)) s
                 /\ ou_server row = srv_id s)
         (fresh_rows (db (Scenario.world_of Scenario.basic_fleet))
            (db (snd renewal_run)))
  /\ vu_reputation Scenario.alice
     <= reputation_after_request
          (db (Scenario.world_of Scenario.basic_fleet)) Scenario.alice
          (requested_model (Scenario.request (Some "legacy") None))
     <= vu_reputation Scenario.alice + 1
  /\ In (with_reputation
           (reputation_after_request
              (db (Scenario.world_of Scenario.basic_fleet)) Scenario.alice
              (requested_model (Scenario.request (Some "legacy") None)))
           Scenario.alice)
        (vpnusers (db (snd renewal_run))).
Proof.
  apply (create_legacy_reputation_and_tier (Scenario.env_ok false)
           (Scenario.request (Some "legacy") None)
           (Scenario.world_of Scenario.basic_fleet) Scenario.alice).
  - vm_compute. reflexivity.
  - reflexivity.
  - reflexivity.
Defined.

(** ** The error of a failed key creation *)

Lemma nr_ret {A} (P : Exc -> bool) (a : A) : never_raises P (ret a).
Proof. intros w e w' H. discriminate H. Qed.

Lemma nr_raise {A} (P : Exc -> bool) (e : Exc) :
  P e = false -> never_raises P (@raise A e).
Proof. intros He w e' w' H. inversion H; subst. exact He. Qed.

Lemma nr_bind {A B} (P : Exc -> bool) (m : M A) (f : A -> M B) :
  never_raises P m -> (forall a, never_raises P (f a)) ->
  never_raises P (bind m f).
Proof.
  intros Hm Hf w e w' H. unfold bind in H.
  destruct (m w) as [[a|e0] w1] eqn:E.
  - exact (Hf a w1 e w' H).
  - inversion H; subst. exact (Hm w e w' E).
Qed.

Lemma nr_lift {A} (P : Exc -> bool) (r : Result A) :
  (forall e, r = Raise e -> P e = false) -> never_raises P (lift r).
Proof. intros Hr w e w' H. inversion H; subst. now apply Hr. Qed.

Lemma nr_subscript {A} (entry : option A) (name : string) :
  never_raises is_unable (lift (subscript entry name)).
Proof.
  apply nr_lift. intros e H. destruct entry; inversion H; reflexivity.
Qed.

Lemma nr_objects_get {A} (model : string) (l : list A) :
  never_raises is_unable (lift (objects_get model l)).
Proof.
  apply nr_lift. intros e H. destruct l as [|x [|y l]]; inversion H; reflexivity.
Qed.

Lemma nr_total {A} (P : Exc -> bool) (m : M A) :
  (forall w, exists a w', m w = (Ok a, w')) -> never_raises P m.
Proof.
  intros Hm w e w' H. destruct (Hm w) as (a & w1 & E). congruence.
Qed.

Create HintDb nr discriminated.

#[local] Hint Resolve nr_ret nr_bind nr_subscript nr_objects_get : nr.
#[local] Hint Extern 1 (never_raises _ (raise _)) =>
  apply nr_raise; reflexivity : nr.
#[local] Hint Extern 1 (never_raises _ (if ?b then _ else _)) =>
  destruct b : nr.
#[local] Hint Extern 1 (never_raises _ (match ?x with _ => _ end)) =>
  destruct x : nr.
#[local] Hint Extern 3 (never_raises _ _) =>
  apply nr_total; intros ?; eexists _, _; reflexivity : nr.

Lemma nr_mark_gone (id : Z) : never_raises is_unable (mark_gone id).
Proof. unfold mark_gone. auto 10 with nr. Qed.

#[local] Hint Resolve nr_mark_gone : nr.

Lemma nr_remove_one_key (env : Env) (key : KeyDict) (failed : list Z) :
  never_raises is_unable (remove_one_key env key failed).
Proof. unfold remove_one_key. auto 30 with nr. Qed.

Lemma nr_remove_key_from_server (env : Env) (keys : list KeyDict) :
  never_raises is_unable (remove_key_from_server env keys).
Proof.
  unfold remove_key_from_server. generalize (@nil Z) as failed.
  induction keys as [|key rest IH]; intros failed; cbn [remove_keys_loop].
  - apply nr_ret.
  - apply nr_bind; [apply nr_remove_one_key | intros f; apply IH].
Qed.

Lemma nr_deactivate_keys (keys : list OutlineUser) (user_issue : option Z) :
  never_raises is_unable (deactivate_keys keys user_issue).
Proof.
  induction keys as [|key rest IH]; cbn [deactivate_keys]; auto 10 with nr.
Qed.

Lemma nr_remove_keys_from_db (keys : list OutlineUser) (user_issue : option Z) :
  never_raises is_unable (remove_keys_from_db keys user_issue).
Proof.
  unfold remove_keys_from_db. apply nr_bind; [auto with nr|].
  intros d. apply nr_deactivate_keys.
Qed.

Lemma nr_choice {A} (env : Env) (l : list A) : never_raises is_unable (choice env l).
Proof. unfold choice. auto 10 with nr. Qed.

#[local] Hint Resolve nr_choice nr_remove_key_from_server nr_remove_keys_from_db : nr.

Lemma nr_random_request_type (env : Env) (types : list string) :
  never_raises is_unable (random_request_type env types).
Proof.
  unfold random_request_type, weighted_request_type. auto 10 with nr.
Qed.

Lemma nr_update_online_config (env : Env) (outline_user : OutlineUser)
      (prefix_str : option string) :
  never_raises is_unable (update_online_config env outline_user prefix_str).
Proof.
  assert (Hup : forall file_name : string,
    never_raises is_unable
      (fun w' : World =>
         (if update_json_file env (calls w') file_name
               (ou_outline_key outline_user) prefix_str
          then Ok tt else Raise UploadError,
          log_call (UpdateJsonFile file_name) w'))).
  { intros f w e w' H.
    destruct (update_json_file env (calls w) f (ou_outline_key outline_user)
                prefix_str); inversion H; reflexivity. }
  unfold update_online_config. cbv zeta.
  apply nr_bind; [auto with nr | intros d].
  apply nr_bind; [auto with nr | intros w0].
  destruct (filter _ (online_configs d)) as [|c [|c' l]].
  - apply nr_bind; [auto with nr | intros _; apply Hup].
  - apply Hup.
  - apply nr_raise. reflexivity.
Qed.

#[local] Hint Resolve nr_random_request_type nr_update_online_config : nr.

Lemma bind_raise {A B} (m : M A) (f : A -> M B) (w w' : World) (e : Exc) :
  bind m f w = (Raise e, w') ->
  m w = (Raise e, w')
  \/ exists a w1, m w = (Ok a, w1) /\ f a w1 = (Raise e, w').
Proof.
  unfold bind. destruct (m w) as [[a|e0] w1]; intros H.
  - right. eauto.
  - left. now inversion H.
Qed.

(** X21. When [create] fails with 'Unable to create keys', the user named
    in the error is the requesting user, the database is as it was before
    the call, and no key was recorded as created in the attempt: the error
    is only raised when key creation failed before the first key was
    made. *)
Theorem create_unable_means_nothing_stored
        (env : Env) (vd : ValidatedData) (w : World) (id : Z) (exc : Exc) :
  fst (create env vd w) = Raise (NotAcceptable (Unable_to_create_keys id exc)) ->
  db (snd (create env vd w)) = db w
  /\ created_keys (snd (create env vd w)) = []
  /\ exists user, users_named env (db w) (vd_user vd) = [user]
                  /\ id = vu_id user.
Proof.
  intros H.
  destruct (create env vd w) as [r w'] eqn:E. cbn [fst snd] in *. subst r.
  unfold create in E. rewrite bind_get_db in E.
  destruct (users_named env (db w) (vd_user vd)) as [|user [|u' us]] eqn:Eu;
    try discriminate E.
  unfold bind at 1 in E. unfold ret at 1 in E. cbv beta iota in E.
  destruct (filter _ (outline_keys (db w) user)) as [|k0 ks0]; [|discriminate E].
  destruct (vu_banned user); [discriminate E|].
  destruct (active_types (db w)) as [|t ts]; [discriminate E|].
  apply bind_raise in E. destruct E as [E|(rt & w1 & Hrand & E)].
  { pose proof (nr_random_request_type env (t :: ts) w _ w' E) as Habs.
    discriminate Habs. }
  pose proof (kd_random_request_type env (t :: ts) w _ w1 Hrand) as Hdb1.
  unfold bind at 1 in E. cbv beta iota in E.
  apply bind_raise in E. destruct E as [E|(r & w3 & _ & E)].
  - unfold try_except in E.
    destruct (atomic _ (set_created_keys [] w1)) as [[a|e] wx] eqn:Ea;
      [discriminate E|].
    unfold atomic in Ea.
    destruct (create_keys env user _ (vd_model vd) (set_created_keys [] w1))
      as [[a|e0] wx0] eqn:Ek; [discriminate Ea|].
    inversion Ea; subst e0 wx. clear Ea.
    assert (Hidless : idless wx0).
    { refine (ki_create_keys env user _ _ _ _ _ Ek _). constructor. }
    unfold bind at 1 in E. unfold get_world at 1 in E. cbv beta iota in E.
    cbn [created_keys set_db set_created_keys db] in E.
    unfold idless in Hidless.
    destruct (created_keys wx0) as [|key rest] eqn:Eck.
    + inversion E; subst. cbn [db set_db created_keys].
      split; [exact Hdb1|]. split; [exact Eck|].
      exists user. split; reflexivity.
    + inversion Hidless as [|? ? Hid _]; subst.
      unfold bind at 1 in E.
      rewrite (remove_key_from_server_without_id env key rest _ Hid) in E.
      discriminate E.
  - exfalso.
    assert (Hnr : never_raises is_unable
              ((if REAL_VPN_SERVERS (settings env)
                then update_online_config env (fst r) (snd r)
                else ret tt) ;;;
               match filter (fun k => (ou_request_type k =? "legacy")%string)
                            (outline_keys (db w) user) with
               | _ :: _ =>
                   remove_key_from_server env
                     (get_key_dict
                        (filter (fun k => (ou_request_type k =? "legacy")%string)
                                (outline_keys (db w) user))) ;;;
                   remove_keys_from_db
                     (filter (fun k => (ou_request_type k =? "legacy")%string)
                             (outline_keys (db w) user)) (vd_user_issue vd)
               | [] => ret tt
               end ;;;
               (w0 <- get_world ;; ret (fst r, created_keys w0)))).
    { auto 20 with nr. }
    pose proof (Hnr w3 _ w' E) as Habs. discriminate Habs.
Qed.

(** X21 on a request of a type that no branch of [create_keys] serves. *)
Lemma create_unable_means_nothing_stored_witness :
  db (snd (create (Scenario.env_ok false)
             (Scenario.request (Some "vless") None)
             (Scenario.world_of Scenario.central_pool)))
  = db (Scenario.world_of Scenario.central_pool)
  /\ created_keys (snd (create (Scenario.env_ok false)
                          (Scenario.request (Some "vless") None)
                          (Scenario.world_of Scenario.central_pool))) = []
  /\ exists user,
       users_named (Scenario.env_ok false)
         (db (Scenario.world_of Scenario.central_pool))
         (vd_user (Scenario.request (Some "vless") None)) = [user]
       /\ 1 = vu_id user.
Proof.
  apply (create_unable_means_nothing_stored (Scenario.env_ok false)
           (Scenario.request (Some "vless") None)
           (Scenario.world_of Scenario.central_pool) 1
           (NotAcceptable Request_type_is_not_acceptable)).
  vm_compute. reflexivity.
Defined.

(** ** Management commands *)

Section RowRelation.

Variable rel : OutlineUser -> OutlineUser -> Prop.
Hypothesis rel_refl : forall k, rel k k.
Hypothesis rel_trans : forall k1 k2 k3, rel k1 k2 -> rel k2 k3 -> rel k1 k3.
Hypothesis rel_gone : forall k, rel k (set_exists_on_server false k).
Hypothesis rel_deactivate :
  forall now k issue, rel k (deactivate now k issue None).

Lemma rows_related_refl (w : World) : rows_related rel w w.
Proof.
  unfold rows_related. induction (outline_users (db w)); constructor; auto.
Qed.

Lemma rows_related_trans (w1 w2 w3 : World) :
  rows_related rel w1 w2 -> rows_related rel w2 w3 -> rows_related rel w1 w3.
Proof.
  unfold rows_related. generalize (outline_users (db w1)) as l1.
  generalize (outline_users (db w2)) as l2.
  generalize (outline_users (db w3)) as l3.
  intros l3 l2 l1 H12. revert l3.
  induction H12 as [|k k' l l' Hk _ IH]; intros l3 H23.
  - inversion H23. constructor.
  - inversion H23 as [|k2 k'' l2' l'' Hk' Hl']; subst.
    constructor; [exact (rel_trans _ _ _ Hk Hk') | now apply IH].
Qed.

Lemma Forall2_map_rel (g : OutlineUser -> OutlineUser) (l : list OutlineUser) :
  (forall k, In k l -> rel k (g k)) -> Forall2 rel l (map g l).
Proof.
  induction l as [|k l IH]; intros H; constructor.
  - apply H. now left.
  - apply IH. intros x Hx. apply H. now right.
Qed.

Lemma rr_same_rows {A} (m : M A) :
  (forall w, outline_users (db (snd (m w))) = outline_users (db w)) ->
  preserves (rows_related rel) m.
Proof.
  intros Hm w r w' H. specialize (Hm w). rewrite H in Hm. cbn [snd] in Hm.
  unfold rows_related. rewrite Hm.
  generalize (outline_users (db w)) as l.
  induction l; constructor; auto.
Qed.

Lemma rr_remove_key_from_server (env : Env) (keys : list KeyDict) :
  preserves (rows_related rel) (remove_key_from_server env keys).
Proof.
  intros w r w' H.
  destruct (ro_remove_keys_loop (ids_of keys) env keys [] (incl_refl _) w r w' H)
    as (Hc & _).
  unfold rows_related.
  induction Hc as [|k k' l l' Hk _ IH]; constructor; auto.
  destruct Hk as [->|(-> & _)]; auto.
Qed.

Lemma rr_deactivate_keys (keys : list OutlineUser) (user_issue : option Z) :
  preserves (rows_related rel) (deactivate_keys keys user_issue).
Proof.
  induction keys as [|key rest IH]; cbn [deactivate_keys].
  - apply pr_ret, rows_related_refl.
  - intros w r w' H.
    unfold bind at 1 in H. unfold get_db at 1 in H. cbv beta iota in H.
    unfold bind at 1 in H. unfold get_world at 1 in H. cbv beta iota in H.
    destruct (filter (fun k => ou_id k =? ou_id key) (outline_users (db w)))
      as [|key' [|key'' l]] eqn:E; cbn [objects_get] in H.
    + inversion H; subst. apply rows_related_refl.
    + unfold bind at 1 in H. unfold lift at 1 in H. cbv beta iota in H.
      unfold bind at 1 in H. unfold put_db at 1 in H. cbv beta iota in H.
      eapply rows_related_trans; [|exact (IH _ _ _ H)].
      unfold rows_related.
      cbn [db set_db outline_users set_outline_users replace_row].
      rewrite deactivate_id. apply Forall2_map_rel. intros k Hk.
      destruct (ou_id k =? ou_id key') eqn:Ek; [|apply rel_refl].
      assert (Hin : In k (filter (fun k => ou_id k =? ou_id key)
                                 (outline_users (db w)))).
      { apply filter_In. split; [exact Hk|].
        assert (Hin' : In key' (filter (fun k => ou_id k =? ou_id key)
                                       (outline_users (db w))))
          by (rewrite E; now left).
        apply filter_In in Hin'. destruct Hin' as (_ & Hid).
        apply Z.eqb_eq in Ek, Hid. apply Z.eqb_eq. congruence. }
      rewrite E in Hin. destruct Hin as [->|[]]. apply rel_deactivate.
    + inversion H; subst. apply rows_related_refl.
Qed.

Lemma rr_remove_keys_from_db (keys : list OutlineUser) (user_issue : option Z) :
  preserves (rows_related rel) (remove_keys_from_db keys user_issue).
Proof.
  unfold remove_keys_from_db.
  apply pr_bind; [apply rows_related_trans | |].
  - apply rr_same_rows. reflexivity.
  - intros d.
    destruct (if truthy user_issue then _ else _);
      apply rr_deactivate_keys.
Qed.

Lemma rr_try_remove_key_from_server (env : Env) (key_list : list KeyDict) :
  preserves (rows_related rel) (try_remove_key_from_server env key_list).
Proof.
  unfold try_remove_key_from_server.
  apply pr_try_except; [apply rows_related_trans | |].
  - apply pr_bind; [apply rows_related_trans | apply rr_remove_key_from_server|].
    intros f. apply pr_ret, rows_related_refl.
  - intros e. apply pr_ret, rows_related_refl.
Qed.

End RowRelation.

Lemma Forall2_In_l {A B} (P : A -> B -> Prop) (l : list A) (l' : list B) (x : A) :
  Forall2 P l l' -> In x l -> exists y, In y l' /\ P x y.
Proof.
  intros H. induction H as [|a b l l' Hab _ IH]; intros Hin; [destruct Hin|].
  destruct Hin as [<-|Hin].
  - exists b. split; [now left | exact Hab].
  - destruct (IH Hin) as (y & Hy & Hp). exists y. split; [now right | exact Hp].
Qed.

Lemma kept_unless_legacy_refl (k : OutlineUser) : kept_unless_legacy k k.
Proof. repeat split; reflexivity. Qed.

Lemma kept_unless_legacy_trans (k1 k2 k3 : OutlineUser) :
  kept_unless_legacy k1 k2 -> kept_unless_legacy k2 k3 ->
  kept_unless_legacy k1 k3.
Proof.
  intros (A1 & B1 & C1 & D1) (A2 & B2 & C2 & D2).
  split; [congruence|]. split; [congruence|]. split; [congruence|].
  intros Hne. destruct (D1 Hne) as (R1 & E1).
  assert (Hne2 : ou_request_type k2 <> "legacy") by congruence.
  destruct (D2 Hne2) as (R2 & E2). split; [congruence|].
  intros Ha. destruct (E1 Ha) as (F1 & G1).
  assert (Ha2 : ou_active k2 = false) by congruence.
  destruct (E2 Ha2) as (F2 & G2). split; congruence.
Qed.

Lemma kept_unless_legacy_gone (k : OutlineUser) :
  kept_unless_legacy k (set_exists_on_server false k).
Proof. repeat split; reflexivity. Qed.

Lemma kept_unless_legacy_deactivate (now : Z) (k : OutlineUser)
      (issue : option Z) :
  kept_unless_legacy k (deactivate now k issue None).
Proof.
  unfold deactivate.
  destruct (ou_request_type k =? "legacy")%string eqn:E;
    [|apply kept_unless_legacy_refl].
  apply String.eqb_eq in E.
  split; [reflexivity|]. split; [reflexivity|]. split; [reflexivity|].
  intros Hne. contradiction.
Qed.

Lemma kept_unless_legacy_clear (k : OutlineUser) :
  ou_active k = true -> kept_unless_legacy k (DeactivateKeys.clear_deletion k).
Proof.
  intros Ha. split; [reflexivity|]. split; [reflexivity|].
  split; [reflexivity|]. intros _. split; [reflexivity|].
  intros Hf. congruence.
Qed.

(** The update of the returning keys leaves the keys to delete as they
    are. *)
Lemma inactive_after_update (target_date : Z) (rows : list OutlineUser) :
  filter (DeactivateKeys.inactive target_date)
         (map (fun k => if DeactivateKeys.returning target_date k
                        then DeactivateKeys.clear_deletion k else k) rows)
  = filter (DeactivateKeys.inactive target_date) rows.
Proof.
  induction rows as [|k rows IH]; [reflexivity|]. cbn [map filter].
  rewrite IH.
  destruct (DeactivateKeys.returning target_date k) eqn:E; [|reflexivity].
  unfold DeactivateKeys.returning in E.
  apply andb_true_iff in E. destruct E as (E & _).
  apply andb_true_iff in E. destruct E as (_ & Ha).
  assert (H1 : DeactivateKeys.inactive target_date k = false).
  { unfold DeactivateKeys.inactive. rewrite Ha. cbn [negb].
    now rewrite andb_false_r. }
  assert (H2 : DeactivateKeys.inactive target_date
                 (DeactivateKeys.clear_deletion k) = false) by reflexivity.
  now rewrite H1, H2.
Qed.

(** [handle] after its first update. *)
Lemma deactivate_keys_handle_run (env : Env) (days : Z) (w : World) :
  DeactivateKeys.handle env days w =
  (d <- get_db ;;
   failed_keys <- try_remove_key_from_server env
                    (get_key_dict
                       (filter (DeactivateKeys.inactive
                                  (now w - DeactivateKeys.timedelta days))
                               (outline_users d))) ;;
   match failed_keys with
   | None =>
       ret (Z.of_nat (List.length
                        (filter (DeactivateKeys.returning
                                   (now w - DeactivateKeys.timedelta days))
                                (outline_users (db w)))), None)
   | Some failed_keys =>
       remove_keys_from_db
         (filter (fun key => negb (existsb (Z.eqb (ou_id key)) failed_keys))
                 (filter (DeactivateKeys.inactive
                            (now w - DeactivateKeys.timedelta days))
                         (outline_users d))) None ;;;
       ret (Z.of_nat (List.length
                        (filter (DeactivateKeys.returning
                                   (now w - DeactivateKeys.timedelta days))
                                (outline_users (db w)))),
            Some (Z.of_nat
                    (List.length
                       (filter (fun key => negb (existsb (Z.eqb (ou_id key))
                                                         failed_keys))
                               (filter (DeactivateKeys.inactive
                                          (now w - DeactivateKeys.timedelta days))
                                       (outline_users d)))),
                  Z.of_nat
                    (List.length
                       (filter (DeactivateKeys.inactive
                                  (now w - DeactivateKeys.timedelta days))
                               (outline_users d)))))
   end)
    (set_db (set_outline_users
               (map (fun k => if DeactivateKeys.returning
                                   (now w - DeactivateKeys.timedelta days) k
                              then DeactivateKeys.clear_deletion k else k)
                    (outline_users (db w))) (db w)) w).
Proof. reflexivity. Qed.

(** X22. Whatever the backends answer and however the command ends,
    deactivate_keys never marks a key as removed unless it is a legacy one:
    a key of another type that the command selects for deletion (due, not
    active, not removed) is selected again by the next run. *)
Theorem deactivate_keys_keeps_selecting_pool_keys
        (env : Env) (days : Z) (w : World) (k : OutlineUser) :
  In k (outline_users (db w)) ->
  DeactivateKeys.inactive (now w - DeactivateKeys.timedelta days) k = true ->
  ou_request_type k <> "legacy" ->
  exists k',
    In k' (outline_users (db (snd (DeactivateKeys.handle env days w))))
    /\ ou_id k' = ou_id k
    /\ ou_request_type k' = ou_request_type k
    /\ DeactivateKeys.inactive (now w - DeactivateKeys.timedelta days) k' = true.
Proof.
  intros Hin Hsel Hne.
  assert (Hrel : rows_related kept_unless_legacy w
                   (snd (DeactivateKeys.handle env days w))).
  { rewrite deactivate_keys_handle_run.
    match goal with
    | |- rows_related _ _ (snd (?m ?w1)) =>
        apply (rows_related_trans _ kept_unless_legacy_trans w w1)
    end.
    - unfold rows_related.
      cbn [db set_db outline_users set_outline_users].
      apply Forall2_map_rel. intros k0 _.
      destruct (DeactivateKeys.returning _ k0) eqn:E;
        [|apply kept_unless_legacy_refl].
      apply kept_unless_legacy_clear.
      unfold DeactivateKeys.returning in E.
      apply andb_true_iff in E. destruct E as (E & _).
      apply andb_true_iff in E. exact (proj2 E).
    - match goal with
      | |- rows_related _ ?w1 (snd (?m ?w1)) =>
          destruct (m w1) as [r w'] eqn:Erun;
          assert (Hp : preserves (rows_related kept_unless_legacy) m);
          [|exact (Hp w1 r w' Erun)]
      end.
      pose proof (rows_related_refl _ kept_unless_legacy_refl) as Rr.
      pose proof (rows_related_trans _ kept_unless_legacy_trans) as Rt.
      apply pr_bind; [exact Rt | apply pr_step; intros w0; apply Rr | intros d].
      apply pr_bind; [exact Rt | |].
      + apply rr_try_remove_key_from_server;
          first [exact kept_unless_legacy_refl | exact kept_unless_legacy_trans
                | exact kept_unless_legacy_gone].
      + intros [failed|]; [|apply pr_ret, Rr].
        apply pr_bind; [exact Rt | |intros _; apply pr_ret, Rr].
        apply rr_remove_keys_from_db;
          first [exact kept_unless_legacy_refl | exact kept_unless_legacy_trans
                | exact kept_unless_legacy_deactivate]. }
  destruct (Forall2_In_l _ _ _ _ Hrel Hin) as (k' & Hk' & (A & B & C & D)).
  destruct (D Hne) as (R & E).
  exists k'. split; [exact Hk'|]. split; [exact A|]. split; [exact B|].
  unfold DeactivateKeys.inactive in *.
  apply andb_true_iff in Hsel. destruct Hsel as (Hsel & Hr).
  apply andb_true_iff in Hsel. destruct Hsel as (Hp & Ha).
  apply negb_true_iff in Ha.
  destruct (E Ha) as (F & G).
  unfold DeactivateKeys.past_due in *. rewrite F, G, C, R, Hp, Ha, Hr.
  reflexivity.
Qed.

(** X22 on alice's lapsed central credential. *)
Lemma deactivate_keys_keeps_selecting_pool_keys_witness :
  exists k',
    In k' (outline_users
             (db (snd (DeactivateKeys.handle (Scenario.env_ok true) 0
                         (Scenario.world_of Scenario.lapsed_keys)))))
    /\ ou_id k'
       = ou_id (Scenario.lapsed
                  (Scenario.credential 5 4 "central" false false None))
    /\ ou_request_type k'
       = ou_request_type
           (Scenario.lapsed (Scenario.credential 5 4 "central" false false None))
    /\ DeactivateKeys.inactive
         (now (Scenario.world_of Scenario.lapsed_keys)
          - DeactivateKeys.timedelta 0) k' = true.
Proof.
  apply (deactivate_keys_keeps_selecting_pool_keys (Scenario.env_ok true) 0
           (Scenario.world_of Scenario.lapsed_keys)
           (Scenario.lapsed (Scenario.credential 5 4 "central" false false None))).
  - simpl. left. reflexivity.
  - reflexivity.
  - discriminate.
Defined.

Lemma filter_all_of_length {A} (f : A -> bool) (l : list A) :
  List.length (filter f l) = List.length l -> filter f l = l.
Proof.
  induction l as [|x l IH]; [reflexivity|]. cbn [filter].
  destruct (f x); cbn [List.length]; intros H.
  - f_equal. apply IH. lia.
  - pose proof (filter_length_le f l). lia.
Qed.

(** X23. When deactivate_keys runs to its end, it reports the number of
    returning keys, the number of keys selected for deletion and, of these,
    the number not reported as failed by the revocation, which is at most
    the number selected.  When the two numbers are equal, every legacy key
    that was selected is removed afterwards. *)
Theorem deactivate_keys_completed
        (env : Env) (days : Z) (w : World) (reactivated deleted_count count : Z) :
  fst (DeactivateKeys.handle env days w)
  = Ok (reactivated, Some (deleted_count, count)) ->
  reactivated
  = Z.of_nat (List.length
                (filter (DeactivateKeys.returning
                           (now w - DeactivateKeys.timedelta days))
                        (outline_users (db w))))
  /\ count
     = Z.of_nat (List.length
                   (filter (DeactivateKeys.inactive
                              (now w - DeactivateKeys.timedelta days))
                           (outline_users (db w))))
  /\ 0 <= deleted_count <= count
  /\ (deleted_count = count ->
      forall key k',
        In key (filter (DeactivateKeys.inactive
                          (now w - DeactivateKeys.timedelta days))
                       (outline_users (db w))) ->
        In k' (outline_users (db (snd (DeactivateKeys.handle env days w)))) ->
        ou_id k' = ou_id key ->
        ou_request_type k' = "legacy" ->
        ou_removed k' = true).
Proof.
  intros H.
  destruct (DeactivateKeys.handle env days w) as [res w'] eqn:E.
  cbn [fst snd] in *. subst res.
  rewrite deactivate_keys_handle_run in E.
  apply bind_ok in E. destruct E as (d & w1 & Hd & E).
  inversion Hd; subst d. clear Hd.
  cbn [db set_db outline_users set_outline_users] in E.
  rewrite inactive_after_update in E.
  apply bind_ok in E. destruct E as (failed & w2 & Hrev & E).
  destruct failed as [failed|]; [|inversion E].
  apply bind_ok in E. destruct E as ([] & w3 & Hrm & E).
  inversion E; subst. clear E.
  split; [reflexivity|]. split; [reflexivity|].
  split.
  { split; [lia|]. apply inj_le. apply filter_length_le. }
  intros Heq key k' Hkey Hk' Hid Hleg.
  apply Nat2Z.inj in Heq. apply filter_all_of_length in Heq.
  rewrite Heq in Hrm.
  unfold remove_keys_from_db in Hrm. rewrite bind_get_db in Hrm.
  cbn [truthy] in Hrm.
  destruct (deactivate_keys_run _ _ _ _ Hrm) as (_ & _ & Hdone).
  exact (Hdone key k' Hkey Hk' Hid Hleg).
Qed.

(** X23 on alice's two lapsed credentials, with backends that delete every
    key. *)
Lemma deactivate_keys_completed_witness :
  0 = Z.of_nat (List.length
                  (filter (DeactivateKeys.returning
                             (now (Scenario.world_of Scenario.lapsed_keys)
                              - DeactivateKeys.timedelta 0))
                          (outline_users
                             (db (Scenario.world_of Scenario.lapsed_keys)))))
  /\ 2 = Z.of_nat (List.length
                     (filter (DeactivateKeys.inactive
                                (now (Scenario.world_of Scenario.lapsed_keys)
                                 - DeactivateKeys.timedelta 0))
                             (outline_users
                                (db (Scenario.world_of Scenario.lapsed_keys)))))
  /\ 0 <= 2 <= 2
  /\ (2 = 2 ->
      forall key k',
        In key (filter (DeactivateKeys.inactive
                          (now (Scenario.world_of Scenario.lapsed_keys)
                           - DeactivateKeys.timedelta 0))
                       (outline_users
                          (db (Scenario.world_of Scenario.lapsed_keys)))) ->
        In k' (outline_users
                 (db (snd (DeactivateKeys.handle (Scenario.env_ok true) 0
                             (Scenario.world_of Scenario.lapsed_keys))))) ->
        ou_id k' = ou_id key ->
        ou_request_type k' = "legacy" ->
        ou_removed k' = true).
Proof.
  apply (deactivate_keys_completed (Scenario.env_ok true) 0
           (Scenario.world_of Scenario.lapsed_keys) 0 2 2).
  vm_compute. reflexivity.
Defined.

Lemma old_keys_ids (d : DB) (key : OutlineUser) :
  In key (CleanUpOldKeys.old_keys d) ->
  In (ou_id key) (map ou_id (CleanUpOldKeys.old_keys d))
  /\ ~ In (ou_id key) (CleanUpOldKeys.latest_active_keys d).
Proof.
  intros H. split; [now apply in_map|].
  unfold CleanUpOldKeys.old_keys in H. apply filter_In in H.
  destruct H as (_ & H). apply andb_true_iff in H. destruct H as (_ & H).
  apply negb_true_iff in H. intros Hin.
  assert (existsb (Z.eqb (ou_id key)) (CleanUpOldKeys.latest_active_keys d) = true)
    as Ht by (apply existsb_exists; exists (ou_id key); split;
              [exact Hin | apply Z.eqb_refl]).
  congruence.
Qed.

(** [handle] past its first query. *)
Lemma clean_up_old_keys_handle_run (env : Env) (w : World) :
  CleanUpOldKeys.handle env w =
  (failed_keys <- try_remove_key_from_server env
                    (get_key_dict (CleanUpOldKeys.old_keys (db w))) ;;
   match failed_keys with
   | None => ret None
   | Some failed_keys =>
       remove_keys_from_db
         (filter (fun key => negb (existsb (Z.eqb (ou_id key)) failed_keys))
                 (CleanUpOldKeys.old_keys (db w))) None ;;;
       (d <- get_db ;;
        put_db (set_outline_users
                  (map (fun k =>
                          if existsb (Z.eqb (ou_id k))
                               (map ou_id
                                  (filter (fun key =>
                                             negb (existsb (Z.eqb (ou_id key))
                                                           failed_keys))
                                          (CleanUpOldKeys.old_keys (db w))))
                          then set_active false k else k)
                       (outline_users d)) d) ;;;
        ret (Some
               (Z.of_nat
                  (List.length
                     (filter (fun k =>
                                existsb (Z.eqb (ou_id k))
                                  (map ou_id
                                     (filter (fun key =>
                                                negb (existsb (Z.eqb (ou_id key))
                                                              failed_keys))
                                             (CleanUpOldKeys.old_keys (db w)))))
                             (outline_users d))),
                Z.of_nat (List.length (CleanUpOldKeys.old_keys (db w))),
                Z.of_nat (List.length
                            (CleanUpOldKeys.latest_active_keys (db w))))))
   end) w.
Proof. reflexivity. Qed.

Lemma kf_clean_up_old_keys (env : Env) (w : World) :
  untouched (map ou_id (CleanUpOldKeys.old_keys (db w))) w
            (snd (CleanUpOldKeys.handle env w)).
Proof.
  rewrite clean_up_old_keys_handle_run.
  set (S := map ou_id (CleanUpOldKeys.old_keys (db w))).
  match goal with
  | |- untouched _ _ (snd (?m w)) =>
      destruct (m w) as [r w'] eqn:Erun;
      assert (Hp : keeps_fresh S m); [|exact (Hp w r w' Erun)]
  end.
  clear Erun r w'.
  apply kf_bind.
  - unfold try_remove_key_from_server.
    apply (pr_try_except (untouched S)); [apply untouched_trans | |].
    + apply kf_bind; [|intros f; apply kf_ret].
      apply kf_remove_key_from_server. intros key id Hk Hid.
      unfold get_key_dict in Hk. apply in_map_iff in Hk.
      destruct Hk as (k & Hk & Hin). subst key. cbn [kd_id] in Hid.
      inversion Hid; subst id. unfold S. now apply in_map.
    + intros e. apply kf_ret.
  - intros [failed|]; [|apply kf_ret].
    apply kf_bind.
    + apply kf_remove_keys_from_db. intros key Hk.
      apply filter_In in Hk. unfold S. apply in_map. exact (proj1 Hk).
    + intros _ w0 r w' H.
      rewrite bind_get_db in H. unfold bind at 1 in H. unfold put_db at 1 in H.
      cbv beta iota in H. inversion H; subst. clear H.
      unfold untouched. cbn [db set_db outline_users set_outline_users].
      apply filter_map_outside.
      * intros k. destruct (existsb _ _); reflexivity.
      * intros k Hk.
        destruct (existsb (Z.eqb (ou_id k))
                    (map ou_id (filter (fun key =>
                                          negb (existsb (Z.eqb (ou_id key)) failed))
                                       (CleanUpOldKeys.old_keys (db w)))))
          eqn:E; [|reflexivity].
        apply existsb_exists in E. destruct E as (x & Hx & Hxe).
        apply Z.eqb_eq in Hxe. subst x.
        apply in_map_iff in Hx. destruct Hx as (k0 & Hid & Hk0).
        apply filter_In in Hk0. destruct Hk0 as (Hk0 & _).
        assert (existsb (Z.eqb (ou_id k)) S = true) as Ht.
        { apply existsb_exists. exists (ou_id k). split; [|apply Z.eqb_refl].
          unfold S. rewrite <- Hid. now apply in_map. }
        congruence.
Qed.

(** X24. However clean_up_old_keys ends, and whatever the backends answer,
    it changes no credential row other than rows that carry the id of an old
    key; the most recently updated live key of each user is not an old key,
    so it is left exactly as it was. *)
Theorem clean_up_old_keys_spares_latest (env : Env) (w : World) :
  untouched (map ou_id (CleanUpOldKeys.old_keys (db w))) w
            (snd (CleanUpOldKeys.handle env w))
  /\ forall k,
       In k (outline_users (db w)) ->
       In (ou_id k) (CleanUpOldKeys.latest_active_keys (db w)) ->
       In k (outline_users (db (snd (CleanUpOldKeys.handle env w)))).
Proof.
  pose proof (kf_clean_up_old_keys env w) as U.
  split; [exact U|].
  intros k Hk Hlatest.
  assert (Hout : existsb (Z.eqb (ou_id k))
                   (map ou_id (CleanUpOldKeys.old_keys (db w))) = false).
  { destruct (existsb _ _) eqn:E; [|reflexivity].
    apply existsb_exists in E. destruct E as (x & Hx & Hxe).
    apply Z.eqb_eq in Hxe. subst x.
    apply in_map_iff in Hx. destruct Hx as (k0 & Hid & Hk0).
    destruct (old_keys_ids _ _ Hk0) as (_ & Hn). rewrite Hid in Hn.
    contradiction. }
  assert (Hf : In k (filter (fun k => negb (existsb (Z.eqb (ou_id k))
                                              (map ou_id (CleanUpOldKeys.old_keys
                                                            (db w)))))
                            (outline_users (db w)))).
  { apply filter_In. split; [exact Hk|]. now rewrite Hout. }
  unfold untouched in U. rewrite <- U in Hf.
  apply filter_In in Hf. exact (proj1 Hf).
Qed.

Lemma as_active_refl (k : OutlineUser) : as_active k k.
Proof. split; reflexivity. Qed.

Lemma as_active_trans (k1 k2 k3 : OutlineUser) :
  as_active k1 k2 -> as_active k2 k3 -> as_active k1 k3.
Proof. intros (A1 & B1) (A2 & B2). split; congruence. Qed.

Lemma as_active_gone (k : OutlineUser) :
  as_active k (set_exists_on_server false k).
Proof. split; reflexivity. Qed.

Lemma as_active_deactivate (now : Z) (k : OutlineUser) (issue : option Z) :
  as_active k (deactivate now k issue None).
Proof.
  unfold deactivate. destruct (_ =? _)%string; split; reflexivity.
Qed.

Lemma NoDup_map_inj {A B} (f : A -> B) (l : list A) (x y : A) :
  NoDup (map f l) -> In x l -> In y l -> f x = f y -> x = y.
Proof.
  induction l as [|a l IH]; intros Hnd Hx Hy Hf; [destruct Hx|].
  cbn [map] in Hnd. inversion Hnd as [|? ? Hnot Hnd']; subst.
  destruct Hx as [<-|Hx], Hy as [<-|Hy].
  - reflexivity.
  - exfalso. apply Hnot. rewrite Hf. now apply in_map.
  - exfalso. apply Hnot. rewrite <- Hf. now apply in_map.
  - now apply IH.
Qed.

Lemma filter_by_id_length (P : Z -> bool) (l : list OutlineUser) :
  List.length (filter (fun k => P (ou_id k)) l)
  = List.length (filter P (map ou_id l)).
Proof.
  induction l as [|k l IH]; [reflexivity|]. cbn [map filter].
  destruct (P (ou_id k)); cbn [List.length]; now rewrite IH.
Qed.

(** With distinct primary keys, the rows that carry the id of a selected
    row are as many as the selected rows. *)
Lemma count_by_id (g : OutlineUser -> bool) (rows rows' : list OutlineUser) :
  NoDup (map ou_id rows) ->
  map ou_id rows' = map ou_id rows ->
  List.length (filter (fun k => existsb (Z.eqb (ou_id k))
                                        (map ou_id (filter g rows))) rows')
  = List.length (filter g rows).
Proof.
  intros Hnd Hids.
  rewrite (filter_by_id_length
             (fun i => existsb (Z.eqb i) (map ou_id (filter g rows))) rows').
  rewrite Hids.
  rewrite <- (filter_by_id_length
                (fun i => existsb (Z.eqb i) (map ou_id (filter g rows))) rows).
  f_equal. apply filter_ext_in. intros k Hk.
  destruct (g k) eqn:Eg.
  - apply existsb_exists. exists (ou_id k). split; [|apply Z.eqb_refl].
    apply in_map. apply filter_In. now split.
  - destruct (existsb _ _) eqn:E; [|reflexivity].
    apply existsb_exists in E. destruct E as (x & Hx & Hxe).
    apply Z.eqb_eq in Hxe. subst x.
    apply in_map_iff in Hx. destruct Hx as (k2 & Hid & Hk2).
    apply filter_In in Hk2. destruct Hk2 as (Hk2 & Hg2).
    rewrite (NoDup_map_inj ou_id rows k k2 Hnd Hk Hk2 (eq_sym Hid)) in Eg.
    congruence.
Qed.

Lemma Forall2_as_active_ids (l l' : list OutlineUser) :
  Forall2 as_active l l' -> map ou_id l' = map ou_id l.
Proof.
  induction 1 as [|k k' l l' (Hid & _) _ IH]; [reflexivity|].
  cbn [map]. now rewrite Hid, IH.
Qed.

(** X25. With distinct primary keys: when clean_up_old_keys runs to its
    end and reports as many keys deactivated as it found old keys, every
    credential that is still active is the most recently updated live key
    of some user; the number of such keys it reports is at most the number
    of users. *)
Theorem clean_up_old_keys_complete
        (env : Env) (w : World) (count active_keys_count : Z) :
  NoDup (map ou_id (outline_users (db w))) ->
  fst (CleanUpOldKeys.handle env w) = Ok (Some (count, count, active_keys_count)) ->
  (forall k',
      In k' (outline_users (db (snd (CleanUpOldKeys.handle env w)))) ->
      ou_active k' = true ->
      In (ou_id k') (CleanUpOldKeys.latest_active_keys (db w)))
  /\ active_keys_count
     = Z.of_nat (List.length (CleanUpOldKeys.latest_active_keys (db w)))
  /\ active_keys_count <= Z.of_nat (List.length (vpnusers (db w))).
Proof.
  intros Hnd H.
  destruct (CleanUpOldKeys.handle env w) as [res w'] eqn:E.
  cbn [fst snd] in *. subst res.
  rewrite clean_up_old_keys_handle_run in E.
  apply bind_ok in E. destruct E as (failed & w2 & Hrev & E).
  destruct failed as [failed|]; [|inversion E].
  apply bind_ok in E. destruct E as ([] & w3 & Hrm & E).
  rewrite bind_get_db in E. unfold bind at 1 in E. unfold put_db at 1 in E.
  cbv beta iota in E. inversion E as [[Hn Hc Ha Hw]]. clear E.
  assert (R13 : rows_related as_active w w3).
  { eapply (rows_related_trans _ as_active_trans).
    - exact (rr_try_remove_key_from_server _ as_active_refl as_active_trans
               as_active_gone env _ w _ w2 Hrev).
    - exact (rr_remove_keys_from_db _ as_active_refl as_active_trans
               as_active_deactivate _ _ w2 _ w3 Hrm). }
  unfold rows_related in R13.
  set (deleted := filter (fun key => negb (existsb (Z.eqb (ou_id key)) failed))
                         (CleanUpOldKeys.old_keys (db w))) in *.
  assert (Hdel : deleted = CleanUpOldKeys.old_keys (db w)).
  { apply filter_all_of_length. apply Nat2Z.inj.
    rewrite Hc. f_equal. symmetry.
    unfold deleted, CleanUpOldKeys.old_keys. rewrite filter_filter.
    apply (count_by_id _ _ _ Hnd (Forall2_as_active_ids _ _ R13)). }
  split; [|split].
  - intros k' Hk' Hact.
    cbn [db set_db outline_users set_outline_users] in Hk'.
    apply in_map_iff in Hk'. destruct Hk' as (k3 & Hupd & Hk3).
    destruct (existsb (Z.eqb (ou_id k3)) (map ou_id deleted)) eqn:Ed.
    { subst k'. discriminate Hact. }
    subst k'.
    destruct (Forall2_In_r _ _ _ _ R13 Hk3) as (k & Hk & (Hid & Hsame)).
    destruct (existsb (Z.eqb (ou_id k3))
                (CleanUpOldKeys.latest_active_keys (db w))) eqn:El.
    + apply existsb_exists in El. destruct El as (x & Hx & Hxe).
      apply Z.eqb_eq in Hxe. now subst x.
    + exfalso.
      assert (Hold : In k (CleanUpOldKeys.old_keys (db w))).
      { unfold CleanUpOldKeys.old_keys. apply filter_In. split; [exact Hk|].
        rewrite <- Hsame, Hact, <- Hid, El. reflexivity. }
      assert (Ht : existsb (Z.eqb (ou_id k3)) (map ou_id deleted) = true).
      { apply existsb_exists. exists (ou_id k3). split; [|apply Z.eqb_refl].
        rewrite Hdel, Hid. now apply in_map. }
      congruence.
  - reflexivity.
  - apply inj_le. unfold CleanUpOldKeys.latest_active_keys.
    generalize (vpnusers (db w)) as us.
    induction us as [|u us IH]; [apply Nat.le_refl|].
    cbn [flat_map]. rewrite length_app. cbn [List.length].
    destruct (latest _); cbn [List.length]; lia.
Qed.

(** X25 on alice's two active credentials, with backends that delete every
    key. *)
Lemma clean_up_old_keys_complete_witness :
  (forall k',
      In k' (outline_users
               (db (snd (CleanUpOldKeys.handle (Scenario.env_ok true)
                           (Scenario.world_of Scenario.double_holder))))) ->
      ou_active k' = true ->
      In (ou_id k')
         (CleanUpOldKeys.latest_active_keys
            (db (Scenario.world_of Scenario.double_holder))))
  /\ 1 = Z.of_nat (List.length
                     (CleanUpOldKeys.latest_active_keys
                        (db (Scenario.world_of Scenario.double_holder))))
  /\ 1 <= Z.of_nat (List.length
                      (vpnusers (db (Scenario.world_of Scenario.double_holder)))).
Proof.
  apply (clean_up_old_keys_complete (Scenario.env_ok true)
           (Scenario.world_of Scenario.double_holder) 1 1).
  - simpl. repeat constructor; simpl; intuition discriminate.
  - vm_compute. reflexivity.
Defined.

Lemma reset_reputations_run (max_rep : Z) (w : World) :
  ResetReputations.handle (Some max_rep) w
  = (Ok (inr (Z.of_nat (List.length
                          (filter (fun u => vu_reputation u >? max_rep)
                                  (vpnusers (db w)))))),
     set_db (set_vpnusers
               (map (fun u => if vu_reputation u >? max_rep
                              then with_reputation 0 u else u)
                    (vpnusers (db w))) (db w)) w).
Proof. reflexivity. Qed.

(** X26. After reset_reputations with threshold [max_rep], no stored
    reputation is above the threshold (or above 0 when the threshold is
    negative), so no user is above the tier of that reputation; users at or
    below the threshold and all credentials are as before; and with a
    threshold that is not negative, a second run finds no user to update. *)
Theorem reset_reputations_caps (st : Settings) (max_rep : Z) (w : World) :
  (forall u',
      In u' (vpnusers (db (snd (ResetReputations.handle (Some max_rep) w)))) ->
      vu_reputation u' <= Z.max max_rep 0
      /\ ReputationSystem.server_level st (vu_reputation u')
         <= ReputationSystem.server_level st (Z.max max_rep 0))
  /\ outline_users (db (snd (ResetReputations.handle (Some max_rep) w)))
     = outline_users (db w)
  /\ (forall u, In u (vpnusers (db w)) -> vu_reputation u <= max_rep ->
                In u (vpnusers
                        (db (snd (ResetReputations.handle (Some max_rep) w)))))
  /\ (0 <= max_rep ->
      fst (ResetReputations.handle (Some max_rep)
             (snd (ResetReputations.handle (Some max_rep) w)))
      = Ok (inr 0)).
Proof.
  rewrite reset_reputations_run. cbn [snd db set_db vpnusers set_vpnusers
                                      outline_users].
  assert (Hcap : forall u',
             In u' (map (fun u => if vu_reputation u >? max_rep
                                  then with_reputation 0 u else u)
                        (vpnusers (db w))) ->
             vu_reputation u' <= Z.max max_rep 0).
  { intros u' Hu'. apply in_map_iff in Hu'. destruct Hu' as (u & <- & _).
    destruct (vu_reputation u >? max_rep) eqn:E.
    - cbn [with_reputation vu_reputation]. lia.
    - rewrite Z.gtb_ltb in E. apply Z.ltb_ge in E. lia. }
  split; [|split; [reflexivity|split]].
  - intros u' Hu'. split; [now apply Hcap|].
    apply server_level_le. now apply Hcap.
  - intros u Hu Hle. apply in_map_iff. exists u. split; [|exact Hu].
    destruct (vu_reputation u >? max_rep) eqn:E; [|reflexivity].
    rewrite Z.gtb_ltb in E. apply Z.ltb_lt in E. lia.
  - intros Hpos. rewrite reset_reputations_run. cbn [fst db set_db vpnusers
                                                       set_vpnusers].
    assert (Hnone : filter (fun u => vu_reputation u >? max_rep)
                      (map (fun u => if vu_reputation u >? max_rep
                                     then with_reputation 0 u else u)
                           (vpnusers (db w))) = []).
    { generalize (vpnusers (db w)) as us.
      induction us as [|u us IH]; [reflexivity|]. cbn [map filter].
      destruct (vu_reputation u >? max_rep) eqn:E.
      - cbn [with_reputation vu_reputation].
        assert ((0 >? max_rep) = false) as ->
            by (rewrite Z.gtb_ltb; apply Z.ltb_ge; lia).
        exact IH.
      - rewrite E. exact IH. }
    now rewrite Hnone.
Qed.

(** ** The fleet is not touched *)

Lemma inventory_same_refl (w : World) : inventory_same w w.
Proof. repeat split. Qed.

Lemma inventory_same_trans (w1 w2 w3 : World) :
  inventory_same w1 w2 -> inventory_same w2 w3 -> inventory_same w1 w3.
Proof.
  intros (A1 & B1 & C1 & D1 & E1) (A2 & B2 & C2 & D2 & E2).
  repeat split; congruence.
Qed.

Lemma ks_ret {A} (a : A) : keeps_inventory (ret a).
Proof. apply pr_ret, inventory_same_refl. Qed.

Lemma ks_raise {A} (e : Exc) : keeps_inventory (@raise A e).
Proof. apply pr_raise, inventory_same_refl. Qed.

Lemma ks_bind {A B} (m : M A) (f : A -> M B) :
  keeps_inventory m -> (forall a, keeps_inventory (f a)) ->
  keeps_inventory (bind m f).
Proof. apply pr_bind, inventory_same_trans. Qed.

Lemma ks_try_except {A} (m : M A) (handler : Exc -> M A) :
  keeps_inventory m -> (forall e, keeps_inventory (handler e)) ->
  keeps_inventory (try_except m handler).
Proof. apply pr_try_except, inventory_same_trans. Qed.

Lemma ks_keeps_db {A} (m : M A) : keeps_db m -> keeps_inventory m.
Proof.
  intros Hm w r w' H. unfold inventory_same. rewrite (Hm w r w' H).
  repeat split.
Qed.

Lemma ks_step {A} (m : M A) :
  (forall w, inventory_same w (snd (m w))) -> keeps_inventory m.
Proof. apply pr_step. Qed.

Lemma ks_atomic {A} (body : M A) :
  keeps_inventory body -> keeps_inventory (atomic body).
Proof.
  intros Hb w r w' H. unfold atomic in H.
  destruct (body w) as [[a|e] w1] eqn:E; inversion H; subst.
  - exact (Hb w _ w' E).
  - repeat split.
Qed.

Lemma ks_get_server (env : Env) (user : Vpnuser) (level dist_model : Z)
      (location : option Location) :
  keeps_inventory (get_server env user level dist_model location).
Proof.
  apply ks_keeps_db. intros w r w' H.
  destruct (get_server_total env user level dist_model location w)
    as (l & w1 & Hl & (Hdb & _)).
  rewrite H in Hl. inversion Hl; subst. exact Hdb.
Qed.

Lemma ks_save_user (user : Vpnuser) : keeps_inventory (save_user user).
Proof. apply ks_step. intros w. repeat split. Qed.

Lemma ks_mark_gone (id : Z) : keeps_inventory (mark_gone id).
Proof. apply ks_step. intros w. rewrite mark_gone_run. repeat split. Qed.

Lemma ks_remove_key_from_server (env : Env) (keys : list KeyDict) :
  keeps_inventory (remove_key_from_server env keys).
Proof.
  intros w r w' H.
  destruct (ro_remove_keys_loop (ids_of keys) env keys [] (incl_refl _) w r w' H)
    as (_ & (A & _ & B & C & D & E & _) & _).
  repeat split; assumption.
Qed.

Lemma ks_deactivate_keys (keys : list OutlineUser) (user_issue : option Z) :
  keeps_inventory (deactivate_keys keys user_issue).
Proof.
  induction keys as [|key rest IH]; cbn [deactivate_keys]; [apply ks_ret|].
  intros w r w' H.
  unfold bind at 1 in H. unfold get_db at 1 in H. cbv beta iota in H.
  unfold bind at 1 in H. unfold get_world at 1 in H. cbv beta iota in H.
  destruct (filter (fun k => ou_id k =? ou_id key) (outline_users (db w)))
    as [|key' [|key'' l]]; cbn [objects_get] in H.
  - inversion H; subst. apply inventory_same_refl.
  - unfold bind at 1 in H. unfold lift at 1 in H. cbv beta iota in H.
    unfold bind at 1 in H. unfold put_db at 1 in H. cbv beta iota in H.
    eapply inventory_same_trans; [|exact (IH _ _ _ H)]. repeat split.
  - inversion H; subst. apply inventory_same_refl.
Qed.

Lemma ks_remove_keys_from_db (keys : list OutlineUser) (user_issue : option Z) :
  keeps_inventory (remove_keys_from_db keys user_issue).
Proof.
  unfold remove_keys_from_db.
  apply ks_bind; [apply ks_keeps_db, kd_get_db | intros d].
  apply ks_deactivate_keys.
Qed.

Lemma ks_update_online_config (env : Env) (outline_user : OutlineUser)
      (prefix_str : option string) :
  keeps_inventory (update_online_config env outline_user prefix_str).
Proof.
  intros w r w' H. unfold update_online_config in H. cbv zeta in H.
  unfold bind at 1 in H. unfold get_db at 1 in H. cbv beta iota in H.
  unfold bind at 1 in H. unfold get_world at 1 in H. cbv beta iota in H.
  destruct (filter _ (online_configs (db w))) as [|c [|c' l]].
  - cbv beta iota delta [bind put_db] in H. inversion H; subst. repeat split.
  - inversion H; subst. repeat split.
  - inversion H; subst. repeat split.
Qed.

Create HintDb ks discriminated.

#[local] Hint Resolve ks_ret ks_raise ks_bind ks_try_except ks_atomic
  ks_get_server ks_save_user ks_mark_gone ks_remove_key_from_server
  ks_remove_keys_from_db ks_update_online_config : ks.
#[local] Hint Extern 1 (keeps_inventory (if ?b then _ else _)) => destruct b : ks.
#[local] Hint Extern 1 (keeps_inventory (match ?x with _ => _ end)) =>
  destruct x : ks.
#[local] Hint Extern 3 (keeps_inventory _) =>
  apply ks_step; intros ?; repeat split : ks.
#[local] Hint Extern 2 (keeps_inventory (choice _ _)) =>
  apply ks_keeps_db, kd_choice : ks.
#[local] Hint Extern 2 (keeps_inventory (create_key_on_server _ _)) =>
  apply ks_keeps_db, kd_create_key_on_server : ks.
#[local] Hint Extern 2 (keeps_inventory (create_keys_gtf _ _)) =>
  apply ks_keeps_db, kd_create_keys_gtf : ks.
#[local] Hint Extern 2 (keeps_inventory (apply_prefix _ _)) =>
  apply ks_keeps_db, kd_apply_prefix : ks.
#[local] Hint Extern 2 (keeps_inventory (random_request_type _ _)) =>
  apply ks_keeps_db, kd_random_request_type : ks.

Lemma ks_legacy_loop
      (env : Env) (user : Vpnuser) (request_type : string) (group_id : option Z)
      (new_rep : Z) (server_list : list OutlineServer)
      (outline_user : option OutlineUser) (prefix_str : option string) :
  keeps_inventory (legacy_loop env user request_type group_id new_rep server_list
                     outline_user prefix_str).
Proof.
  revert outline_user prefix_str.
  induction server_list as [|server rest IH]; intros outline_user prefix_str;
    cbn [legacy_loop]; auto 12 with ks.
Qed.

#[local] Hint Resolve ks_legacy_loop : ks.

Lemma ks_create_keys (env : Env) (user : Vpnuser) (request_type : string)
      (model : option Z) :
  keeps_inventory (create_keys env user request_type model).
Proof.
  unfold create_keys. cbv zeta. auto 20 with ks.
Qed.

#[local] Hint Resolve ks_create_keys : ks.

Lemma ks_create (env : Env) (vd : ValidatedData) :
  keeps_inventory (create env vd).
Proof.
  unfold create. auto 30 with ks.
Qed.

(** X27. However [create] ends, and whatever the backends answer, the
    tables that describe the fleet are as before: servers, locations,
    prefixes, load balancers and issues. *)
Theorem create_keeps_inventory (env : Env) (vd : ValidatedData) (w : World) :
  inventory_same w (snd (create env vd w)).
Proof.
  destruct (create env vd w) as [r w'] eqn:E.
  exact (ks_create env vd w r w' E).
Qed.

(** ** The first credential decides *)

Lemma first_by_pk_In (l : list OutlineUser) (k : OutlineUser) :
  first_by_pk l = Some k -> In k l.
Proof.
  revert k. induction l as [|a l IH]; intros k H; cbn [first_by_pk] in H;
    [discriminate H|].
  destruct (first_by_pk l) as [k'|].
  - destruct (ou_id k' <? ou_id a); inversion H; subst.
    + right. now apply IH.
    + now left.
  - inversion H. now left.
Qed.

Lemma first_by_pk_app (l1 l2 : list OutlineUser) :
  l1 <> [] ->
  (forall a b, In a l1 -> In b l2 -> ou_id a < ou_id b) ->
  first_by_pk (l1 ++ l2) = first_by_pk l1.
Proof.
  induction l1 as [|a l1 IH]; intros Hne Hlt; [contradiction|].
  cbn [app first_by_pk].
  destruct l1 as [|a' l1'].
  - cbn [app first_by_pk].
    destruct (first_by_pk l2) as [k'|] eqn:E; [|reflexivity].
    apply first_by_pk_In in E.
    assert (ou_id a < ou_id k') by (apply Hlt; [now left | exact E]).
    assert ((ou_id k' <? ou_id a) = false) as -> by (apply Z.ltb_ge; lia).
    reflexivity.
  - rewrite IH; [reflexivity | discriminate|].
    intros x y Hx Hy. apply Hlt; [now right | exact Hy].
Qed.

Lemma Forall2_same_filter_user (uid : Z) (l l' : list OutlineUser) :
  Forall2 same_credential l l' ->
  Forall2 same_credential
    (filter (fun k => match ou_user k with
                      | Some u => u =? uid
                      | None => false
                      end) l)
    (filter (fun k => match ou_user k with
                      | Some u => u =? uid
                      | None => false
                      end) l').
Proof.
  induction 1 as [|k k' l l' Hk _ IH]; [constructor|].
  cbn [filter]. destruct Hk as (A & B & C & D & E). rewrite B.
  destruct (match ou_user k with Some u => u =? uid | None => false end);
    [constructor; [repeat split; assumption | exact IH] | exact IH].
Qed.

Lemma Forall2_same_first (l l' : list OutlineUser) :
  Forall2 same_credential l l' ->
  match first_by_pk l, first_by_pk l' with
  | Some k, Some k' => same_credential k k'
  | None, None => True
  | _, _ => False
  end.
Proof.
  induction 1 as [|k k' l l' Hk _ IH]; [exact I|].
  cbn [first_by_pk].
  destruct (first_by_pk l) as [f|], (first_by_pk l') as [f'|];
    try contradiction; [|exact Hk].
  destruct Hk as (A & Hk), IH as (A' & IH). rewrite A, A'.
  destruct (ou_id f <? ou_id k); repeat split; tauto.
Qed.

(** X28. Outside the location-based model, for a user who held a
    credential before, a successful [create] does not change what
    [increase_reputation] answers: the answer is read off the user's first
    credential, which stays the first, on the same server. *)
Theorem create_keeps_reputation_decision
        (env : Env) (vd : ValidatedData) (w : World) (user : Vpnuser)
        (dist_model : Z) :
  is_ok (fst (create env vd w)) = true ->
  users_named env (db w) (vd_user vd) = [user] ->
  outline_keys (db w) user <> [] ->
  dist_model <> DistributionModelChoice.LOCATIONED ->
  increase_reputation (db (snd (create env vd w))) user dist_model
  = increase_reputation (db w) user dist_model.
Proof.
  intros Hok Hu Hne Hdm.
  destruct (create env vd w) as [[[out cks]|e] w'] eqn:E; [|discriminate Hok].
  cbn [fst snd]. clear Hok.
  destruct (ks_create env vd w _ w' E) as (Hsrv & _).
  destruct (create_ok_rows env vd w w' out cks E)
    as (user' & t & rows & ev & Hu' & _ & _ & Hsplit & Hev & _ & _ & Hall
        & Hfresh & _).
  rewrite Hu in Hu'. inversion Hu'; subst user'. clear Hu'.
  unfold increase_reputation. apply Z.eqb_neq in Hdm. rewrite Hdm.
  destruct (dist_model =? DistributionModelChoice.FIXED_IP); [reflexivity|].
  unfold outline_keys in *. rewrite Hsplit, filter_app.
  pose proof (Forall2_same_filter_user (vu_id user) _ _ Hev) as Hf.
  rewrite first_by_pk_app.
  - pose proof (Forall2_same_first _ _ Hf) as H1.
    destruct (first_by_pk (filter _ (outline_users (db w)))) as [k|],
             (first_by_pk (filter _ ev)) as [k'|]; try contradiction;
      [|reflexivity].
    destruct H1 as (_ & _ & _ & _ & Hs).
    unfold key_server, server_by_id. now rewrite Hs, Hsrv.
  - intros Habs. rewrite Habs in Hf. inversion Hf as [Hnil|]. 
    symmetry in Hnil. contradiction.
  - intros a b Ha Hb. apply filter_In in Ha, Hb.
    destruct Ha as (Ha & _), Hb as (Hb & _).
    destruct (Forall2_In_r _ _ _ _ Hev Ha) as (k & Hk & (A & _)).
    rewrite A. rewrite Forall_forall in Hfresh. exact (Hfresh b Hb k Hk).
Qed.

(** X28 on alice's renewal in the basic fleet. *)
Lemma create_keeps_reputation_decision_witness :
  increase_reputation (db (snd renewal_run)) Scenario.alice
    DistributionModelChoice.BASIC
  = increase_reputation (db (Scenario.world_of Scenario.basic_fleet))
      Scenario.alice DistributionModelChoice.BASIC.
Proof.
  apply (create_keeps_reputation_decision (Scenario.env_ok false)
           (Scenario.request (Some "legacy") None)
           (Scenario.world_of Scenario.basic_fleet) Scenario.alice
           DistributionModelChoice.BASIC).
  - vm_compute. reflexivity.
  - reflexivity.
  - discriminate.
  - discriminate.
Defined.

(** ** Validation *)

(** X29. [create] turns away a request for an unknown user with 'User does
    not exist', and a request for a banned user with 'User already has a
    key' or 'User ... is banned'; in both cases the world is as it was: no
    draw, no backend call, no row. *)
Theorem create_refuses_unknown_and_banned
        (env : Env) (vd : ValidatedData) (w : World) :
  (users_named env (db w) (vd_user vd) = [] ->
   create env vd w = (Raise (NotAcceptable User_does_not_exist), w))
  /\ (forall user,
         users_named env (db w) (vd_user vd) = [user] ->
         vu_banned user = true ->
         snd (create env vd w) = w
         /\ (fst (create env vd w)
             = Raise (NotAcceptable User_already_has_a_key)
             \/ fst (create env vd w)
                = Raise (NotAcceptable (User_is_banned (vu_id user))))).
Proof.
  split.
  - intros Hu. unfold create. rewrite bind_get_db, Hu. reflexivity.
  - intros user Hu Hb.
    assert (Hrun : create env vd w
                   = (Raise (NotAcceptable User_already_has_a_key), w)
                   \/ create env vd w
                      = (Raise (NotAcceptable (User_is_banned (vu_id user))), w)).
    { destruct (non_legacy_keys (db w) user) as [|k0 ks0] eqn:Ek;
        [right | left]; unfold create; rewrite bind_get_db, Hu;
        unfold bind at 1; unfold ret at 1; cbv beta iota;
        fold (non_legacy_keys (db w) user); rewrite Ek;
        [rewrite Hb|]; reflexivity. }
    destruct Hrun as [-> | ->]; split; auto.
Qed.

(** ** Simulated mode *)

Lemma kc_ret {A} (a : A) : keeps_calls (ret a).
Proof. apply pr_ret. reflexivity. Qed.

Lemma kc_raise {A} (e : Exc) : keeps_calls (@raise A e).
Proof. apply pr_raise. reflexivity. Qed.

Lemma kc_bind {A B} (m : M A) (f : A -> M B) :
  keeps_calls m -> (forall a, keeps_calls (f a)) -> keeps_calls (bind m f).
Proof. apply pr_bind. intros w1 w2 w3 H1 H2. congruence. Qed.

Lemma kc_try_except {A} (m : M A) (handler : Exc -> M A) :
  keeps_calls m -> (forall e, keeps_calls (handler e)) ->
  keeps_calls (try_except m handler).
Proof. apply pr_try_except. intros w1 w2 w3 H1 H2. congruence. Qed.

Lemma kc_step {A} (m : M A) :
  (forall w, calls (snd (m w)) = calls w) -> keeps_calls m.
Proof. intros Hm. apply pr_step. exact Hm. Qed.

Lemma kc_atomic {A} (body : M A) : keeps_calls body -> keeps_calls (atomic body).
Proof.
  intros Hb w r w' H. unfold atomic in H.
  destruct (body w) as [[a|e] w1] eqn:E; inversion H; subst.
  - exact (Hb w _ w' E).
  - exact (Hb w _ w1 E).
Qed.

Lemma kc_get_server (env : Env) (user : Vpnuser) (level dist_model : Z)
      (location : option Location) :
  keeps_calls (get_server env user level dist_model location).
Proof.
  intros w r w' H.
  destruct (get_server_total env user level dist_model location w)
    as (l & w1 & Hl & (_ & Hc & _)).
  rewrite H in Hl. inversion Hl; subst. exact Hc.
Qed.

Lemma kc_remove_key_from_server (env : Env) (keys : list KeyDict) :
  REAL_VPN_SERVERS (settings env) = false ->
  keeps_calls (remove_key_from_server env keys).
Proof.
  intros Hsim w r w' H.
  destruct (remove_keys_loop_simulated env keys [] w Hsim)
    as (r0 & w0 & Hrun & Hc & _).
  unfold remove_key_from_server in H. rewrite H in Hrun.
  inversion Hrun; subst. exact Hc.
Qed.

Create HintDb kc discriminated.

#[local] Hint Resolve kc_ret kc_raise kc_bind kc_try_except kc_atomic
  kc_get_server : kc.
#[local] Hint Extern 1 (keeps_calls (if ?b then _ else _)) => destruct b : kc.
#[local] Hint Extern 1 (keeps_calls (match ?x with _ => _ end)) => destruct x : kc.
#[local] Hint Extern 3 (keeps_calls _) => apply kc_step; reflexivity : kc.

Lemma kc_choice {A} (env : Env) (l : list A) : keeps_calls (choice env l).
Proof. unfold choice. auto 10 with kc. Qed.

#[local] Hint Resolve kc_choice : kc.

Lemma kc_create_key_on_server (env : Env) (server : OutlineServer) :
  REAL_VPN_SERVERS (settings env) = false ->
  keeps_calls (create_key_on_server env server).
Proof.
  intros Hsim. unfold create_key_on_server, randint. rewrite Hsim.
  cbn [negb]. auto 10 with kc.
Qed.

Lemma kc_apply_prefix (env : Env) (outline_key : string) :
  keeps_calls (apply_prefix env outline_key).
Proof. unfold apply_prefix. auto 10 with kc. Qed.

Lemma kc_deactivate_keys (keys : list OutlineUser) (user_issue : option Z) :
  keeps_calls (deactivate_keys keys user_issue).
Proof.
  induction keys as [|key rest IH]; cbn [deactivate_keys]; [apply kc_ret|].
  apply kc_bind; [auto with kc | intros d].
  apply kc_bind; [auto with kc | intros w0].
  apply kc_bind; [|intros k; apply kc_bind; [auto with kc | intros _; exact IH]].
  apply kc_step. intros w. reflexivity.
Qed.

Lemma kc_remove_keys_from_db (keys : list OutlineUser) (user_issue : option Z) :
  keeps_calls (remove_keys_from_db keys user_issue).
Proof.
  unfold remove_keys_from_db. apply kc_bind; [auto with kc|].
  intros d. apply kc_deactivate_keys.
Qed.

#[local] Hint Resolve kc_apply_prefix kc_remove_keys_from_db : kc.

Lemma kc_legacy_loop
      (env : Env) (user : Vpnuser) (request_type : string) (group_id : option Z)
      (new_rep : Z) (server_list : list OutlineServer)
      (outline_user : option OutlineUser) (prefix_str : option string) :
  REAL_VPN_SERVERS (settings env) = false ->
  keeps_calls (legacy_loop env user request_type group_id new_rep server_list
                 outline_user prefix_str).
Proof.
  intros Hsim. revert outline_user prefix_str.
  induction server_list as [|server rest IH]; intros outline_user prefix_str;
    cbn [legacy_loop]; [apply kc_ret|].
  pose proof (kc_create_key_on_server env server Hsim).
  auto 12 with kc.
Qed.

Lemma kc_create_keys (env : Env) (user : Vpnuser) (request_type : string)
      (model : option Z) :
  REAL_VPN_SERVERS (settings env) = false ->
  request_type <> "gtf" ->
  keeps_calls (create_keys env user request_type model).
Proof.
  intros Hsim Hne. apply String.eqb_neq in Hne.
  unfold create_keys, save_user. rewrite Hne. cbv zeta.
  pose proof (fun s => kc_create_key_on_server env s Hsim).
  pose proof (fun t g r l o p => kc_legacy_loop env user t g r l o p Hsim).
  auto 20 with kc.
Qed.

(** X30. With REAL_VPN_SERVERS off, a request that names a type other
    than 'gtf' makes no backend call, however [create] ends: keys are
    made up, revocation is skipped and no configuration file is written.
    (A 'gtf' request calls the GTF endpoint in either mode.) *)
Theorem create_simulated_makes_no_call
        (env : Env) (vd : ValidatedData) (w : World) (t : string) :
  REAL_VPN_SERVERS (settings env) = false ->
  vd_request_type vd = Some t ->
  t <> "gtf" ->
  calls (snd (create env vd w)) = calls w.
Proof.
  intros Hsim Hrt Hne.
  destruct (create env vd w) as [r w'] eqn:E. cbn [snd].
  assert (Hk : keeps_calls (create env vd)); [|exact (Hk w r w' E)].
  unfold create, random_request_type, weighted_request_type.
  rewrite Hrt, Hsim.
  pose proof (fun u m => kc_create_keys env u t m Hsim Hne).
  pose proof (fun keys => kc_remove_key_from_server env keys Hsim).
  auto 40 with kc.
Qed.

(** X30 on alice's renewal in the basic fleet. *)
Lemma create_simulated_makes_no_call_witness :
  calls (snd renewal_run) = calls (Scenario.world_of Scenario.basic_fleet).
Proof.
  apply (create_simulated_makes_no_call (Scenario.env_ok false)
           (Scenario.request (Some "legacy") None)
           (Scenario.world_of Scenario.basic_fleet) "legacy").
  - reflexivity.
  - reflexivity.
  - discriminate.
Defined.

(** ** A failed upload *)

Lemma nu_subscript {A} (entry : option A) (name : string) :
  never_raises is_upload_error (lift (subscript entry name)).
Proof.
  apply nr_lift. intros e H. destruct entry; inversion H; reflexivity.
Qed.

Lemma nu_objects_get {A} (model : string) (l : list A) :
  never_raises is_upload_error (lift (objects_get model l)).
Proof.
  apply nr_lift. intros e H. destruct l as [|x [|y l]]; inversion H; reflexivity.
Qed.

#[local] Hint Resolve nu_subscript nu_objects_get : nr.

Lemma nu_mark_gone (id : Z) : never_raises is_upload_error (mark_gone id).
Proof. unfold mark_gone. auto 10 with nr. Qed.

#[local] Hint Resolve nu_mark_gone : nr.

Lemma nu_remove_one_key (env : Env) (key : KeyDict) (failed : list Z) :
  never_raises is_upload_error (remove_one_key env key failed).
Proof. unfold remove_one_key. auto 30 with nr. Qed.

Lemma nu_remove_key_from_server (env : Env) (keys : list KeyDict) :
  never_raises is_upload_error (remove_key_from_server env keys).
Proof.
  unfold remove_key_from_server. generalize (@nil Z) as failed.
  induction keys as [|key rest IH]; intros failed; cbn [remove_keys_loop].
  - apply nr_ret.
  - apply nr_bind; [apply nu_remove_one_key | intros f; apply IH].
Qed.

Lemma nu_deactivate_keys (keys : list OutlineUser) (user_issue : option Z) :
  never_raises is_upload_error (deactivate_keys keys user_issue).
Proof.
  induction keys as [|key rest IH]; cbn [deactivate_keys]; auto 10 with nr.
Qed.

Lemma nu_remove_keys_from_db (keys : list OutlineUser) (user_issue : option Z) :
  never_raises is_upload_error (remove_keys_from_db keys user_issue).
Proof.
  unfold remove_keys_from_db. apply nr_bind; [auto with nr|].
  intros d. apply nu_deactivate_keys.
Qed.

Lemma nu_choice {A} (env : Env) (l : list A) :
  never_raises is_upload_error (choice env l).
Proof. unfold choice. auto 10 with nr. Qed.

#[local] Hint Resolve nu_choice nu_remove_key_from_server
  nu_remove_keys_from_db : nr.

Lemma nu_random_request_type (env : Env) (types : list string) :
  never_raises is_upload_error (random_request_type env types).
Proof.
  unfold random_request_type, weighted_request_type. auto 10 with nr.
Qed.

(** X12. When [create] fails with the error of the upload of the
    configuration file, the keys had been made and stored: the mode is the
    real one, the table holds every row it held before, unchanged, followed
    by the rows created for the user, which are active and not removed.
    The failure comes after the transaction, so nothing is rolled back, and
    before the older credentials are revoked. *)
Theorem create_upload_failure_keeps_rows
        (env : Env) (vd : ValidatedData) (w : World) :
  fst (create env vd w) = Raise UploadError ->
  REAL_VPN_SERVERS (settings env) = true
  /\ exists user t rows,
       users_named env (db w) (vd_user vd) = [user]
       /\ outline_users (db (snd (create env vd w)))
          = outline_users (db w) ++ rows
       /\ rows <> []
       /\ Forall (created_for user t) rows
       /\ created_keys (snd (create env vd w)) <> [].
Proof.
  intros H.
  destruct (create env vd w) as [r w'] eqn:E. cbn [fst snd] in *. subst r.
  unfold create in E. rewrite bind_get_db in E.
  destruct (users_named env (db w) (vd_user vd)) as [|user [|u' us]] eqn:Eu;
    try discriminate E.
  unfold bind at 1 in E. unfold ret at 1 in E. cbv beta iota in E.
  destruct (filter _ (outline_keys (db w) user)) as [|k0 ks0]; [|discriminate E].
  destruct (vu_banned user); [discriminate E|].
  destruct (active_types (db w)) as [|t ts]; [discriminate E|].
  apply bind_raise in E. destruct E as [E|(rt & w1 & Hrand & E)].
  { pose proof (nu_random_request_type env (t :: ts) w _ w' E) as Habs.
    discriminate Habs. }
  pose proof (kd_random_request_type env (t :: ts) w _ w1 Hrand) as Hdb1.
  unfold bind at 1 in E. cbv beta iota in E.
  apply bind_raise in E. destruct E as [E|(r & w3 & Hk & E)].
  { exfalso. unfold try_except in E.
    destruct (atomic _ (set_created_keys [] w1)) as [[a|e] wx] eqn:Ea;
      [discriminate E|].
    unfold bind at 1 in E. unfold get_world at 1 in E. cbv beta iota in E.
    destruct (created_keys wx); [discriminate E|].
    apply bind_raise in E. destruct E as [E|(f & wy & _ & E)];
      [|discriminate E].
    pose proof (nu_remove_key_from_server env _ wx _ w' E) as Habs.
    discriminate Habs. }
  assert (Hkeys : create_keys env user
                    (match vd_request_type vd with Some t0 => t0 | None => rt end)
                    (vd_model vd) (set_created_keys [] w1) = (Ok r, w3)).
  { unfold try_except in Hk.
    destruct (atomic _ (set_created_keys [] w1)) as [[a|e] wx] eqn:Ea.
    - inversion Hk; subst a wx. now apply atomic_ok.
    - exfalso. unfold bind at 1 in Hk. unfold get_world at 1 in Hk.
      cbv beta iota in Hk. destruct (created_keys wx).
      + discriminate Hk.
      + unfold bind in Hk.
        destruct (remove_key_from_server env _ wx) as [[f|e'] wy];
          discriminate Hk. }
  destruct r as [outline_user prefix_str].
  assert (Hck : created_keys w3 <> []).
  { clear E. unfold create_keys in Hkeys.
    destruct (_ =? "legacy")%string.
    - apply bind_ok in Hkeys. destruct Hkeys as (d & w0 & _ & Hkeys).
      cbv zeta in Hkeys.
      apply bind_ok in Hkeys. destruct Hkeys as (chosen & w2 & _ & Hkeys).
      destruct chosen as [|s chosen']; [discriminate Hkeys|].
      apply bind_ok in Hkeys. destruct Hkeys as (r & w4 & Hloop & Hkeys).
      apply bind_ok in Hkeys. destruct Hkeys as ([] & w5 & Hsave & Hkeys).
      destruct (fst r); [|discriminate Hkeys].
      inversion Hkeys; subst w3.
      assert (Hc5 : created_keys w5 = created_keys w4).
      { destruct (negb _) in Hsave; inversion Hsave; reflexivity. }
      rewrite Hc5. clear - Hloop.
      cbn [legacy_loop] in Hloop.
      apply bind_ok in Hloop. destruct Hloop as (nk & wa & _ & Hloop).
      cbv zeta in Hloop.
      apply bind_ok in Hloop. destruct Hloop as (kp & wb & _ & Hloop).
      apply bind_ok in Hloop. destruct Hloop as ([] & wc & Ha & Hloop).
      apply bind_ok in Hloop. destruct Hloop as (row & wd & Hc & Hloop).
      inversion Ha; subst wc. inversion Hc; subst wd. clear Ha Hc.
      assert (Hgrow : forall l o p wi wj r0,
                 legacy_loop env user
                   match vd_request_type vd with Some t0 => t0 | None => rt end
                   (if match vd_model vd with
                       | Some m => m
                       | None => DistributionModelChoice.BASIC
                       end =? DistributionModelChoice.LOCATIONED
                    then Some (next_group_id d) else None)
                   (if increase_reputation d user
                         match vd_model vd with
                         | Some m => m
                         | None => DistributionModelChoice.BASIC
                         end
                    then ReputationSystem.after_new_key (vu_reputation user)
                    else vu_reputation user) l o p wi = (Ok r0, wj) ->
                 created_keys wi <> [] -> created_keys wj <> []).
      { induction l as [|s0 l IH]; intros o p wi wj r0 Hrun Hne.
        - inversion Hrun; subst. exact Hne.
        - cbn [legacy_loop] in Hrun.
          apply bind_ok in Hrun. destruct Hrun as (nk0 & w6 & Hn & Hrun).
          assert (H6 : created_keys w6 = created_keys wi).
          { unfold try_except, create_key_on_server in Hn.
            destruct (negb _) in Hn.
            - cbv beta iota delta [bind randint draw ret] in Hn.
              inversion Hn; reflexivity.
            - cbv beta iota delta [bind outline_manager_create_key] in Hn.
              destruct (manager_new env (calls wi) s0); inversion Hn;
                reflexivity. }
          cbv zeta in Hrun.
          apply bind_ok in Hrun. destruct Hrun as (kp0 & w7 & Hp & Hrun).
          assert (H7 : created_keys w7 = created_keys w6).
          { unfold apply_prefix in Hp. rewrite bind_get_db in Hp.
            unfold try_except, choice in Hp.
            destruct (filter pfx_is_active (prefixes (db w6))).
            - inversion Hp; reflexivity.
            - cbv beta iota delta [bind draw ret raise] in Hp.
              destruct (nth_error _ _); inversion Hp; reflexivity. }
          apply bind_ok in Hrun. destruct Hrun as ([] & w8 & Ha & Hrun).
          apply bind_ok in Hrun. destruct Hrun as (row0 & w9 & Hc & Hrun).
          inversion Ha; subst w8. inversion Hc; subst w9. clear Ha Hc.
          apply (IH _ _ _ _ _ Hrun).
          cbn [created_keys set_db set_created_keys].
          intros Habs. apply app_eq_nil in Habs. destruct Habs as (_ & Habs).
          discriminate Habs. }
      apply (Hgrow _ _ _ _ _ _ Hloop).
      cbn [created_keys set_db set_created_keys].
      intros Habs. apply app_eq_nil in Habs. destruct Habs as (_ & Habs).
      discriminate Habs.
    - apply bind_ok in Hkeys. destruct Hkeys as (d & w0 & _ & Hkeys).
      apply bind_ok in Hkeys. destruct Hkeys as (sk & w2 & _ & Hkeys).
      cbv zeta in Hkeys.
      apply bind_ok in Hkeys. destruct Hkeys as (lb & w4 & _ & Hkeys).
      apply bind_ok in Hkeys. destruct Hkeys as (kp & w5 & _ & Hkeys).
      apply bind_ok in Hkeys. destruct Hkeys as ([] & w6 & Ha & Hkeys).
      inversion Ha; subst w6. clear Ha.
      destruct (vd_model vd); [discriminate Hkeys|].
      apply bind_ok in Hkeys. destruct Hkeys as (row & w7 & Hc & Hkeys).
      inversion Hc; subst w7. inversion Hkeys; subst w3.
      cbn [created_keys set_db set_created_keys].
      intros Habs. apply app_eq_nil in Habs. destruct Habs as (_ & Habs).
      discriminate Habs. }
  apply create_keys_rows in Hkeys.
  destruct Hkeys as (rows & Hrows & Hin & Hall & _).
  cbn [db set_created_keys] in Hrows. rewrite Hdb1 in Hrows.
  cbn [fst snd] in E.
  apply bind_raise in E. destruct E as [E|([] & w4 & _ & E)].
  - destruct (REAL_VPN_SERVERS (settings env)); [|discriminate E].
    split; [reflexivity|].
    destruct (update_online_config_rows env _ _ w3 w' _ E) as (Hr & _).
    assert (Hc : created_keys w' = created_keys w3).
    { clear - E. unfold update_online_config in E. cbv zeta in E.
      unfold bind at 1 in E. unfold get_db at 1 in E. cbv beta iota in E.
      unfold bind at 1 in E. unfold get_world at 1 in E. cbv beta iota in E.
      destruct (filter _ (online_configs (db w3))) as [|c [|c' l]].
      - cbv beta iota delta [bind put_db] in E. inversion E; reflexivity.
      - inversion E; reflexivity.
      - inversion E. }
    exists user, (match vd_request_type vd with Some t0 => t0 | None => rt end),
      rows.
    split; [reflexivity|]. split; [now rewrite Hr|].
    split; [intros ->; destruct Hin|]. split; [exact Hall|].
    now rewrite Hc.
  - exfalso.
    assert (Hnr : never_raises is_upload_error
              (match filter (fun k => (ou_request_type k =? "legacy")%string)
                            (outline_keys (db w) user) with
               | _ :: _ =>
                   remove_key_from_server env
                     (get_key_dict
                        (filter (fun k => (ou_request_type k =? "legacy")%string)
                                (outline_keys (db w) user))) ;;;
                   remove_keys_from_db
                     (filter (fun k => (ou_request_type k =? "legacy")%string)
                             (outline_keys (db w) user)) (vd_user_issue vd)
               | [] => ret tt
               end ;;;
               (w0 <- get_world ;; ret (outline_user, created_keys w0)))).
    { auto 20 with nr. }
    pose proof (Hnr w4 _ w' E) as Habs. discriminate Habs.
Qed.

(** X12 on alice's renewal in the basic fleet, when the upload fails. *)
Lemma create_upload_failure_keeps_rows_witness :
  REAL_VPN_SERVERS (settings Scenario.env_upload_fails) = true
  /\ exists user t rows,
       users_named Scenario.env_upload_fails
         (db (Scenario.world_of Scenario.basic_fleet))
         (vd_user (Scenario.request (Some "legacy") None)) = [user]
       /\ outline_users
            (db (snd (create Scenario.env_upload_fails
                        (Scenario.request (Some "legacy") None)
                        (Scenario.world_of Scenario.basic_fleet))))
          = outline_users (db (Scenario.world_of Scenario.basic_fleet)) ++ rows
       /\ rows <> []
       /\ Forall (created_for user t) rows
       /\ created_keys
            (snd (create Scenario.env_upload_fails
                    (Scenario.request (Some "legacy") None)
                    (Scenario.world_of Scenario.basic_fleet))) <> [].
Proof.
  apply (create_upload_failure_keeps_rows Scenario.env_upload_fails
           (Scenario.request (Some "legacy") None)
           (Scenario.world_of Scenario.basic_fleet)).
  vm_compute. reflexivity.
Defined.
